(** * Storefront client: cart coordinator, checkout, orders view, API client

    A shallow embedding of the stateful client logic of the storefront:
    the cart page ([load], [applyCoupon], [prettifyQtyError], [changeQty]),
    the checkout page ([loadQuotes], [prettifyError], [placeOrder],
    [selectedQuote]), the orders page ([load]), the token store
    ([auth.access], [auth.set]) and the request interceptor of the API
    client.

    Every asynchronous handler is split at its [await]: a [_begin] function
    is the synchronous prefix (it returns the state to render and the request
    that is issued), a [_settle] function is the continuation, applied to the
    outcome of the request and to the state that is current when the outcome
    arrives.  The sequential composition with a server oracle carries the
    handler's own name. *)

From Stdlib Require Import ZArith List String Ascii Bool Lia.
From Stdlib Require Import DecimalString DecimalZ DecimalFacts.
From stdpp Require Import base strings gmap.

Import ListNotations.

(** ** JavaScript values *)

Module JS.

(** Numbers.  The quantities, identifiers and status codes handled by the
    pages are integers; [NaN] is what a failed coercion gives.  Fractions and
    infinities are outside this model. *)
Inductive num : Type :=
| NaN
| Int (z : Z).

Inductive prim : Type :=
| PUndef
| PNull
| PBool (b : bool)
| PNum (n : num)
| PStr (s : string).

(** A decoded JSON document, or any other plain value.  An object is the
    list of its own properties in insertion order. *)
Unset Elimination Schemes.
Inductive value : Type :=
| VPrim (p : prim)
| VArr (elems : list value)
| VObj (props : list (string * value)).
Set Elimination Schemes.

Definition obj : Type := list (string * value).

Definition undefined : value := VPrim PUndef.
Definition null : value := VPrim PNull.
Definition VBool (b : bool) : value := VPrim (PBool b).
Definition VNum (n : num) : value := VPrim (PNum n).
Definition VInt (z : Z) : value := VPrim (PNum (Int z)).
Definition VStr (s : string) : value := VPrim (PStr s).

Definition num_eq_dec (a b : num) : {a = b} + {a <> b}.
Proof. decide equality; apply Z.eq_dec. Defined.

Definition prim_eq_dec (a b : prim) : {a = b} + {a <> b}.
Proof.
  decide equality;
    [apply Bool.bool_dec | apply num_eq_dec | apply String.string_dec].
Defined.

(** [ToBoolean]. *)
Definition truthy_prim (p : prim) : bool :=
  match p with
  | PUndef | PNull => false
  | PBool b => b
  | PNum NaN => false
  | PNum (Int z) => negb (Z.eqb z 0)
  | PStr s => negb (String.eqb s "")
  end.

Definition truthy (v : value) : bool :=
  match v with
  | VPrim p => truthy_prim p
  | VArr _ | VObj _ => true
  end.

(** [a || b] on values. *)
Definition or_else (a b : value) : value := if truthy a then a else b.

(** [a === b] where the right operand is a primitive.  Arrays and objects
    compare by identity and are never identical to a primitive. *)
Definition num_seq (a b : num) : bool :=
  match a, b with
  | Int x, Int y => Z.eqb x y
  | _, _ => false
  end.

Definition prim_seq (a b : prim) : bool :=
  match a, b with
  | PUndef, PUndef => true
  | PNull, PNull => true
  | PBool x, PBool y => Bool.eqb x y
  | PNum x, PNum y => num_seq x y
  | PStr x, PStr y => String.eqb x y
  | _, _ => false
  end.

Definition strict_eq (v : value) (p : prim) : bool :=
  match v with
  | VPrim q => prim_seq q p
  | VArr _ | VObj _ => false
  end.

(** Relational operators on numbers: every comparison with [NaN] is false. *)
Definition num_lt (a b : num) : bool :=
  match a, b with
  | Int x, Int y => Z.ltb x y
  | _, _ => false
  end.

Definition num_gt (a b : num) : bool := num_lt b a.

(** *** Own properties *)

Fixpoint lookup_prop (k : string) (o : obj) : option value :=
  match o with
  | [] => None
  | (k', v) :: rest => if String.eqb k k' then Some v else lookup_prop k rest
  end.

(** [v.k] and [v?.k] for a named data property [k].  The property names read
    by the pages are never array indices, [length] or prototype members, so
    only objects carry them; [v.k] on [null] or [undefined] raises and is
    handled where it can happen ([prop_strict]). *)
Definition prop (k : string) (v : value) : value :=
  match v with
  | VObj o => match lookup_prop k o with Some x => x | None => undefined end
  | _ => undefined
  end.

Definition nullish (v : value) : bool :=
  match v with
  | VPrim PUndef | VPrim PNull => true
  | _ => false
  end.

(** [v.k] without optional chaining: [None] is the [TypeError]. *)
Definition prop_strict (k : string) (v : value) : option value :=
  if nullish v then None else Some (prop k v).

(** [o[k] = v] on the property list: an existing key keeps its place. *)
Fixpoint set_prop (k : string) (v : value) (o : obj) : obj :=
  match o with
  | [] => [(k, v)]
  | (k', v') :: rest =>
      if String.eqb k k' then (k, v) :: rest else (k', v') :: set_prop k v rest
  end.

(** [delete o[k]]. *)
Fixpoint delete_prop (k : string) (o : obj) : obj :=
  match o with
  | [] => []
  | (k', v') :: rest =>
      if String.eqb k k' then delete_prop k rest else (k', v') :: delete_prop k rest
  end.

(** *** Decimal rendering of integers *)

Definition string_of_Z (z : Z) : string := NilZero.string_of_int (Z.to_int z).

Definition string_of_nat (n : nat) : string := string_of_Z (Z.of_nat n).

(** The index-keyed properties of an array, as the spread syntax copies
    them. *)
Fixpoint indexed (i : nat) (l : list value) : obj :=
  match l with
  | [] => []
  | x :: rest => (string_of_nat i, x) :: indexed (S i) rest
  end.

Fixpoint chars (s : string) : list value :=
  match s with
  | EmptyString => []
  | String c rest => VStr (String c EmptyString) :: chars rest
  end.

(** [{...v}]: the own enumerable properties of [v]. *)
Definition spread (v : value) : obj :=
  match v with
  | VObj o => o
  | VArr l => indexed 0 l
  | VPrim (PStr s) => indexed 0 (chars s)
  | VPrim _ => []
  end.

(** *** White space and [String.prototype.trim]

    Strings are sequences of bytes holding UTF-8.  [ws_strip] removes one
    white-space character (the [WhiteSpace] and [LineTerminator] productions,
    which are also what [\s] matches) from the front of a string. *)

Definition byte_is (c : ascii) (n : N) : bool := N.eqb (N_of_ascii c) n.

Definition ascii_ws (c : ascii) : bool :=
  let n := N_of_ascii c in
  (N.leb 9 n && N.leb n 13) || N.eqb n 32.

Definition ws_strip (s : string) : option string :=
  match s with
  | EmptyString => None
  | String c s1 =>
      if ascii_ws c then Some s1 else
      match s1 with
      | EmptyString => None
      | String c1 s2 =>
          (* U+00A0 *)
          if byte_is c 194 && byte_is c1 160 then Some s2 else
          match s2 with
          | EmptyString => None
          | String c2 s3 =>
              let n2 := N_of_ascii c2 in
              (* U+1680 *)
              if byte_is c 225 && byte_is c1 154 && byte_is c2 128 then Some s3
              (* U+2000 .. U+200A, U+2028, U+2029, U+202F *)
              else if byte_is c 226 && byte_is c1 128 &&
                      ((N.leb 128 n2 && N.leb n2 138) || N.eqb n2 168 ||
                       N.eqb n2 169 || N.eqb n2 175) then Some s3
              (* U+205F *)
              else if byte_is c 226 && byte_is c1 129 && byte_is c2 159 then Some s3
              (* U+3000 *)
              else if byte_is c 227 && byte_is c1 128 && byte_is c2 128 then Some s3
              (* U+FEFF *)
              else if byte_is c 239 && byte_is c1 187 && byte_is c2 191 then Some s3
              else None
          end
      end
  end.

(** The longest white-space prefix removed ([\s*], and the left half of
    [trim]).  The fuel is the length of the string, which bounds the number
    of characters. *)
Fixpoint skip_ws_fuel (fuel : nat) (s : string) : string :=
  match fuel with
  | O => s
  | S fuel' =>
      match ws_strip s with
      | Some rest => skip_ws_fuel fuel' rest
      | None => s
      end
  end.

Definition skip_ws (s : string) : string := skip_ws_fuel (String.length s) s.

Fixpoint trim_right (s : string) : string :=
  match s with
  | EmptyString => EmptyString
  | String c rest =>
      if String.eqb (skip_ws s) "" then EmptyString else String c (trim_right rest)
  end.

Definition trim (s : string) : string := trim_right (skip_ws s).

(** *** Digits *)

Definition is_digit (c : ascii) : bool :=
  let n := N_of_ascii c in N.leb 48 n && N.leb n 57.

(** The longest prefix of decimal digits ([\d+] when it is not empty), and
    what follows it. *)
Fixpoint span_digits (s : string) : string * string :=
  match s with
  | EmptyString => (EmptyString, EmptyString)
  | String c rest =>
      if is_digit c
      then let '(d, r) := span_digits rest in (String c d, r)
      else (EmptyString, s)
  end.

Fixpoint all_digits (s : string) : bool :=
  match s with
  | EmptyString => true
  | String c rest => is_digit c && all_digits rest
  end.

(** The value of a non-empty string of decimal digits. *)
Definition digits_value (ds : string) : option Z :=
  match ds with
  | EmptyString => None
  | _ => option_map Z.of_uint (NilZero.uint_of_string ds)
  end.

(** *** [String(v)] and [Number(v)]

    Integers are rendered in plain decimal, which is what JavaScript prints
    below 10^21. *)
Definition num_to_string (n : num) : string :=
  match n with
  | NaN => "NaN"
  | Int z => string_of_Z z
  end.

Definition prim_to_string (p : prim) : string :=
  match p with
  | PUndef => "undefined"
  | PNull => "null"
  | PBool true => "true"
  | PBool false => "false"
  | PNum n => num_to_string n
  | PStr s => s
  end.

Fixpoint to_string (v : value) : string :=
  match v with
  | VPrim p => prim_to_string p
  | VObj _ => "[object Object]"
  | VArr l =>
      (fix join (l : list value) : string :=
         match l with
         | [] => EmptyString
         | x :: rest =>
             let sx := if nullish x then EmptyString else to_string x in
             match rest with
             | [] => sx
             | _ :: _ => sx +:+ "," +:+ join rest
             end
         end) l
  end.

(** [Number(s)] on the integer literals: optional white space around an
    optionally signed run of digits; the empty string is 0.  Any other
    spelling is read as [NaN]; the spellings of fractions, exponents, radix
    prefixes and infinities are therefore outside the model ([num_exact]). *)
Definition string_to_number (s : string) : num :=
  let t := trim s in
  match t with
  | EmptyString => Int 0
  | String c rest =>
      if byte_is c 45 then
        match digits_value rest with
        | Some z => if all_digits rest then Int (- z) else NaN
        | None => NaN
        end
      else if byte_is c 43 then
        match digits_value rest with
        | Some z => if all_digits rest then Int z else NaN
        | None => NaN
        end
      else
        match digits_value t with
        | Some z => if all_digits t then Int z else NaN
        | None => NaN
        end
  end.

Definition to_number (v : value) : num :=
  match v with
  | VPrim PUndef => NaN
  | VPrim PNull => Int 0
  | VPrim (PBool b) => if b then Int 1 else Int 0
  | VPrim (PNum n) => n
  | VPrim (PStr s) => string_to_number s
  | VArr _ => string_to_number (to_string v)
  | VObj _ => NaN
  end.

(** [Number(v)] is modelled exactly when [v] is not a string (or an array
    printing as one), or is one that spells an integer the number type holds
    without rounding. *)
Definition num_exact (v : value) : bool :=
  match v with
  | VPrim (PStr _) | VArr _ =>
      match to_number v with
      | Int z => Z.leb (Z.abs z) (2 ^ 53)
      | NaN => false
      end
  | _ => true
  end.

End JS.

Import JS.

(** ** The regular expression [/Available:\s*(\d+)/i] *)

Module Regex.

(** Case-insensitive comparison of a pattern character: under the [i] flag
    a letter of the pattern matches its two ASCII cases and nothing else. *)
Definition lower (c : ascii) : ascii :=
  let n := N_of_ascii c in
  if N.leb 65 n && N.leb n 90 then ascii_of_N (n + 32) else c.

Definition ci_eqb (a b : ascii) : bool := Ascii.eqb (lower a) (lower b).

(** [strip_ci pat s]: what follows [pat] when [s] starts with it. *)
Fixpoint strip_ci (pat s : string) : option string :=
  match pat with
  | EmptyString => Some s
  | String p pat' =>
      match s with
      | EmptyString => None
      | String c s' => if ci_eqb p c then strip_ci pat' s' else None
      end
  end.

(** A match anchored at the front of [s]; the result is capture group 1.
    [\s*] and [\d+] are greedy and cannot give characters back to each
    other, so the match is decided without backtracking. *)
Definition match_here (s : string) : option string :=
  match strip_ci "Available:" s with
  | None => None
  | Some rest =>
      let '(ds, _) := span_digits (skip_ws rest) in
      match ds with
      | EmptyString => None
      | String _ _ => Some ds
      end
  end.

(** [s.match(re)]: the leftmost match. *)
Fixpoint match_available (s : string) : option string :=
  match match_here s with
  | Some ds => Some ds
  | None =>
      match s with
      | EmptyString => None
      | String _ rest => match_available rest
      end
  end.

End Regex.

(** ** HTTP outcomes *)

Module Http.

(** What axios hands to a [catch]: an error whose [response] is present when
    the server answered (with a status outside 2xx) and absent on a
    transport failure. *)
Record http_response : Type := { status : Z; data : value }.

Record error : Type := { response : option http_response }.

Inductive outcome (A : Type) : Type :=
| Resolved (payload : A)
| Rejected (e : error).

Arguments Resolved {A} payload.
Arguments Rejected {A} e.

(** [e?.response?.status === n] *)
Definition status_is (e : error) (n : Z) : bool :=
  match response e with
  | Some r => Z.eqb (status r) n
  | None => false
  end.

(** [e?.response?.data?.k] *)
Definition data_prop (k : string) (e : error) : value :=
  match response e with
  | Some r => prop k (data r)
  | None => undefined
  end.

End Http.

Import Http.

(** ** Token storage ([lib/auth.js]) *)

Module Auth.

(** [localStorage]: string keys, string values. *)
Abbreviation storage := (gmap string string).

Definition TOKEN_KEY : string := "jwt_access".
Definition USER_EMAIL_KEY : string := "user_email".

(** [localStorage.getItem(k)] *)
Definition getItem (k : string) (ls : storage) : value :=
  match ls !! k with
  | Some s => VStr s
  | None => null
  end.

(** [localStorage.setItem(k, v)] stores the string form of [v]. *)
Definition setItem (k : string) (v : value) (ls : storage) : storage :=
  <[k := to_string v]> ls.

Definition removeItem (k : string) (ls : storage) : storage := delete k ls.

(** [auth.access()] *)
Definition access (ls : storage) : value := or_else (getItem TOKEN_KEY ls) null.

(** [auth.set(tokens)] *)
Definition set (tokens : value) (ls : storage) : storage :=
  if truthy (prop "access" tokens)
  then setItem TOKEN_KEY (prop "access" tokens) ls
  else ls.

(** [auth.clear()] *)
Definition clear (ls : storage) : storage := removeItem TOKEN_KEY ls.

(** [currentUser.email] (getter and setter) *)
Definition email (ls : storage) : value := or_else (getItem USER_EMAIL_KEY ls) (VStr "").

Definition set_email (v : value) (ls : storage) : storage :=
  if truthy v then setItem USER_EMAIL_KEY v ls else ls.

End Auth.

(** ** API client ([lib/api.js]) *)

Module Api.

(** The part of an axios request configuration the interceptor touches. *)
Record config : Type := { params : value; headers : obj }.

(** [isPublic], as a truth value. *)
Definition isPublic (cfg : config) : bool :=
  let p := params cfg in
  (truthy p && String.eqb (to_string (prop "_public" p)) "1")
  || (truthy p && strict_eq (prop "_public" p) (PNum (Int 1)))
  || (truthy p && strict_eq (prop "_public" p) (PBool true)).

(** The request interceptor: [api.interceptors.request.use((cfg) => ...)]. *)
Definition interceptor (ls : Auth.storage) (cfg : config) : config :=
  if negb (isPublic cfg) then
    let token := Auth.access ls in
    if truthy token
    then {| params := params cfg;
            headers := set_prop "Authorization"
                         (VStr ("Bearer " +:+ to_string token)) (headers cfg) |}
    else cfg
  else if truthy (prop "Authorization" (VObj (headers cfg)))
  then {| params := params cfg; headers := delete_prop "Authorization" (headers cfg) |}
  else cfg.

End Api.

(** ** Cart page ([pages/CartPage.jsx]) *)

Module Cart.

Record page : Type := {
  cart : value;            (* null until the first load settles *)
  code : string;
  err : value;
  busy : bool;
  busyIds : list prim      (* the Set of in-flight item ids *)
}.

Definition initial : page :=
  {| cart := null; code := ""; err := VStr ""; busy := false; busyIds := [] |}.

Definition with_cart (c : value) (st : page) : page :=
  {| cart := c; code := code st; err := err st; busy := busy st; busyIds := busyIds st |}.
Definition with_code (c : string) (st : page) : page :=
  {| cart := cart st; code := c; err := err st; busy := busy st; busyIds := busyIds st |}.
Definition with_err (e : value) (st : page) : page :=
  {| cart := cart st; code := code st; err := e; busy := busy st; busyIds := busyIds st |}.
Definition with_busy (b : bool) (st : page) : page :=
  {| cart := cart st; code := code st; err := err st; busy := b; busyIds := busyIds st |}.
Definition with_busyIds (ids : list prim) (st : page) : page :=
  {| cart := cart st; code := code st; err := err st; busy := busy st; busyIds := ids |}.

(** The calls the page makes; all of them are public. *)
Inductive request : Type :=
| GetCart
| PostCoupon (code : string)
| PatchItem (itemId : prim) (qty : num)
| DeleteItem (itemId : prim).

Definition isItemBusy (id : prim) (st : page) : bool :=
  if in_dec prim_eq_dec id (busyIds st) then true else false.

(** [setItemBusy(id, on)]: a functional update of the Set. *)
Definition setItemBusy (id : prim) (on : bool) (st : page) : page :=
  let prev := busyIds st in
  let next :=
    if on
    then (if in_dec prim_eq_dec id prev then prev else prev ++ [id])
    else remove prim_eq_dec id prev in
  with_busyIds next st.

(** *** [load] *)

Definition emptyCart : value :=
  VObj [ ("version", null);
         ("items", VArr []);
         ("subtotal", VInt 0);
         ("discount_total", VInt 0);
         ("tax_total", VInt 0);
         ("shipping_total", VInt 0);
         ("grand_total", VInt 0);
         ("coupon", null) ].

Definition load_begin (st : page) : page * request :=
  (with_err (VStr "") st, GetCart).

Definition load_settle (r : outcome value) (st : page) : page :=
  match r with
  | Resolved d => with_cart d st
  | Rejected e =>
      with_cart emptyCart
        (with_err
           (or_else (data_prop "detail" e)
                    (VStr "Could not load cart. Please refresh the page."))
           st)
  end.

Definition load (server : request -> outcome value) (st : page) : page :=
  let '(st1, rq) := load_begin st in load_settle (server rq) st1.

(** [maxQty]: [Number(cart?.max_qty || 0) || null].  A truthy number is a
    non-zero integer; [None] is [null]. *)
Definition maxQty (st : page) : option Z :=
  match to_number (or_else (prop "max_qty" (cart st)) (VInt 0)) with
  | Int z => if Z.eqb z 0 then None else Some z
  | NaN => None
  end.

(** *** [applyCoupon] and [removeCoupon] *)

(** The message computed in the [catch] of [applyCoupon]. *)
Definition applyCoupon_msg (e : error) : value :=
  or_else (data_prop "detail" e)
    (or_else (data_prop "message" e)
       (if status_is e 429
        then VStr "Too many attempts. Please wait a moment and try again."
        else VStr "Coupon failed. Check the code and try again.")).

(** [None]: the code is blank and the handler returns at once. *)
Definition applyCoupon_begin (st : page) : option (page * request) :=
  let codeTrim := trim (code st) in
  if String.eqb codeTrim "" then None
  else Some (with_err (VStr "") (with_busy true st), PostCoupon codeTrim).

(** [reload] is the outcome of the cart fetch that follows a success. *)
Definition applyCoupon_settle (r reload : outcome value) (st : page) : page :=
  let st' :=
    match r with
    | Resolved _ => load_settle reload (fst (load_begin (with_code "" st)))
    | Rejected e => with_err (applyCoupon_msg e) st
    end in
  with_busy false st'.

Definition applyCoupon (server : request -> outcome value) (st : page) : page :=
  match applyCoupon_begin st with
  | None => st
  | Some (st1, rq) => applyCoupon_settle (server rq) (server GetCart) st1
  end.

Definition removeCoupon_begin (st : page) : page * request :=
  (with_err (VStr "") (with_busy true st), PostCoupon "").

Definition removeCoupon_settle (r reload : outcome value) (st : page) : page :=
  let st' :=
    match r with
    | Resolved _ => load_settle reload (fst (load_begin st))
    | Rejected e =>
        with_err (or_else (data_prop "detail" e)
                          (VStr "Could not remove coupon. Please retry.")) st
    end in
  with_busy false st'.

(** *** [prettifyQtyError] *)

Definition prettifyQtyError (e : error) : value :=
  if status_is e 429
  then VStr "You're doing that too quickly. Please slow down and try again."
  else
    let raw :=
      or_else (data_prop "detail" e)
        (or_else (data_prop "message" e) (VStr "Could not update quantity.")) in
    let m := Regex.match_available (to_string raw) in
    match status_is e 409, m with
    | true, Some m1 =>
        let avail := to_number (VStr m1) in
        VStr ("Stock changed — only " +:+ num_to_string avail +:+ " left.")
    | _, _ => raw
    end.

(** *** [changeQty] *)

(** The two clamps at the head of [changeQty]. *)
Definition clampQty (mq : option Z) (nextQty : num) : num :=
  let n1 := if num_lt nextQty (Int 1) then Int 1 else nextQty in
  match mq with
  | Some m => if num_gt n1 (Int m) then Int m else n1
  | None => n1
  end.

(** The callback of [items.map]: [None] is the [TypeError] of reading [id]
    from [null] or [undefined]. *)
Definition rewrite_item (itemId : prim) (q : num) (it : value) : option value :=
  match prop_strict "id" it with
  | None => None
  | Some i =>
      if strict_eq i itemId
      then Some (VObj (set_prop "qty" (VNum q) (spread it)))
      else Some it
  end.

Fixpoint map_items (f : value -> option value) (l : list value) : option (list value) :=
  match l with
  | [] => Some []
  | x :: rest =>
      match f x with
      | None => None
      | Some y =>
          match map_items f rest with
          | None => None
          | Some ys => Some (y :: ys)
          end
      end
  end.

(** The optimistic cart [next]; [None] when building it raises (an [items]
    that is truthy but has no [map], or a [null] line). *)
Definition optimistic (c : value) (itemId : prim) (q : num) : option value :=
  match or_else (prop "items" c) (VArr []) with
  | VArr l =>
      match map_items (rewrite_item itemId q) l with
      | Some l' => Some (VObj (set_prop "items" (VArr l') (spread c)))
      | None => None
      end
  | _ => None
  end.

(** What the continuation of [changeQty] remembers across the [await]. *)
Record pending : Type := { prev : value; item : prim; qty : num }.

(** Up to the PATCH call.  [None]: an exception before any state was set. *)
Definition changeQty_begin (itemId : prim) (nextQty : num) (st : page)
  : option (page * pending * request) :=
  let q := clampQty (maxQty st) nextQty in
  match optimistic (cart st) itemId q with
  | None => None
  | Some next =>
      let st1 := with_err (VStr "") (setItemBusy itemId true (with_cart next st)) in
      Some (st1, {| prev := cart st; item := itemId; qty := q |}, PatchItem itemId q)
  end.

Definition changeQty_settle (p : pending) (r reload : outcome value) (st : page) : page :=
  let st' :=
    match r with
    | Resolved _ => load_settle reload (fst (load_begin st))
    | Rejected e => with_err (prettifyQtyError e) (with_cart (prev p) st)
    end in
  setItemBusy (item p) false st'.

Definition changeQty (server : request -> outcome value)
  (itemId : prim) (nextQty : num) (st : page) : option page :=
  match changeQty_begin itemId nextQty st with
  | None => None
  | Some (st1, p, rq) => Some (changeQty_settle p (server rq) (server GetCart) st1)
  end.

(** *** [removeItem] *)

Definition removeItem_begin (itemId : prim) (st : page) : page * request :=
  (with_err (VStr "") (setItemBusy itemId true st), DeleteItem itemId).

Definition removeItem_settle (itemId : prim) (r reload : outcome value) (st : page) : page :=
  let st' :=
    match r with
    | Resolved _ => load_settle reload (fst (load_begin st))
    | Rejected e =>
        with_err (or_else (data_prop "detail" e)
                          (VStr "Could not remove item. Please retry.")) st
    end in
  setItemBusy itemId false st'.

End Cart.

(** ** Checkout page ([pages/CheckoutPage.jsx]) *)

Module Checkout.

(** A shipping quote: its [id], a JSON scalar, and its other properties
    ([name], [code], [rate]). *)
Record quote : Type := { id : prim; fields : obj }.

Record page : Type := {
  email : string;
  address : obj;
  cartTotals : value;
  quotes : list quote;
  shippingId : prim;       (* null until a quote is selected *)
  loading : bool;
  order : value;
  err : value
}.

Definition with_quotes (l : list quote) (st : page) : page :=
  {| email := email st; address := address st; cartTotals := cartTotals st;
     quotes := l; shippingId := shippingId st; loading := loading st;
     order := order st; err := err st |}.
Definition with_shippingId (i : prim) (st : page) : page :=
  {| email := email st; address := address st; cartTotals := cartTotals st;
     quotes := quotes st; shippingId := i; loading := loading st;
     order := order st; err := err st |}.
Definition with_loading (b : bool) (st : page) : page :=
  {| email := email st; address := address st; cartTotals := cartTotals st;
     quotes := quotes st; shippingId := shippingId st; loading := b;
     order := order st; err := err st |}.
Definition with_order (o : value) (st : page) : page :=
  {| email := email st; address := address st; cartTotals := cartTotals st;
     quotes := quotes st; shippingId := shippingId st; loading := loading st;
     order := o; err := err st |}.
Definition with_err (e : value) (st : page) : page :=
  {| email := email st; address := address st; cartTotals := cartTotals st;
     quotes := quotes st; shippingId := shippingId st; loading := loading st;
     order := order st; err := e |}.

Inductive request : Type :=
| PostQuote (subtotal : value)
| PostCheckout (shipping_method_id : option prim).

(** *** [loadQuotes] *)


(** [list.length ? list[0].id : null] *)
Definition first_id (list : list quote) : prim :=
  match list with
  | [] => PNull
  | q :: _ => id q
  end.

(** The updater passed to [setQuotes]; [sid] is the [shippingId] the
    callback closed over. *)
Definition quotes_updater (sid : prim) (list : list quote) (st : page) : page :=
  let stillThere := existsb (fun q => prim_seq (id q) sid) list in
  let st1 := if stillThere then st else with_shippingId (first_id list) st in
  with_quotes list st1.

(** [if (!shippingId && list.length) setShippingId(list[0].id)] *)
Definition select_default (sid : prim) (list : list quote) (st : page) : page :=
  match list with
  | q :: _ => if truthy_prim sid then st else with_shippingId (id q) st
  | [] => st
  end.

(** The continuation after the quote request; the body [r.data] is an array
    of quotes or absent. *)
Definition loadQuotes_settle (sid : prim) (r : outcome (option (list quote)))
  (st : page) : page :=
  match r with
  | Resolved d =>
      let list := match d with Some l => l | None => [] end in
      select_default sid list (quotes_updater sid list st)
  | Rejected _ => with_quotes [] st
  end.


(** *** [selectedQuote] *)

Definition selectedQuote (st : page) : option quote :=
  match quotes st with
  | [] => None
  | q0 :: _ =>
      match find (fun x => prim_seq (id x) (shippingId st)) (quotes st) with
      | Some q => Some q
      | None => Some q0
      end
  end.

(** *** [prettifyError] *)

Definition prettifyError (e : error) : value :=
  if status_is e 429
  then VStr "Too many requests — please try again in a moment."
  else
    let raw :=
      or_else (data_prop "detail" e)
        (or_else (data_prop "message" e) (VStr "Could not place order.")) in
    if status_is e 409 then
      match Regex.match_available (to_string raw) with
      | Some m1 =>
          VStr ("Stock changed — only " +:+ m1 +:+ " left on one or more items.")
      | None => raw
      end
    else raw.

(** *** [placeOrder] *)

(** [x.length] for the values [cartTotals?.items] can take. *)
Definition length_of (v : value) : value :=
  match v with
  | VArr l => VInt (Z.of_nat (List.length l))
  | VPrim (PStr s) => VInt (Z.of_nat (String.length s))
  | VObj _ => prop "length" v
  | VPrim _ => undefined
  end.

Definition canSubmit (st : page) : bool :=
  let has k := truthy (prop k (VObj (address st))) in
  negb (String.eqb (email st) "")
  && has "full_name" && has "phone" && has "line1" && has "city"
  && has "state" && has "postal_code" && has "country"
  && num_gt (to_number (or_else (length_of (prop "items" (cartTotals st))) (VInt 0)))
            (Int 0).

(** [None]: the form is incomplete or a submission is running.  Of the body
    only the chosen shipping method is kept. *)
Definition placeOrder_begin (st : page) : option (page * request) :=
  if negb (canSubmit st) || loading st then None
  else
    let method := if truthy_prim (shippingId st) then Some (shippingId st) else None in
    Some (with_err (VStr "") (with_loading true st), PostCheckout method).

Definition placeOrder_settle (r : outcome value) (st : page) : page :=
  let st' :=
    match r with
    | Resolved d => with_order d st
    | Rejected e2 => with_err (prettifyError e2) st
    end in
  with_loading false st'.

(** *** The load of the cart totals

    The effect that runs once on mount: [setCartTotals(r.data)], and
    [setCartTotals(null)] in the [catch]. *)
Definition with_cartTotals (c : value) (st : page) : page :=
  {| email := email st; address := address st; cartTotals := c;
     quotes := quotes st; shippingId := shippingId st; loading := loading st;
     order := order st; err := err st |}.

Definition loadTotals_settle (r : outcome value) (st : page) : page :=
  match r with
  | Resolved d => with_cartTotals d st
  | Rejected _ => with_cartTotals null st
  end.

End Checkout.

(** ** Orders page ([pages/OrdersPage.jsx]) *)

Module Orders.

Record page : Type := {
  orders : value;          (* null while the first load is running *)
  err : value;
  loadedRef : bool
}.

Definition initial : page := {| orders := null; err := VStr ""; loadedRef := false |}.

Inductive request : Type :=
| GetMyOrders                      (* GET /orders/me/, with the bearer token *)
| GetOrdersByEmail (email : string). (* GET /orders/?email=..., public *)

(** [isAuthed], computed once when the page mounts. *)
Definition isAuthed (ls : Auth.storage) : bool := truthy (Auth.access ls).

(** [(currentUser.email || "").trim() || "buyer@example.com"] *)
Definition demoEmail (ls : Auth.storage) : string :=
  let e := trim (to_string (or_else (Auth.email ls) (VStr ""))) in
  if String.eqb e "" then "buyer@example.com" else e.

(** [load], run against a server; the second component lists the requests
    in the order they were issued. *)
Definition load (server : request -> outcome value) (authed : bool)
  (ls : Auth.storage) (st : page) : page * list request :=
  let first := if authed then GetMyOrders else GetOrdersByEmail (demoEmail ls) in
  let '(orders', err', sent) :=
    match server first with
    | Resolved d => (or_else d (VArr []), VStr "", [first])
    | Rejected e =>
        if authed && status_is e 401 && negb (loadedRef st) then
          let second := GetOrdersByEmail (demoEmail ls) in
          match server second with
          | Resolved body2 =>
              (or_else body2 (VArr []), VStr "Session expired. Showing demo orders.",
               [first; second])
          | Rejected _ => (VArr [], VStr "Could not load orders.", [first; second])
          end
        else (VArr [], VStr "Could not load orders.", [first])
    end in
  ({| orders := orders'; err := err'; loadedRef := true |}, sent).

End Orders.

(** ** Number operators *)

Module JSNum.

(** [a + b], [a - b] on numbers: [NaN] absorbs. *)
Definition add (a b : num) : num :=
  match a, b with
  | Int x, Int y => Int (x + y)
  | _, _ => NaN
  end.

Definition sub (a b : num) : num :=
  match a, b with
  | Int x, Int y => Int (x - y)
  | _, _ => NaN
  end.

(** [a >= b] *)
Definition ge (a b : num) : bool :=
  match a, b with
  | Int x, Int y => Z.leb y x
  | _, _ => false
  end.

(** [Math.min(a, b)] and [Math.max(a, b)]: [NaN] when either is. *)
Definition min (a b : num) : num :=
  match a, b with
  | Int x, Int y => Int (Z.min x y)
  | _, _ => NaN
  end.

Definition max (a b : num) : num :=
  match a, b with
  | Int x, Int y => Int (Z.max x y)
  | _, _ => NaN
  end.

End JSNum.

(** ** Cart page: the controls of a line and the checkout link *)

Module CartControls.

(** [Number(it.qty || 1) - 1], what the minus button asks for. *)
Definition decrease_qty (it : value) : num :=
  JSNum.sub (to_number (or_else (prop "qty" it) (VInt 1))) (Int 1).

(** [Number(it.qty || 0) + 1], what the plus button asks for. *)
Definition increase_qty (it : value) : num :=
  JSNum.add (to_number (or_else (prop "qty" it) (VInt 0))) (Int 1).

(** [disabled]: [busy || isItemBusy(it.id)], for a line whose id is [i]. *)
Definition disabled (i : prim) (st : Cart.page) : bool :=
  Cart.busy st || Cart.isItemBusy i st.

(** The plus button is disabled under
    [disabled || (maxQty && Number(it.qty || 0) >= maxQty)]. *)
Definition plus_disabled (i : prim) (it : value) (st : Cart.page) : bool :=
  disabled i st
  || match Cart.maxQty st with
     | Some m => JSNum.ge (to_number (or_else (prop "qty" it) (VInt 0))) (Int m)
     | None => false
     end.

(** [items]: [cart?.items || []] *)
Definition items (st : Cart.page) : value :=
  or_else (prop "items" (Cart.cart st)) (VArr []).

(** [canCheckout]: [items.length > 0] *)
Definition canCheckout (st : Cart.page) : bool :=
  num_gt (to_number (Checkout.length_of (items st))) (Int 0).

End CartControls.

(** ** My-orders page ([pages/MyOrders.jsx]) *)

Module MyOrders.

Record page : Type := {
  orders : value;          (* null until a load settles *)
  err : value;
  loading : bool;
  redirectedRef : bool
}.

Definition initial : page :=
  {| orders := null; err := VStr ""; loading := true; redirectedRef := false |}.

(** What a load does to the outside: the authenticated fetch, and
    [nav("/login", { state: { from: "/my-orders" } })]. *)
Inductive effect : Type :=
| GetMyOrders
| NavLogin.

(** [load]; [answer] is the outcome of the fetch, when it is issued, and
    [ls] the storage at the time of the call. *)
Definition load (answer : outcome value) (ls : Auth.storage) (st : page)
  : page * list effect :=
  if negb (truthy (Auth.access ls)) then
    if redirectedRef st then (st, [])
    else ({| orders := orders st; err := err st; loading := loading st;
             redirectedRef := true |}, [NavLogin])
  else
    match answer with
    | Resolved d =>
        ({| orders := or_else d (VArr []); err := VStr ""; loading := false;
            redirectedRef := redirectedRef st |}, [GetMyOrders])
    | Rejected e =>
        if status_is e 401 && negb (redirectedRef st) then
          ({| orders := orders st; err := VStr ""; loading := false;
              redirectedRef := true |}, [GetMyOrders; NavLogin])
        else
          ({| orders := VArr []; err := VStr "Could not load your orders.";
              loading := false; redirectedRef := redirectedRef st |}, [GetMyOrders])
    end.

(** Successive loads (the mount and the Retry button), each with the answer
    and the storage it meets; the effects are listed in order. *)
Fixpoint loads (runs : list (outcome value * Auth.storage)) (st : page)
  : page * list effect :=
  match runs with
  | [] => (st, [])
  | (answer, ls) :: rest =>
      let '(st1, fx1) := load answer ls st in
      let '(st2, fx2) := loads rest st1 in
      (st2, fx1 ++ fx2)
  end.

End MyOrders.

(** ** Login page ([pages/Login.jsx]) *)

Module Login.

Record page : Type := {
  username : string;
  password : string;
  err : value;
  busy : bool
}.

Definition with_err (e : value) (st : page) : page :=
  {| username := username st; password := password st; err := e; busy := busy st |}.
Definition with_busy (b : bool) (st : page) : page :=
  {| username := username st; password := password st; err := err st; busy := b |}.

(** How [submit] starts: it returns at once while busy, refuses a missing
    username or password with a message, or posts the credentials. *)
Inductive attempt : Type :=
| Ignored
| Refused (st : page)
| Posted (st : page) (uname pw : string).

Definition submit_begin (st : page) : attempt :=
  if busy st then Ignored
  else
    let uname := trim (username st) in
    let pw := password st in
    if String.eqb uname "" || String.eqb pw "" then
      Refused (with_err (VStr "Please enter username and password.") st)
    else Posted (with_busy true (with_err (VStr "") st)) uname pw.

(** The message of the [catch]. *)
Definition error_message (ex : error) : value :=
  let data :=
    or_else (match response ex with Some r => Http.data r | None => undefined end)
            (VObj []) in
  or_else (prop "detail" data)
    (or_else
       (match prop "non_field_errors" data with
        | VArr (x :: _) => x
        | VArr [] => undefined
        | _ => VBool false
        end)
       (or_else (prop "message" data) (VStr "Invalid credentials"))).

(** [loc.state?.from || "/my-orders"] *)
Definition destination (from : value) : value := or_else from (VStr "/my-orders").

(** After the token request: the page, the storage, and the navigation if
    there is one. *)
Definition submit_settle (r : outcome value) (from : value)
  (ls : Auth.storage) (st : page) : page * Auth.storage * option value :=
  match r with
  | Resolved d => (with_busy false st, Auth.set d ls, Some (destination from))
  | Rejected ex => (with_busy false (with_err (error_message ex) st), ls, None)
  end.

End Login.

(** ** Admin guard ([admin/AdminGuard.jsx]) *)

Module AdminGuard.

Inductive nav : Type :=
| ToLogin      (* nav("/login", { replace: true, state: { from: "/admin" } }) *)
| ToHome.      (* nav("/", { replace: true }) *)

Record result : Type := {
  ok : value;              (* null: still checking *)
  requested : bool;        (* GET /backoffice/me was issued *)
  navigated : option nav
}.

Definition check (answer : outcome value) (ls : Auth.storage) : result :=
  if negb (truthy (Auth.access ls)) then
    {| ok := null; requested := false; navigated := Some ToLogin |}
  else
    match answer with
    | Resolved d =>
        if truthy (prop "is_staff" d)
        then {| ok := VBool true; requested := true; navigated := None |}
        else {| ok := VBool false; requested := true; navigated := Some ToHome |}
    | Rejected _ => {| ok := VBool false; requested := true; navigated := Some ToHome |}
    end.

(** The guard shows its children when [ok] is truthy. *)
Definition shows_children (r : result) : bool := truthy (ok r).

End AdminGuard.

(** ** Returns page ([pages/Returns.jsx]) *)

Module Returns.

Record page : Type := {
  order : value;
  items : value;
  rmas : value;
  attsByReturn : obj;
  qty : num;
  reason : string;
  selectedItem : prim;     (* a non-zero number, or null *)
  file : bool;             (* a file is chosen *)
  err : value;
  busy : bool;
  uploading : bool
}.

Definition with_returns (l : value) (atts : obj) (st : page) : page :=
  {| order := order st; items := items st; rmas := l; attsByReturn := atts;
     qty := qty st; reason := reason st; selectedItem := selectedItem st;
     file := file st; err := err st; busy := busy st; uploading := uploading st |}.
Definition with_form (sel : prim) (q : num) (why : string) (st : page) : page :=
  {| order := order st; items := items st; rmas := rmas st;
     attsByReturn := attsByReturn st; qty := q; reason := why; selectedItem := sel;
     file := file st; err := err st; busy := busy st; uploading := uploading st |}.
Definition with_file (f : bool) (st : page) : page :=
  {| order := order st; items := items st; rmas := rmas st;
     attsByReturn := attsByReturn st; qty := qty st; reason := reason st;
     selectedItem := selectedItem st; file := f; err := err st; busy := busy st;
     uploading := uploading st |}.
Definition with_err (e : value) (st : page) : page :=
  {| order := order st; items := items st; rmas := rmas st;
     attsByReturn := attsByReturn st; qty := qty st; reason := reason st;
     selectedItem := selectedItem st; file := file st; err := e; busy := busy st;
     uploading := uploading st |}.
Definition with_busy (b : bool) (st : page) : page :=
  {| order := order st; items := items st; rmas := rmas st;
     attsByReturn := attsByReturn st; qty := qty st; reason := reason st;
     selectedItem := selectedItem st; file := file st; err := err st; busy := b;
     uploading := uploading st |}.
Definition with_uploading (b : bool) (st : page) : page :=
  {| order := order st; items := items st; rmas := rmas st;
     attsByReturn := attsByReturn st; qty := qty st; reason := reason st;
     selectedItem := selectedItem st; file := file st; err := err st; busy := busy st;
     uploading := b |}.

(** The calls of the page; ids appear in the paths in their string form. *)
Inductive request : Type :=
| GetReturns (orderId : string)
| GetAttachments (orderId returnId : string)
| PostReturn (orderId : string) (order_item_id : prim) (qty : num) (reason : string)
| PostAttachment (orderId returnId : string).

(** *** [loadReturns] *)

(** One entry of the attachment map: [[rr.id, ra.data || []]], or
    [[rr.id, []]] when that fetch fails.  [None] is the [TypeError] of reading
    [id] from [null] or [undefined]. *)
Definition attachments_entry (server : request -> outcome value) (orderId : string)
  (rr : value) : option (string * value) :=
  match prop_strict "id" rr with
  | None => None
  | Some i =>
      let key := to_string i in
      match server (GetAttachments orderId key) with
      | Resolved d => Some (key, or_else d (VArr []))
      | Rejected _ => Some (key, VArr [])
      end
  end.

Fixpoint attachments_entries (server : request -> outcome value) (orderId : string)
  (l : list value) : option (list (string * value)) :=
  match l with
  | [] => Some []
  | rr :: rest =>
      match attachments_entry server orderId rr with
      | None => None
      | Some en =>
          match attachments_entries server orderId rest with
          | None => None
          | Some ens => Some (en :: ens)
          end
      end
  end.

(** [Object.fromEntries]: later entries overwrite earlier ones. *)
Definition fromEntries (entries : list (string * value)) : obj :=
  fold_left (fun o en => set_prop (fst en) (snd en) o) entries [].

Definition loadReturns (server : request -> outcome value) (orderId : string)
  (st : page) : page :=
  match server (GetReturns orderId) with
  | Rejected _ => with_returns (VArr []) [] st
  | Resolved d =>
      match or_else d (VArr []) with
      | VArr l =>
          match attachments_entries server orderId l with
          | Some entries => with_returns (VArr l) (fromEntries entries) st
          | None => with_returns (VArr []) [] st
          end
      | _ => with_returns (VArr []) [] st
      end
  end.

(** *** [maxQtyForSelected] *)

(** [items.find((i) => i.id === selectedItem)]; the outer [None] is the
    [TypeError] of a [null] entry. *)
Fixpoint find_item (sel : prim) (l : list value) : option (option value) :=
  match l with
  | [] => Some None
  | x :: rest =>
      match prop_strict "id" x with
      | None => None
      | Some i => if strict_eq i sel then Some (Some x) else find_item sel rest
      end
  end.

Definition maxQtyForSelected (st : page) : option num :=
  match items st with
  | VArr l =>
      match find_item (selectedItem st) l with
      | None => None
      | Some (Some it) =>
          if truthy it
          then Some (to_number (or_else (prop "qty" it) (VInt 1)))
          else Some (Int 1)
      | Some None => Some (Int 1)
      end
  | _ => None
  end.

(** The quantity field: [Math.max(1, Math.min(Number(text) || 1, max))]. *)
Definition qty_input (text : string) (maxQ : num) : num :=
  let typed :=
    match to_number (VStr text) with
    | Int z => if Z.eqb z 0 then Int 1 else Int z
    | NaN => Int 1
    end in
  JSNum.max (Int 1) (JSNum.min typed maxQ).

(** *** [createRma] *)

Inductive attempt (A : Type) : Type :=
| Returned           (* the guard returned, nothing happened *)
| Raised             (* the render that computes [maxQtyForSelected] raised *)
| Issued (a : A).

Arguments Returned {A}.
Arguments Raised {A}.
Arguments Issued {A} a.

(** [s.slice(0, 200)], counted in the code units of the model (bytes). *)
Definition slice200 (s : string) : string := String.substring 0 200 s.

Definition order_id (st : page) : string := to_string (prop "id" (order st)).

Definition createRma_begin (st : page) : attempt (page * request) :=
  if negb (truthy_prim (selectedItem st)) || negb (truthy (order st)) then Returned
  else
    match maxQtyForSelected st with
    | None => Raised
    | Some maxQ =>
        Issued (with_err (VStr "") (with_busy true st),
                PostReturn (order_id st) (selectedItem st)
                  (JSNum.max (Int 1) (JSNum.min (qty st) maxQ))
                  (slice200 (reason st)))
    end.

Definition createRma_settle (server : request -> outcome value)
  (r : outcome value) (st : page) : page :=
  let st' :=
    match r with
    | Resolved _ =>
        with_form PNull (Int 1) "Did not fit" (loadReturns server (order_id st) st)
    | Rejected e =>
        with_err (or_else (data_prop "detail" e) (VStr "Could not create return.")) st
    end in
  with_busy false st'.

(** *** [upload] *)

Definition upload_begin (attReturnId : value) (st : page) : option (page * request) :=
  if negb (file st) || negb (truthy (order st)) then None
  else Some (with_err (VStr "") (with_uploading true st),
             PostAttachment (order_id st) (to_string attReturnId)).

(** [posted] is the outcome of the upload, [listed] of the fetch of the
    attachment list that follows a success; the boolean says whether the
    "File uploaded" alert was shown. *)
Definition upload_settle (attReturnId : value) (posted listed : outcome value)
  (st : page) : page * bool :=
  let failed e :=
    with_err (or_else (data_prop "detail" e) (VStr "Upload failed.")) st in
  let '(st', alerted) :=
    match posted with
    | Rejected e => (failed e, false)
    | Resolved _ =>
        match listed with
        | Rejected e => (failed e, false)
        | Resolved d =>
            (with_file false
               (with_returns (rmas st)
                  (set_prop (to_string attReturnId) (or_else d (VArr []))
                     (attsByReturn st)) st), true)
        end
    end in
  (with_uploading false st', alerted).

End Returns.

(** ** Vocabulary of the statements *)

(** A cart on which [changeQty] does not raise: [items] is absent (or
    otherwise falsy) or an array without [null] or [undefined] entries. *)
Definition lines_ok (c : value) : bool :=
  match or_else (prop "items" c) (VArr []) with
  | VArr l => forallb (fun it => negb (nullish it)) l
  | _ => false
  end.

(** A cart with two lines and a maximum of five per line, for the examples. *)
Definition sample_cart : value :=
  VObj [ ("version", VStr "2024-05-01T10:00:00Z");
         ("items", VArr [ VObj [("id", VInt 7); ("sku", VStr "TEE-M"); ("qty", VInt 2);
                                ("price", VInt 100)];
                          VObj [("id", VInt 8); ("sku", VStr "CAP"); ("qty", VInt 1);
                                ("price", VInt 50)] ]);
         ("subtotal", VInt 250); ("discount_total", VInt 0); ("tax_total", VInt 45);
         ("shipping_total", VInt 40); ("grand_total", VInt 335);
         ("coupon", null); ("max_qty", VInt 5) ].

Definition sample_page : Cart.page := Cart.with_cart sample_cart Cart.initial.

(** Values whose spread has the same named properties as the value itself:
    everything but arrays and strings, whose spread adds index keys. *)
Definition plain (v : value) : bool :=
  match v with
  | VArr _ | VPrim (PStr _) => false
  | _ => true
  end.

(** A 429 as a throttling backend sends it, and one without a body. *)
Definition throttled : error :=
  {| response := Some {| status := 429;
       data := VObj [("detail", VStr "Request was throttled. Expected available in 30 seconds.")] |} |}.

Definition throttled_bare : error :=
  {| response := Some {| status := 429; data := VStr "" |} |}.

(** [contains sub s]: [sub] occurs in [s]. *)
Fixpoint contains (sub s : string) : bool :=
  if String.prefix sub s then true
  else match s with
       | EmptyString => false
       | String _ rest => contains sub rest
       end.

(** A run of digits without its leading zeros (the last digit stays). *)
Fixpoint strip_zeros (ds : string) : string :=
  match ds with
  | EmptyString => ds
  | String c rest =>
      match rest with
      | EmptyString => ds
      | String _ _ => if Ascii.eqb c "0" then strip_zeros rest else ds
      end
  end.

(** What follows the digits is not a digit. *)
Definition no_digit_head (s : string) : bool :=
  match s with
  | EmptyString => true
  | String c _ => negb (is_digit c)
  end.

(** The text the quantity handler searches: [detail], else [message], else
    its own fallback, as a string. *)
Definition qty_error_text (e : error) : string :=
  to_string (or_else (data_prop "detail" e)
               (or_else (data_prop "message" e) (VStr "Could not update quantity."))).

(** A 409 whose body carries [detail]. *)
Definition stock_conflict (detail : string) : error :=
  {| response := Some {| status := 409; data := VObj [("detail", VStr detail)] |} |}.

(** A checkout page that is ready to submit, with [sel] as its shipping
    method. *)
Definition ready_page (sel : prim) : Checkout.page :=
  {| Checkout.email := "buyer@example.com";
     Checkout.address :=
       [("full_name", VStr "Buyer Test"); ("phone", VStr "9999999999");
        ("line1", VStr "221B Baker Street"); ("line2", VStr "");
        ("city", VStr "Kochi"); ("state", VStr "Kerala");
        ("postal_code", VStr "682001"); ("country", VStr "IN")];
     Checkout.cartTotals := sample_cart;
     Checkout.quotes := []; Checkout.shippingId := sel;
     Checkout.loading := false; Checkout.order := null; Checkout.err := VStr "" |}.

(** How often a run of my-orders loads navigated to the login, and how often
    it fetched. *)
Definition navigations (fx : list MyOrders.effect) : nat :=
  List.length
    (List.filter (fun e => match e with MyOrders.NavLogin => true | _ => false end) fx).

Definition fetches (fx : list MyOrders.effect) : nat :=
  List.length
    (List.filter (fun e => match e with MyOrders.GetMyOrders => true | _ => false end) fx).

(** A load that finds a token in the storage it meets. *)
Definition signed_in (run : outcome value * Auth.storage) : bool :=
  truthy (Auth.access (snd run)).

(** What the attachment map holds for a return: the list the server gives,
    [[]] in its place when it is falsy or when the fetch fails. *)
Definition attachments_of (server : Returns.request -> outcome value)
  (orderId key : string) : value :=
  match server (Returns.GetAttachments orderId key) with
  | Resolved d => or_else d (VArr [])
  | Rejected _ => VArr []
  end.

(** A returns page for order 7 with two lines, and a return started for
    line [sel] with quantity [q]. *)
Definition sample_returns (sel : prim) (q : num) : Returns.page :=
  {| Returns.order := VObj [("id", VInt 7)];
     Returns.items :=
       VArr [VObj [("id", VInt 11); ("qty", VInt 3)];
             VObj [("id", VInt 12); ("qty", VInt 1)]];
     Returns.rmas := VArr [];
     Returns.attsByReturn := [];
     Returns.qty := q;
     Returns.reason := "Did not fit";
     Returns.selectedItem := sel;
     Returns.file := true;
     Returns.err := VStr "";
     Returns.busy := false;
     Returns.uploading := false |}.

(** * Properties *)

(** ** Property lists *)

Section PropertyLists.

Variables (k : string) (v : value).

Lemma lookup_set_same (o : obj) : lookup_prop k (set_prop k v o) = Some v.
Proof.
  induction o as [|[k' v'] rest IH]; simpl.
  - now rewrite String.eqb_refl.
  - destruct (String.eqb k k') eqn:E; simpl; rewrite ?String.eqb_refl, ?E; auto.
Qed.

Lemma lookup_set_other (k0 : string) (o : obj) :
  k0 <> k -> lookup_prop k0 (set_prop k v o) = lookup_prop k0 o.
Proof.
  intros Hne. apply String.eqb_neq in Hne.
  induction o as [|[k' v'] rest IH]; simpl.
  - now rewrite Hne.
  - destruct (String.eqb k k') eqn:E; simpl.
    + apply String.eqb_eq in E. subst k'. now rewrite Hne.
    + now rewrite IH.
Qed.

Lemma lookup_delete_same (o : obj) : lookup_prop k (delete_prop k o) = None.
Proof.
  induction o as [|[k' v'] rest IH]; simpl; auto.
  destruct (String.eqb k k') eqn:E; simpl; rewrite ?E; auto.
Qed.

Lemma lookup_delete_other (k0 : string) (o : obj) :
  k0 <> k -> lookup_prop k0 (delete_prop k o) = lookup_prop k0 o.
Proof.
  intros Hne. apply String.eqb_neq in Hne.
  induction o as [|[k' v'] rest IH]; simpl; auto.
  destruct (String.eqb k k') eqn:E; simpl.
  - apply String.eqb_eq in E. subst k'. now rewrite Hne.
  - now rewrite IH.
Qed.

Lemma prop_set_same (o : obj) : prop k (VObj (set_prop k v o)) = v.
Proof. unfold prop. now rewrite lookup_set_same. Qed.

Lemma prop_set_other (k0 : string) (o : obj) :
  k0 <> k -> prop k0 (VObj (set_prop k v o)) = prop k0 (VObj o).
Proof. intros. unfold prop. now rewrite lookup_set_other. Qed.

End PropertyLists.

(** ** Token store *)

Lemma set_nullish_tokens (tokens : value) :
  nullish tokens = true -> truthy (prop "access" tokens) = false.
Proof. destruct tokens as [[| | | |]| |]; simpl; intros; congruence. Qed.

(** C10. [auth.set(tokens)] with [tokens] null or undefined, or with an
    absent or falsy [access] field, writes nothing: the storage is the same
    and [auth.access()] returns what it returned before. *)
Theorem set_without_access_keeps_token (tokens : value) (ls : Auth.storage) :
  nullish tokens = true \/ truthy (prop "access" tokens) = false ->
  Auth.set tokens ls = ls /\ Auth.access (Auth.set tokens ls) = Auth.access ls.
Proof.
  intros H.
  assert (Hfalsy : truthy (prop "access" tokens) = false)
    by (destruct H as [H|H]; [now apply set_nullish_tokens | exact H]).
  unfold Auth.set. rewrite Hfalsy. split; reflexivity.
Qed.

Lemma set_without_access_keeps_token_witness :
  let ls : Auth.storage := <[Auth.TOKEN_KEY := "abc"%string]> ∅ in
  let tokens := VObj [("access", VStr ""); ("refresh", VStr "r1")] in
  Auth.set tokens ls = ls /\ Auth.access (Auth.set tokens ls) = VStr "abc"
  /\ Auth.access (Auth.set null ls) = VStr "abc".
Proof.
  intros ls tokens.
  destruct (set_without_access_keeps_token tokens ls (or_intror eq_refl)) as [H1 H2].
  destruct (set_without_access_keeps_token null ls (or_introl eq_refl)) as [_ H3].
  split; [exact H1 | split; [rewrite H2 | rewrite H3]; reflexivity].
Defined.

(** What [set] does otherwise, for comparison: a truthy [access] replaces
    the stored token. *)
Lemma set_with_access (tokens : value) (ls : Auth.storage) (t : string) :
  prop "access" tokens = VStr t -> t <> ""%string ->
  Auth.access (Auth.set tokens ls) = VStr t.
Proof.
  intros Hacc Hne. unfold Auth.set, Auth.access, Auth.setItem, Auth.getItem.
  rewrite Hacc. simpl.
  apply String.eqb_neq in Hne. rewrite Hne. simpl.
  rewrite lookup_insert_eq. unfold or_else. simpl. now rewrite Hne.
Qed.

(** ** Cart page *)

(** *** State bookkeeping *)

Lemma cart_setItemBusy id on st : Cart.cart (Cart.setItemBusy id on st) = Cart.cart st.
Proof. reflexivity. Qed.

Lemma err_setItemBusy id on st : Cart.err (Cart.setItemBusy id on st) = Cart.err st.
Proof. reflexivity. Qed.

Lemma setItemBusy_off_not_busy id st :
  Cart.isItemBusy id (Cart.setItemBusy id false st) = false.
Proof.
  unfold Cart.isItemBusy, Cart.setItemBusy; simpl.
  destruct (in_dec prim_eq_dec id (remove prim_eq_dec id (Cart.busyIds st))) as [Hin|]; auto.
  now apply remove_In in Hin.
Qed.

Lemma setItemBusy_on_busy id st :
  Cart.isItemBusy id (Cart.setItemBusy id true st) = true.
Proof.
  unfold Cart.isItemBusy, Cart.setItemBusy; simpl.
  destruct (in_dec prim_eq_dec id (Cart.busyIds st)) as [Hin|Hnin].
  - destruct (in_dec prim_eq_dec id (Cart.busyIds st)); [reflexivity | contradiction].
  - destruct (in_dec prim_eq_dec id (Cart.busyIds st ++ [id])) as [|Hn]; auto.
    exfalso. apply Hn. apply in_or_app. right. now left.
Qed.

(** *** [load] *)

(** C7. A reload that succeeds replaces the whole snapshot by the fetched
    cart; a reload that fails replaces it by the empty cart (no items, the
    five totals zero, no coupon) and sets a non-empty error message. *)
Theorem reload_replaces_snapshot
  (server : Cart.request -> outcome value) (st : Cart.page) :
  (forall d, server Cart.GetCart = Resolved d ->
     Cart.cart (Cart.load server st) = d)
  /\
  (forall e, server Cart.GetCart = Rejected e ->
     let c := Cart.cart (Cart.load server st) in
     c = Cart.emptyCart
     /\ prop "items" c = VArr []
     /\ prop "subtotal" c = VInt 0
     /\ prop "discount_total" c = VInt 0
     /\ prop "tax_total" c = VInt 0
     /\ prop "shipping_total" c = VInt 0
     /\ prop "grand_total" c = VInt 0
     /\ prop "coupon" c = null
     /\ truthy (Cart.err (Cart.load server st)) = true).
Proof.
  split.
  - intros d Hd. unfold Cart.load; simpl. now rewrite Hd.
  - intros e He. unfold Cart.load; simpl. rewrite He; simpl.
    repeat split.
    unfold or_else. destruct (truthy (data_prop "detail" e)) eqn:T; [exact T | reflexivity].
Qed.

Lemma reload_replaces_snapshot_witness :
  let stale := VObj [("items", VArr [VObj [("id", VInt 7); ("qty", VInt 2)]]);
                     ("grand_total", VInt 200); ("coupon", VStr "WELCOME10")] in
  let st := Cart.with_cart stale Cart.initial in
  let fresh := VObj [("items", VArr []); ("grand_total", VInt 0)] in
  let down := {| response := Some {| status := 503; data := VStr "" |} |} in
  Cart.cart (Cart.load (fun _ => Resolved fresh) st) = fresh
  /\ prop "items" (Cart.cart (Cart.load (fun _ => Rejected down) st)) = VArr []
  /\ prop "grand_total" (Cart.cart (Cart.load (fun _ => Rejected down) st)) = VInt 0
  /\ truthy (Cart.err (Cart.load (fun _ => Rejected down) st)) = true.
Proof.
  intros stale st fresh down.
  split.
  - exact (proj1 (reload_replaces_snapshot (fun _ => Resolved fresh) st) fresh eq_refl).
  - pose proof (proj2 (reload_replaces_snapshot (fun _ => Rejected down) st) down eq_refl) as H.
    simpl in H. tauto.
Defined.

(** *** [changeQty]: building the optimistic cart *)

Lemma map_items_total itemId q (l : list value) :
  forallb (fun it => negb (nullish it)) l = true ->
  exists l', Cart.map_items (Cart.rewrite_item itemId q) l = Some l'.
Proof.
  induction l as [|x rest IH]; simpl; intros H.
  - now exists [].
  - apply andb_prop in H as [Hx Hrest].
    destruct (IH Hrest) as [l' Hl'].
    unfold Cart.rewrite_item at 1, prop_strict.
    apply negb_true_iff in Hx. rewrite Hx.
    destruct (strict_eq (prop "id" x) itemId); rewrite Hl'; eauto.
Qed.

Lemma optimistic_total c itemId q :
  lines_ok c = true -> exists next, Cart.optimistic c itemId q = Some next.
Proof.
  unfold lines_ok, Cart.optimistic.
  destruct (or_else (prop "items" c) (VArr [])) as [p|l|o]; try discriminate.
  intros H. destruct (map_items_total itemId q l H) as [l' ->]. eauto.
Qed.

Lemma changeQty_begin_total itemId nextQty st :
  lines_ok (Cart.cart st) = true ->
  exists st1 p, Cart.changeQty_begin itemId nextQty st
                = Some (st1, p, Cart.PatchItem itemId (Cart.clampQty (Cart.maxQty st) nextQty)).
Proof.
  intros H. unfold Cart.changeQty_begin.
  destruct (optimistic_total (Cart.cart st) itemId
              (Cart.clampQty (Cart.maxQty st) nextQty) H) as [next ->].
  eauto.
Qed.

(** What [changeQty_begin] returns, when it returns. *)
Lemma changeQty_begin_inv itemId nextQty st st1 p rq :
  Cart.changeQty_begin itemId nextQty st = Some (st1, p, rq) ->
  let q := Cart.clampQty (Cart.maxQty st) nextQty in
  Cart.optimistic (Cart.cart st) itemId q = Some (Cart.cart st1)
  /\ Cart.prev p = Cart.cart st /\ Cart.item p = itemId /\ Cart.qty p = q
  /\ rq = Cart.PatchItem itemId q.
Proof.
  unfold Cart.changeQty_begin.
  destruct (Cart.optimistic _ _ _) as [next|] eqn:E; [|discriminate].
  intros H. injection H as <- <- <-. simpl. auto.
Qed.

(** C1. When the PATCH of a quantity change is rejected, the cart held by
    the page after the failure is the snapshot taken before the optimistic
    write, whatever the error and whatever happened to the page state while
    the call was in flight.  The handler reaches that point on every cart
    whose lines it can read. *)
Theorem changeQty_failure_restores_snapshot
  (itemId : prim) (nextQty : num) (st : Cart.page) :
  (lines_ok (Cart.cart st) = true ->
     exists st1 p rq, Cart.changeQty_begin itemId nextQty st = Some (st1, p, rq))
  /\
  (forall st1 p rq,
     Cart.changeQty_begin itemId nextQty st = Some (st1, p, rq) ->
     (forall (e : error) (reload : outcome value) (now : Cart.page),
        Cart.cart (Cart.changeQty_settle p (Rejected e) reload now) = Cart.cart st
        /\ forall k, prop k (Cart.cart (Cart.changeQty_settle p (Rejected e) reload now))
                     = prop k (Cart.cart st))
     /\
     (forall (server : Cart.request -> outcome value) (e : error),
        server rq = Rejected e ->
        exists fin, Cart.changeQty server itemId nextQty st = Some fin
                    /\ Cart.cart fin = Cart.cart st
                    /\ Cart.err fin = Cart.prettifyQtyError e
                    /\ Cart.isItemBusy itemId fin = false)).
Proof.
  split.
  - intros H. destruct (changeQty_begin_total itemId nextQty st H) as (st1 & p & E).
    eauto.
  - intros st1 p rq Hb.
    pose proof (changeQty_begin_inv _ _ _ _ _ _ Hb) as (_ & Hprev & Hitem & _ & _).
    split.
    + intros e reload now.
      assert (Cart.cart (Cart.changeQty_settle p (Rejected e) reload now) = Cart.cart st) as ->
        by (unfold Cart.changeQty_settle; rewrite cart_setItemBusy; simpl; exact Hprev).
      auto.
    + intros server e He. unfold Cart.changeQty. rewrite Hb, He.
      eexists. split; [reflexivity|].
      unfold Cart.changeQty_settle. rewrite cart_setItemBusy, err_setItemBusy.
      simpl. rewrite Hitem. repeat split; auto using setItemBusy_off_not_busy.
Qed.

Lemma changeQty_failure_restores_snapshot_witness :
  let conflict := {| response := Some {| status := 409;
                       data := VObj [("detail", VStr "Insufficient stock. Available: 2")] |} |} in
  let server := fun rq => match rq with
                          | Cart.PatchItem _ _ => Rejected conflict
                          | _ => Resolved sample_cart
                          end in
  exists fin, Cart.changeQty server (PNum (Int 7)) (Int 3) sample_page = Some fin
              /\ Cart.cart fin = sample_cart.
Proof.
  intros conflict server.
  destruct (changeQty_failure_restores_snapshot (PNum (Int 7)) (Int 3) sample_page)
    as [Hex Hroll].
  destruct (Hex eq_refl) as (st1 & p & rq & Hb).
  destruct (Hroll st1 p rq Hb) as [_ Hseq].
  assert (Hrq : server rq = Rejected conflict).
  { vm_compute in Hb. injection Hb as _ _ <-. reflexivity. }
  destruct (Hseq server conflict Hrq) as (fin & Hfin & Hcart & _).
  exists fin. split; [exact Hfin | exact Hcart].
Defined.

(** *** [changeQty]: the frame of the optimistic write *)

Lemma prop_spread (v : value) (k : string) :
  plain v = true -> prop k (VObj (spread v)) = prop k v.
Proof. destruct v as [[| | | |]| |]; simpl; intros; congruence. Qed.

Lemma map_items_length f (l l' : list value) :
  Cart.map_items f l = Some l' -> List.length l' = List.length l.
Proof.
  revert l'. induction l as [|x rest IH]; simpl; intros l' H.
  - now injection H as <-.
  - destruct (f x) as [y|]; [|discriminate].
    destruct (Cart.map_items f rest) as [ys|]; [|discriminate].
    injection H as <-. simpl. f_equal. now apply IH.
Qed.

Lemma map_items_nth f (l l' : list value) :
  Cart.map_items f l = Some l' ->
  forall i x, nth_error l i = Some x ->
              exists y, nth_error l' i = Some y /\ f x = Some y.
Proof.
  revert l'. induction l as [|x0 rest IH]; simpl; intros l' H i x Hi.
  - destruct i; discriminate.
  - destruct (f x0) as [y0|] eqn:Ey; [|discriminate].
    destruct (Cart.map_items f rest) as [ys|]; [|discriminate].
    injection H as <-.
    destruct i as [|i]; simpl in *.
    + injection Hi as <-. eauto.
    + eapply IH; eauto.
Qed.

Lemma rewrite_item_other itemId q it y :
  Cart.rewrite_item itemId q it = Some y ->
  strict_eq (prop "id" it) itemId = false -> y = it.
Proof.
  unfold Cart.rewrite_item, prop_strict.
  destruct (nullish it); [discriminate|]. intros H E. rewrite E in H. congruence.
Qed.

Lemma rewrite_item_target itemId q it y :
  Cart.rewrite_item itemId q it = Some y ->
  strict_eq (prop "id" it) itemId = true ->
  prop "qty" y = VNum q
  /\ (plain it = true -> forall f, f <> "qty"%string -> prop f y = prop f it).
Proof.
  unfold Cart.rewrite_item, prop_strict.
  destruct (nullish it); [discriminate|]. intros H E. rewrite E in H.
  injection H as <-. split.
  - apply prop_set_same.
  - intros Hp f Hf. rewrite prop_set_other by exact Hf. now apply prop_spread.
Qed.

(** C9. The optimistic cart rendered before the PATCH differs from the
    snapshot only in the [qty] of the lines whose [id] is [itemId]: every
    cart-level property other than [items] is the same, the list of lines has
    the same length and order, every other line is the same value, and the
    target line keeps all its properties but [qty], which is the clamped
    quantity. *)
Theorem optimistic_write_frame (itemId : prim) (nextQty : num) (st : Cart.page) :
  plain (Cart.cart st) = true ->
  lines_ok (Cart.cart st) = true ->
  exists st1 p rq old new,
    Cart.changeQty_begin itemId nextQty st = Some (st1, p, rq)
    /\ (forall k, k <> "items"%string ->
          prop k (Cart.cart st1) = prop k (Cart.cart st))
    /\ or_else (prop "items" (Cart.cart st)) (VArr []) = VArr old
    /\ prop "items" (Cart.cart st1) = VArr new
    /\ List.length new = List.length old
    /\ (forall i it, nth_error old i = Some it ->
          if strict_eq (prop "id" it) itemId
          then exists it',
                 nth_error new i = Some it'
                 /\ prop "qty" it' = VNum (Cart.clampQty (Cart.maxQty st) nextQty)
                 /\ (plain it = true ->
                     forall f, f <> "qty"%string -> prop f it' = prop f it)
          else nth_error new i = Some it).
Proof.
  intros Hplain Hok.
  destruct (changeQty_begin_total itemId nextQty st Hok) as (st1 & p & Hb).
  pose proof (changeQty_begin_inv _ _ _ _ _ _ Hb) as (Hopt & _).
  simpl in Hopt. set (q := Cart.clampQty (Cart.maxQty st) nextQty) in *.
  unfold Cart.optimistic in Hopt.
  destruct (or_else (prop "items" (Cart.cart st)) (VArr [])) as [|old|] eqn:Eold;
    try discriminate.
  destruct (Cart.map_items (Cart.rewrite_item itemId q) old) as [new|] eqn:Emap;
    [|discriminate].
  injection Hopt as Hnext.
  exists st1, p, (Cart.PatchItem itemId q), old, new.
  split; [exact Hb|]. rewrite <- Hnext.
  split; [|split; [reflexivity|split; [apply prop_set_same|split]]].
  - intros k Hk. rewrite prop_set_other by exact Hk. now apply prop_spread.
  - eapply map_items_length; eauto.
  - intros i it Hi.
    destruct (map_items_nth _ _ _ Emap i it Hi) as (y & Hy & Hf).
    destruct (strict_eq (prop "id" it) itemId) eqn:E.
    + destruct (rewrite_item_target _ _ _ _ Hf E) as [Hq Hrest]. eauto.
    + now rewrite <- (rewrite_item_other _ _ _ _ Hf E).
Qed.

Lemma optimistic_write_frame_witness :
  exists st1 p rq old new,
    Cart.changeQty_begin (PNum (Int 7)) (Int 3) sample_page = Some (st1, p, rq)
    /\ prop "grand_total" (Cart.cart st1) = VInt 335
    /\ or_else (prop "items" sample_cart) (VArr []) = VArr old
    /\ prop "items" (Cart.cart st1) = VArr new
    /\ List.length new = List.length old.
Proof.
  destruct (optimistic_write_frame (PNum (Int 7)) (Int 3) sample_page eq_refl eq_refl)
    as (st1 & p & rq & old & new & Hb & Hframe & Hold & Hnew & Hlen & _).
  exists st1, p, rq, old, new.
  split; [exact Hb|]. split; [|split; [exact Hold|split; [exact Hnew|exact Hlen]]].
  rewrite Hframe by discriminate. reflexivity.
Defined.

Example optimistic_write_sample :
  option_map (fun r => prop "items" (Cart.cart (fst (fst r))))
    (Cart.changeQty_begin (PNum (Int 7)) (Int 3) sample_page)
  = Some (VArr [ VObj [("id", VInt 7); ("sku", VStr "TEE-M"); ("qty", VInt 3);
                       ("price", VInt 100)];
                 VObj [("id", VInt 8); ("sku", VStr "CAP"); ("qty", VInt 1);
                       ("price", VInt 50)] ]).
Proof. reflexivity. Qed.

(** *** [changeQty]: the quantity that is sent *)

Lemma maxQty_nonzero st m : Cart.maxQty st = Some m -> m <> 0%Z.
Proof.
  unfold Cart.maxQty.
  destruct (to_number _) as [|z]; [discriminate|].
  destruct (Z.eqb z 0) eqn:E; [discriminate|].
  intros H. injection H as <-. now apply Z.eqb_neq.
Qed.

(** A JSON number in [max_qty] is the policy unless it is zero; a missing,
    [null] or otherwise falsy [max_qty] is no policy. *)
Lemma maxQty_of_number st m :
  prop "max_qty" (Cart.cart st) = VInt m ->
  Cart.maxQty st = if Z.eqb m 0 then None else Some m.
Proof.
  intros H. unfold Cart.maxQty, or_else. rewrite H. simpl.
  destruct (Z.eqb m 0) eqn:E; simpl; rewrite ?E; auto.
Qed.

(** More generally, whatever [max_qty] holds: when it coerces to a number
    other than zero, that number is the policy. *)
Lemma maxQty_of_coercion st m :
  to_number (prop "max_qty" (Cart.cart st)) = Int m -> m <> 0%Z ->
  Cart.maxQty st = Some m.
Proof.
  intros H Hm. unfold Cart.maxQty, or_else.
  assert (T : truthy (prop "max_qty" (Cart.cart st)) = true).
  { destruct (prop "max_qty" (Cart.cart st)) as [[| |b|[|z]|s]| |];
      simpl in *; try reflexivity; try discriminate H.
    - injection H as <-. now destruct (Z.eqb_spec 0 0).
    - destruct b; [reflexivity|]. injection H as <-. contradiction.
    - injection H as ->. now apply negb_true_iff, Z.eqb_neq.
    - destruct (String.eqb_spec s ""); [|reflexivity]. subst s.
      vm_compute in H. injection H as <-. contradiction. }
  rewrite T, H. apply Z.eqb_neq in Hm. now rewrite Hm.
Qed.

Lemma maxQty_of_falsy st :
  truthy (prop "max_qty" (Cart.cart st)) = false -> Cart.maxQty st = None.
Proof. intros H. unfold Cart.maxQty, or_else. now rewrite H. Qed.

Lemma clampQty_cases (mq : option Z) (nextQty : num) :
  let q := Cart.clampQty mq nextQty in
  (mq = None -> q = if num_lt nextQty (Int 1) then Int 1 else nextQty)
  /\ (forall m, mq = Some m ->
        (num_gt nextQty (Int m) = true -> q = Int m)
        /\ (num_lt nextQty (Int 1) = true -> (m < 1)%Z -> q = Int m)
        /\ (num_lt nextQty (Int 1) = true -> (1 <= m)%Z -> q = Int 1)
        /\ (num_lt nextQty (Int 1) = false -> num_gt nextQty (Int m) = false ->
            q = nextQty)).
Proof.
  unfold Cart.clampQty, num_gt. split.
  - now intros ->.
  - intros m ->.
    destruct nextQty as [|z]; simpl.
    + repeat split; intros; congruence.
    + destruct (Z.ltb_spec z 1); simpl;
        destruct (Z.ltb_spec m 1); destruct (Z.ltb_spec m z);
        repeat split; intros; try congruence; try lia.
Qed.

(** C3, on the carts where it holds.  A maximum-quantity policy is present
    when [maxQty] is a number, that is when [max_qty] coerces to a number
    other than zero.  On a cart whose maximum, if any, is at least 1: below 1
    the quantity sent is 1; above a present maximum it is the maximum;
    otherwise it is [nextQty].  ([clampQty_cases] covers a maximum below 1.)
    The coercion of [max_qty] is taken where the number model renders it
    exactly. *)
Theorem changeQty_sent_quantity (itemId : prim) (nextQty : num) (st : Cart.page) :
  num_exact (prop "max_qty" (Cart.cart st)) = true ->
  lines_ok (Cart.cart st) = true ->
  (forall m, Cart.maxQty st = Some m -> (1 <= m)%Z) ->
  exists st1 p q,
    Cart.changeQty_begin itemId nextQty st = Some (st1, p, Cart.PatchItem itemId q)
    /\ (num_lt nextQty (Int 1) = true -> q = Int 1)
    /\ (forall m, Cart.maxQty st = Some m -> num_gt nextQty (Int m) = true -> q = Int m)
    /\ (num_lt nextQty (Int 1) = false ->
        (forall m, Cart.maxQty st = Some m -> num_gt nextQty (Int m) = false) ->
        q = nextQty)
    /\ (forall m, to_number (prop "max_qty" (Cart.cart st)) = Int m -> (0 < m)%Z ->
          Cart.maxQty st = Some m)
    /\ (truthy (prop "max_qty" (Cart.cart st)) = false -> Cart.maxQty st = None).
Proof.
  intros _ Hok Hmax.
  destruct (changeQty_begin_total itemId nextQty st Hok) as (st1 & p & Hb).
  exists st1, p, (Cart.clampQty (Cart.maxQty st) nextQty).
  split; [exact Hb|].
  split; [|split; [|split; [|split]]].
  - intros Hlow. destruct (Cart.maxQty st) as [m|] eqn:E.
    + destruct (proj2 (clampQty_cases (Some m) nextQty) m eq_refl) as (_ & _ & H & _).
      apply H; [exact Hlow | now apply Hmax].
    + cbn [Cart.clampQty]. now rewrite Hlow.
  - intros m Hm Habove. rewrite Hm.
    destruct (proj2 (clampQty_cases (Some m) nextQty) m eq_refl) as (H & _).
    now apply H.
  - intros Hlow Hin. destruct (Cart.maxQty st) as [m|] eqn:E.
    + destruct (proj2 (clampQty_cases (Some m) nextQty) m eq_refl) as (_ & _ & _ & H).
      apply H; [exact Hlow | now apply Hin].
    + cbn [Cart.clampQty]. now rewrite Hlow.
  - intros m Hm Hpos. apply maxQty_of_coercion; [exact Hm | lia].
  - apply maxQty_of_falsy.
Qed.

Lemma changeQty_sent_quantity_witness :
  exists st1 p q,
    Cart.changeQty_begin (PNum (Int 7)) (Int 9) sample_page
    = Some (st1, p, Cart.PatchItem (PNum (Int 7)) q)
    /\ q = Int 5.
Proof.
  assert (Hmax : forall m, Cart.maxQty sample_page = Some m -> (1 <= m)%Z).
  { intros m H. vm_compute in H. injection H as <-. discriminate. }
  destruct (changeQty_sent_quantity (PNum (Int 7)) (Int 9) sample_page
              eq_refl eq_refl Hmax)
    as (st1 & p & q & Hb & _ & Habove & _).
  exists st1, p, q. split; [exact Hb|].
  exact (Habove 5%Z eq_refl eq_refl).
Defined.

(** C3 as stated fails when the configured maximum is negative: [max_qty] is
    -5, no policy in the sense of the statement, [nextQty] is 0, and the
    quantity sent is -5 rather than 1. *)
Lemma changeQty_negative_maximum :
  let c := VObj [ ("items", VArr [VObj [("id", VInt 7); ("qty", VInt 1)]]);
                  ("max_qty", VInt (-5)) ] in
  let st := Cart.with_cart c Cart.initial in
  num_lt (Int 0) (Int 1) = true
  /\ to_number (prop "max_qty" c) = Int (-5)
  /\ option_map snd (Cart.changeQty_begin (PNum (Int 7)) (Int 0) st)
     = Some (Cart.PatchItem (PNum (Int 7)) (Int (-5)))
  /\ Int (-5) <> Int 1.
Proof. repeat split. discriminate. Qed.

(** ** Rate-limit messages *)

Lemma applyCoupon_msg_cases (e : error) :
  (truthy (data_prop "detail" e) = true ->
     Cart.applyCoupon_msg e = data_prop "detail" e)
  /\ (truthy (data_prop "detail" e) = false ->
      truthy (data_prop "message" e) = true ->
      Cart.applyCoupon_msg e = data_prop "message" e)
  /\ (truthy (data_prop "detail" e) = false ->
      truthy (data_prop "message" e) = false ->
      Cart.applyCoupon_msg e =
        if status_is e 429
        then VStr "Too many attempts. Please wait a moment and try again."
        else VStr "Coupon failed. Check the code and try again.").
Proof.
  unfold Cart.applyCoupon_msg, or_else.
  repeat split; intros; repeat match goal with H : truthy _ = _ |- _ => rewrite H; clear H end;
    reflexivity.
Qed.

(** The two handlers that test the status first: on a 429 the quantity
    change and the checkout submission show their dedicated slow-down message
    whatever the error body holds.  The coupon application shows its
    dedicated wait message when the body has no truthy [detail] and no truthy
    [message]; otherwise the body takes precedence ([applyCoupon_msg_cases]). *)
Lemma rate_limit_messages (e : error) :
  status_is e 429 = true ->
  (forall p reload st,
     Cart.err (Cart.changeQty_settle p (Rejected e) reload st)
     = VStr "You're doing that too quickly. Please slow down and try again.")
  /\
  (forall st,
     Checkout.err (Checkout.placeOrder_settle (Rejected e) st)
     = VStr "Too many requests — please try again in a moment.")
  /\
  (truthy (data_prop "detail" e) = false ->
   truthy (data_prop "message" e) = false ->
   forall reload st,
     Cart.err (Cart.applyCoupon_settle (Rejected e) reload st)
     = VStr "Too many attempts. Please wait a moment and try again.").
Proof.
  intros H429. split; [|split].
  - intros p reload st. unfold Cart.changeQty_settle.
    rewrite err_setItemBusy. simpl. unfold Cart.prettifyQtyError. now rewrite H429.
  - intros st. simpl. unfold Checkout.prettifyError. now rewrite H429.
  - intros Hd Hm reload st. simpl.
    destruct (applyCoupon_msg_cases e) as (_ & _ & Hn).
    rewrite Hn by assumption. now rewrite H429.
Qed.

Lemma rate_limit_messages_witness :
  Cart.prettifyQtyError throttled
  = VStr "You're doing that too quickly. Please slow down and try again."
  /\ Checkout.prettifyError throttled
     = VStr "Too many requests — please try again in a moment."
  /\ Cart.applyCoupon_msg throttled_bare
     = VStr "Too many attempts. Please wait a moment and try again.".
Proof.
  destruct (rate_limit_messages throttled eq_refl) as (Hqty & Horder & _).
  destruct (rate_limit_messages throttled_bare eq_refl) as (_ & _ & Hcoupon).
  split; [|split; [|exact (Hcoupon eq_refl eq_refl (Resolved null) Cart.initial)]].
  - exact (Hqty {| Cart.prev := null; Cart.item := PNull; Cart.qty := Int 1 |}
                (Resolved null) Cart.initial).
  - exact (Horder {| Checkout.email := ""; Checkout.address := [];
                     Checkout.cartTotals := null; Checkout.quotes := [];
                     Checkout.shippingId := PNull; Checkout.loading := true;
                     Checkout.order := null; Checkout.err := VStr "" |}).
Defined.

(** C2.  A coupon application rejected with 429 should show the dedicated
    wait message whatever the body holds, as the quantity change and the
    checkout submission do.  It does not: with a body that has a [detail],
    as a throttling backend sends it, the page shows that [detail]. *)
Lemma applyCoupon_throttled_shows_detail :
  let st := Cart.with_code "WELCOME10" Cart.initial in
  status_is throttled 429 = true
  /\ Cart.err (Cart.applyCoupon (fun _ => Rejected throttled) st)
     = VStr "Request was throttled. Expected available in 30 seconds."
  /\ Cart.err (Cart.applyCoupon (fun _ => Rejected throttled) st)
     <> VStr "Too many attempts. Please wait a moment and try again.".
Proof. repeat split. vm_compute. discriminate. Qed.

(** ** API client *)

Lemma to_int_proper (z : Z) : Z.to_int z <> Decimal.Pos Decimal.Nil /\ Z.to_int z <> Decimal.Neg Decimal.Nil.
Proof.
  destruct z as [|p|p]; simpl; split; try discriminate;
    intros H; injection H as H; now apply DecimalPos.Unsigned.to_uint_nonnil in H.
Qed.

Lemma string_of_Z_inj (a b : Z) : string_of_Z a = string_of_Z b -> a = b.
Proof.
  unfold string_of_Z. intros H. apply DecimalZ.to_int_inj.
  destruct (to_int_proper a) as [Ha1 Ha2]. destruct (to_int_proper b) as [Hb1 Hb2].
  pose proof (NilZero.isi _ Ha1 Ha2) as Ia. pose proof (NilZero.isi _ Hb1 Hb2) as Ib.
  rewrite H in Ia. congruence.
Qed.

(** On a scalar [_public] the three disjuncts of [isPublic] accept exactly
    the string "1", the number 1 and [true]. *)
Lemma isPublic_scalar (cfg : Api.config) (o : obj) (p : prim) :
  Api.params cfg = VObj o ->
  prop "_public" (VObj o) = VPrim p ->
  (Api.isPublic cfg = true <-> p = PStr "1" \/ p = PNum (Int 1) \/ p = PBool true).
Proof.
  intros Hparams Hp. unfold Api.isPublic. rewrite Hparams, Hp.
  cbn [truthy andb strict_eq to_string].
  destruct p as [| |b|[|z]|s]; cbn [prim_to_string num_to_string prim_seq num_seq].
  - split; [discriminate | intros [H|[H|H]]; discriminate].
  - split; [discriminate | intros [H|[H|H]]; discriminate].
  - destruct b; split; auto; try discriminate. intros [H|[H|H]]; discriminate.
  - split; [discriminate | intros [H|[H|H]]; discriminate].
  - rewrite orb_false_r. split.
    + intros H. apply orb_prop in H as [H|H].
      * apply String.eqb_eq in H. change "1"%string with (string_of_Z 1) in H.
        apply string_of_Z_inj in H. subst. auto.
      * apply Z.eqb_eq in H. subst. auto.
    + intros [H|[H|H]]; try discriminate. injection H as ->. reflexivity.
  - rewrite !orb_false_r. split.
    + intros H. apply String.eqb_eq in H. subst. auto.
    + intros [H|[H|H]]; try discriminate. injection H as ->. reflexivity.
Qed.

Lemma isPublic_without_params (cfg : Api.config) :
  truthy (Api.params cfg) = false -> Api.isPublic cfg = false.
Proof. intros H. unfold Api.isPublic. now rewrite H. Qed.

Lemma access_stored (ls : Auth.storage) (t : string) :
  ls !! Auth.TOKEN_KEY = Some t -> t <> ""%string -> Auth.access ls = VStr t.
Proof.
  intros H Hne. unfold Auth.access, Auth.getItem, or_else. rewrite H. simpl.
  apply String.eqb_neq in Hne. now rewrite Hne.
Qed.

(** C5, as the interceptor computes it.  A request is public when its
    [params] are present and [String(params._public)] is "1" or
    [params._public] is [true]; on a scalar marker that is: one of "1", 1,
    [true].  A request that is not public and finds a stored token leaves
    with [Authorization] equal to "Bearer " followed by the token.  A public
    request leaves without a truthy [Authorization]: a truthy one is deleted,
    the other headers are kept. *)
Theorem interceptor_authorization (ls : Auth.storage) (cfg : Api.config) :
  let out := Api.interceptor ls cfg in
  (Api.isPublic cfg = false ->
     forall t, ls !! Auth.TOKEN_KEY = Some t -> t <> ""%string ->
       prop "Authorization" (VObj (Api.headers out)) = VStr ("Bearer " +:+ t))
  /\
  (Api.isPublic cfg = true ->
     truthy (prop "Authorization" (VObj (Api.headers out))) = false
     /\ (truthy (prop "Authorization" (VObj (Api.headers cfg))) = true ->
         lookup_prop "Authorization" (Api.headers out) = None)
     /\ (forall k, k <> "Authorization"%string ->
           lookup_prop k (Api.headers out) = lookup_prop k (Api.headers cfg)))
  /\
  (forall o p, Api.params cfg = VObj o -> prop "_public" (VObj o) = VPrim p ->
     (Api.isPublic cfg = true <-> p = PStr "1" \/ p = PNum (Int 1) \/ p = PBool true))
  /\
  (truthy (Api.params cfg) = false -> Api.isPublic cfg = false).
Proof.
  cbv zeta. split; [|split; [|split]].
  - intros Hpriv t Ht Hne. unfold Api.interceptor. rewrite Hpriv. simpl negb. cbv iota.
    rewrite (access_stored ls t Ht Hne).
    assert (truthy (VStr t) = true) as ->
      by (simpl; apply String.eqb_neq in Hne; now rewrite Hne).
    simpl Api.headers. now rewrite prop_set_same.
  - intros Hpub. unfold Api.interceptor. rewrite Hpub. simpl negb. cbv iota.
    destruct (truthy (prop "Authorization" (VObj (Api.headers cfg)))) eqn:T; simpl Api.headers.
    + unfold prop. rewrite lookup_delete_same. repeat split; auto.
      intros k Hk. now apply lookup_delete_other.
    + repeat split; auto. discriminate.
  - intros o p. apply isPublic_scalar.
  - apply isPublic_without_params.
Qed.

Lemma interceptor_authorization_witness :
  let ls : Auth.storage := <[Auth.TOKEN_KEY := "tok"%string]> ∅ in
  let cfg := {| Api.params := VObj [("page", VInt 2)]; Api.headers := [] |} in
  let stale := {| Api.params := VObj [("_public", VInt 1)];
                  Api.headers := [("Authorization", VStr "Bearer old")] |} in
  prop "Authorization" (VObj (Api.headers (Api.interceptor ls cfg))) = VStr "Bearer tok"
  /\ lookup_prop "Authorization" (Api.headers (Api.interceptor ls stale)) = None.
Proof.
  intros ls cfg stale. split.
  - refine (proj1 (interceptor_authorization ls cfg) eq_refl "tok"%string eq_refl _).
    discriminate.
  - destruct (proj1 (proj2 (interceptor_authorization ls stale)) eq_refl) as (_ & Hdel & _).
    exact (Hdel eq_refl).
Defined.

(** C5 as stated fails twice.  A marker [_public: [1]] is none of "1", 1,
    [true], yet its string form is "1": the request is treated as public and
    leaves without the stored token.  And a public request that arrives with
    an empty [Authorization] keeps that header. *)
Lemma interceptor_marker_and_empty_header :
  let ls : Auth.storage := <[Auth.TOKEN_KEY := "tok"%string]> ∅ in
  let cfg := {| Api.params := VObj [("_public", VArr [VInt 1])]; Api.headers := [] |} in
  let empty := {| Api.params := VObj [("_public", VInt 1)];
                  Api.headers := [("Authorization", VStr "")] |} in
  (strict_eq (prop "_public" (Api.params cfg)) (PStr "1") = false
   /\ strict_eq (prop "_public" (Api.params cfg)) (PNum (Int 1)) = false
   /\ strict_eq (prop "_public" (Api.params cfg)) (PBool true) = false
   /\ Auth.access ls = VStr "tok"
   /\ lookup_prop "Authorization" (Api.headers (Api.interceptor ls cfg)) = None)
  /\
  (Api.isPublic empty = true
   /\ lookup_prop "Authorization" (Api.headers (Api.interceptor ls empty))
      = Some (VStr "")).
Proof. repeat split. Qed.

(** ** Orders page *)

Lemma demoEmail_default (ls : Auth.storage) :
  ls !! Auth.USER_EMAIL_KEY = None -> Orders.demoEmail ls = "buyer@example.com"%string.
Proof.
  intros H. unfold Orders.demoEmail, Auth.email, Auth.getItem. now rewrite H.
Qed.

Lemma demoEmail_remembered (ls : Auth.storage) (e : string) :
  ls !! Auth.USER_EMAIL_KEY = Some e -> trim e <> ""%string ->
  Orders.demoEmail ls = trim e.
Proof.
  intros H Hne. unfold Orders.demoEmail, Auth.email, Auth.getItem. rewrite H.
  assert (He : e <> ""%string) by (intros ->; now apply Hne).
  apply String.eqb_neq in He. unfold or_else. simpl. rewrite He. simpl. rewrite He.
  simpl. apply String.eqb_neq in Hne. now rewrite Hne.
Qed.

(** C6. On a page mounted with a stored token, when the fetch of the
    personal orders is rejected with 401: on the first load the page issues
    the public fetch keyed by the remembered (or demo) email and, when that
    succeeds, shows its result with the session-expired notice; on a later
    load it issues nothing more and shows the plain failure.  Every load
    leaves the page marked as loaded, so only the first one can fall back. *)
Theorem orders_unauthorized_fallback
  (server : Orders.request -> outcome value) (mounted ls : Auth.storage)
  (st : Orders.page) (e : error) :
  Orders.isAuthed mounted = true ->
  server Orders.GetMyOrders = Rejected e ->
  status_is e 401 = true ->
  let after := Orders.load server (Orders.isAuthed mounted) ls st in
  (Orders.loadedRef st = false ->
     snd after = [Orders.GetMyOrders; Orders.GetOrdersByEmail (Orders.demoEmail ls)]
     /\ forall body,
          server (Orders.GetOrdersByEmail (Orders.demoEmail ls)) = Resolved body ->
          Orders.orders (fst after) = or_else body (VArr [])
          /\ Orders.err (fst after) = VStr "Session expired. Showing demo orders.")
  /\
  (Orders.loadedRef st = true ->
     snd after = [Orders.GetMyOrders]
     /\ Orders.orders (fst after) = VArr []
     /\ Orders.err (fst after) = VStr "Could not load orders.")
  /\ Orders.loadedRef (fst after) = true
  /\ (ls !! Auth.USER_EMAIL_KEY = None ->
      Orders.demoEmail ls = "buyer@example.com"%string)
  /\ (forall m, ls !! Auth.USER_EMAIL_KEY = Some m -> trim m <> ""%string ->
      Orders.demoEmail ls = trim m).
Proof.
  intros Hauth Hme H401. cbv zeta. unfold Orders.load.
  rewrite Hauth, Hme, H401. simpl andb.
  split; [|split; [|split; [|split]]].
  - intros Hfirst. rewrite Hfirst. simpl negb. cbv iota.
    destruct (server (Orders.GetOrdersByEmail (Orders.demoEmail ls))) as [b|e2] eqn:E;
      simpl; split; auto.
    + intros body Hb. injection Hb as <-. auto.
    + intros body Hb. discriminate.
  - intros Hlater. rewrite Hlater. simpl. auto.
  - destruct (negb (Orders.loadedRef st));
      [destruct (server (Orders.GetOrdersByEmail (Orders.demoEmail ls)))|]; reflexivity.
  - apply demoEmail_default.
  - apply demoEmail_remembered.
Qed.

Lemma orders_unauthorized_fallback_witness :
  let mounted : Auth.storage := <[Auth.TOKEN_KEY := "expired"%string]> ∅ in
  let expired := {| response := Some {| status := 401; data := null |} |} in
  let demo := VArr [VObj [("id", VInt 41); ("status", VStr "shipped")]] in
  let server := fun rq => match rq with
                          | Orders.GetMyOrders => Rejected expired
                          | Orders.GetOrdersByEmail _ => Resolved demo
                          end in
  let after := Orders.load server (Orders.isAuthed mounted) mounted Orders.initial in
  snd after = [Orders.GetMyOrders; Orders.GetOrdersByEmail "buyer@example.com"]
  /\ Orders.orders (fst after) = demo
  /\ Orders.err (fst after) = VStr "Session expired. Showing demo orders.".
Proof.
  intros mounted expired demo server after.
  destruct (orders_unauthorized_fallback server mounted mounted Orders.initial expired
              eq_refl eq_refl eq_refl) as (Hfirst & _).
  destruct (Hfirst eq_refl) as [Hsent Hbody].
  destruct (Hbody demo eq_refl) as [Horders Herr].
  split; [exact Hsent | split; [exact Horders | exact Herr]].
Defined.

(** ** Checkout page *)

(** The two updates of [loadQuotes] write the same selection when both
    fire, so the order in which React runs them does not matter. *)
Lemma loadQuotes_updates_commute (sid : prim) (list : list Checkout.quote)
  (st : Checkout.page) :
  Checkout.select_default sid list (Checkout.quotes_updater sid list st)
  = Checkout.quotes_updater sid list (Checkout.select_default sid list st).
Proof.
  unfold Checkout.select_default, Checkout.quotes_updater.
  destruct list as [|q rest]; [reflexivity|].
  destruct (truthy_prim sid); [reflexivity|].
  destruct (existsb _ (q :: rest)); reflexivity.
Qed.






(** ** Stock-conflict messages *)

Lemma append_nil_l (s : string) : "" +:+ s = s.
Proof. reflexivity. Qed.

Lemma append_cons (c : ascii) (a s : string) : String c a +:+ s = String c (a +:+ s).
Proof. reflexivity. Qed.

Lemma append_assoc (a b c : string) : (a +:+ b) +:+ c = a +:+ b +:+ c.
Proof.
  induction a as [|x a IH]; [reflexivity|].
  rewrite !append_cons. now rewrite IH.
Qed.

Lemma prefix_app (s t : string) : String.prefix s (s +:+ t) = true.
Proof.
  induction s as [|a s IH].
  - now destruct t.
  - rewrite append_cons. simpl. destruct (ascii_dec a a); [exact IH | contradiction].
Qed.

Lemma contains_unfold (sub s : string) :
  contains sub s =
  if String.prefix sub s then true
  else match s with
       | EmptyString => false
       | String _ rest => contains sub rest
       end.
Proof. destruct s; reflexivity. Qed.

Lemma contains_app (sub a b : string) : contains sub (a +:+ sub +:+ b) = true.
Proof.
  induction a as [|c a IH]; rewrite contains_unfold.
  - now rewrite append_nil_l, prefix_app.
  - rewrite append_cons.
    destruct (String.prefix sub (String c (a +:+ sub +:+ b))); [reflexivity | exact IH].
Qed.

(** *** Digits *)

Lemma digit_not_ws (c : ascii) (s : string) :
  is_digit c = true -> ws_strip (String c s) = None.
Proof.
  intros H.
  destruct c as [[] [] [] [] [] [] [] []]; try discriminate H;
    destruct s as [|c1 [|c2 s3]]; reflexivity.
Qed.

Lemma skip_ws_digit (c : ascii) (s : string) :
  is_digit c = true -> skip_ws (String c s) = String c s.
Proof.
  intros H. unfold skip_ws. simpl String.length. cbn [skip_ws_fuel].
  now rewrite digit_not_ws.
Qed.

Lemma trim_right_digits (ds : string) : all_digits ds = true -> trim_right ds = ds.
Proof.
  induction ds as [|c r IH]; [reflexivity|]. cbn [all_digits]. intros H.
  apply andb_prop in H as [Hc Hr]. cbn [trim_right].
  rewrite skip_ws_digit by exact Hc. simpl String.eqb. now rewrite IH.
Qed.

Lemma trim_digits (ds : string) : all_digits ds = true -> trim ds = ds.
Proof.
  intros H. unfold trim. destruct ds as [|c r]; [reflexivity|].
  pose proof H as H'. cbn [all_digits] in H'. apply andb_prop in H' as [Hc _].
  rewrite skip_ws_digit by exact Hc. now apply trim_right_digits.
Qed.

Lemma digit_char (c : ascii) (d : Decimal.uint) :
  is_digit c = true -> exists d', uint_of_char c (Some d) = Some d'.
Proof.
  intros H.
  destruct c as [[] [] [] [] [] [] [] []]; try discriminate H; simpl; eauto.
Qed.

Lemma digits_parse (ds : string) :
  all_digits ds = true -> exists d, NilEmpty.uint_of_string ds = Some d.
Proof.
  induction ds as [|c r IH]; simpl; intros H; [eauto|].
  apply andb_prop in H as [Hc Hr]. destruct (IH Hr) as [d ->].
  now apply digit_char.
Qed.

Lemma digit_not_sign (c : ascii) :
  is_digit c = true -> byte_is c 45 = false /\ byte_is c 43 = false.
Proof.
  intros H. destruct c as [[] [] [] [] [] [] [] []]; try discriminate H; split; reflexivity.
Qed.

(** [Number] of a non-empty run of digits is its decimal value. *)
Lemma number_of_digits (ds : string) :
  ds <> ""%string -> all_digits ds = true ->
  exists z, digits_value ds = Some z /\ to_number (VStr ds) = Int z.
Proof.
  intros Hne Hd. destruct ds as [|c r]; [contradiction|].
  destruct (digits_parse _ Hd) as [d Hp].
  exists (Z.of_uint d). split.
  - unfold digits_value, NilZero.uint_of_string. now rewrite Hp.
  - simpl to_number. unfold string_to_number. rewrite (trim_digits _ Hd).
    pose proof Hd as Hd'. cbn [all_digits] in Hd'. apply andb_prop in Hd' as [Hc _].
    destruct (digit_not_sign c Hc) as [-> ->].
    unfold digits_value, NilZero.uint_of_string. rewrite Hp, Hd. reflexivity.
Qed.

Lemma nonzero_digit_unorm (c : ascii) (d d' : Decimal.uint) :
  uint_of_char c (Some d) = Some d' -> Ascii.eqb c "0" = false ->
  Decimal.unorm d' = d' /\ d' <> Decimal.Nil.
Proof.
  intros H Hc. apply uint_of_char_spec in H.
  destruct H as [[-> _]|H]; [discriminate|].
  repeat (destruct H as [[_ ->]|H]; [split; [reflexivity|discriminate]|]).
  destruct H as [_ ->]. split; [reflexivity|discriminate].
Qed.

Lemma unorm_of_digits (ds : string) (d : Decimal.uint) :
  ds <> ""%string -> NilEmpty.uint_of_string ds = Some d ->
  NilZero.string_of_uint (Decimal.unorm d) = strip_zeros ds.
Proof.
  revert d. induction ds as [|c r IH]; [contradiction|]. intros d _ Hp.
  cbn [NilEmpty.uint_of_string] in Hp.
  destruct (NilEmpty.uint_of_string r) as [dr|] eqn:Hr; [|discriminate].
  cbn [strip_zeros]. destruct r as [|c1 r1].
  - simpl in Hr. injection Hr as <-. apply uint_of_char_spec in Hp.
    repeat (destruct Hp as [[-> ->]|Hp]; [reflexivity|]).
    destruct Hp as [-> ->]. reflexivity.
  - destruct (Ascii.eqb c "0") eqn:Hc.
    + apply Ascii.eqb_eq in Hc. subst c. simpl in Hp. injection Hp as <-.
      rewrite unorm_D0. apply IH; [discriminate | reflexivity].
    + destruct (nonzero_digit_unorm _ _ _ Hp Hc) as [-> Hnn].
      apply NilZero.sus. unfold NilZero.uint_of_string.
      change (NilEmpty.uint_of_string (String c (String c1 r1)))
        with (uint_of_char c (NilEmpty.uint_of_string (String c1 r1))).
      rewrite Hr. exact Hp.
Qed.

(** Rendering the value of a run of digits gives the run without its
    leading zeros. *)
Lemma render_digits (ds : string) (z : Z) :
  digits_value ds = Some z -> string_of_Z z = strip_zeros ds.
Proof.
  unfold digits_value, NilZero.uint_of_string.
  destruct ds as [|c0 r0]; [discriminate|].
  destruct (NilEmpty.uint_of_string (String c0 r0)) as [d|] eqn:Hp; [|discriminate].
  intros H. injection H as <-.
  unfold string_of_Z. change (Z.of_uint d) with (Z.of_int (Decimal.Pos d)).
  rewrite DecimalZ.to_of. simpl Decimal.norm. cbn [NilZero.string_of_int].
  apply unorm_of_digits; [discriminate | exact Hp].
Qed.

(** *** What the regular expression captures *)

Lemma span_digits_all (s : string) : all_digits (fst (span_digits s)) = true.
Proof.
  induction s as [|c r IH]; simpl; [reflexivity|].
  destruct (is_digit c) eqn:E; [|reflexivity].
  destruct (span_digits r) as [d rest]. simpl in *. now rewrite E.
Qed.

Lemma match_here_digits (s ds : string) :
  Regex.match_here s = Some ds -> ds <> ""%string /\ all_digits ds = true.
Proof.
  unfold Regex.match_here.
  destruct (Regex.strip_ci "Available:" s) as [rest|]; [|discriminate].
  pose proof (span_digits_all (skip_ws rest)) as Hall.
  destruct (span_digits (skip_ws rest)) as [d r]. simpl in Hall.
  destruct d as [|c d']; [discriminate|].
  intros H. injection H as <-. split; [discriminate | exact Hall].
Qed.

Lemma match_available_unfold (s : string) :
  Regex.match_available s =
  match Regex.match_here s with
  | Some ds => Some ds
  | None =>
      match s with
      | EmptyString => None
      | String _ rest => Regex.match_available rest
      end
  end.
Proof. destruct s; reflexivity. Qed.

Lemma match_available_digits (s ds : string) :
  Regex.match_available s = Some ds -> ds <> ""%string /\ all_digits ds = true.
Proof.
  induction s as [|c r IH]; rewrite match_available_unfold.
  - destruct (Regex.match_here "") eqn:E; [|discriminate].
    intros H. injection H as <-. now apply match_here_digits in E.
  - destruct (Regex.match_here (String c r)) eqn:E.
    + intros H. injection H as <-. now apply match_here_digits in E.
    + exact IH.
Qed.

(** *** Where the pattern matches

    The text ["Available: " N] preceded by text in which the pattern does
    not match, and followed by something that is not a digit, is the leftmost
    match, and it captures [N]. *)

Lemma ws_strip_length (s r : string) :
  ws_strip s = Some r -> String.length r < String.length s.
Proof.
  unfold ws_strip.
  destruct s as [|c [|c1 [|c2 s3]]]; cbv beta iota zeta;
    repeat match goal with
           | |- context [if ?b then _ else _] => destruct b
           end;
    intros H; try discriminate H; injection H as <-; simpl; lia.
Qed.

Lemma skip_ws_fuel_stable (n m : nat) (s : string) :
  String.length s <= n -> String.length s <= m ->
  skip_ws_fuel n s = skip_ws_fuel m s.
Proof.
  revert m s. induction n as [|n IH]; intros m s Hn Hm.
  - destruct s; [|simpl in Hn; lia]. destruct m; reflexivity.
  - destruct m as [|m].
    + destruct s; [reflexivity | simpl in Hm; lia].
    + cbn [skip_ws_fuel]. destruct (ws_strip s) as [r|] eqn:E; [|reflexivity].
      apply ws_strip_length in E. apply IH; lia.
Qed.

Lemma skip_ws_some (s r : string) : ws_strip s = Some r -> skip_ws s = skip_ws r.
Proof.
  intros E. pose proof (ws_strip_length _ _ E) as Hlen. unfold skip_ws.
  destruct (String.length s) as [|n] eqn:L; [lia|].
  cbn [skip_ws_fuel]. rewrite E. apply skip_ws_fuel_stable; lia.
Qed.

Lemma skip_ws_none (s : string) : ws_strip s = None -> skip_ws s = s.
Proof.
  intros E. unfold skip_ws. destruct (String.length s); [reflexivity|].
  cbn [skip_ws_fuel]. now rewrite E.
Qed.

Lemma ws_strip_app_some (r r' t : string) :
  ws_strip r = Some r' -> ws_strip (r +:+ t) = Some (r' +:+ t).
Proof.
  unfold ws_strip.
  destruct r as [|c [|c1 [|c2 s3]]]; rewrite ?append_cons, ?append_nil_l;
    cbv beta iota zeta;
    repeat match goal with
           | |- context [if ?b then _ else _] => destruct b
           end;
    intros H; try discriminate H; injection H as <-;
    rewrite ?append_cons, ?append_nil_l; reflexivity.
Qed.

Ltac closed_false :=
  repeat match goal with
         | H : (_ && _)%bool = true |- _ => apply andb_prop in H; destruct H
         end;
  match goal with
  | H : _ = true |- _ => vm_compute in H; discriminate H
  end.

Lemma ws_strip_app_none (r t : string) :
  r <> ""%string -> ws_strip r = None -> ws_strip (r +:+ String "A" t) = None.
Proof.
  intros Hne. unfold ws_strip.
  destruct r as [|c [|c1 [|c2 s3]]]; [contradiction| | |];
    rewrite ?append_cons, ?append_nil_l; cbv beta iota zeta.
  - destruct (ascii_ws c); [discriminate|]. intros _.
    destruct (byte_is c 194 && byte_is "A" 160) eqn:E1; [closed_false|].
    destruct t as [|c2 s3]; [reflexivity|].
    repeat match goal with
           | |- context [if ?b then _ else _] => destruct b eqn:?
           end; try reflexivity; closed_false.
  - destruct (ascii_ws c); [discriminate|].
    destruct (byte_is c 194 && byte_is c1 160); [discriminate|]. intros _.
    repeat match goal with
           | |- context [if ?b then _ else _] => destruct b eqn:?
           end; try reflexivity; closed_false.
  - repeat match goal with
           | |- context [if ?b then _ else _] => destruct b
           end; intros H; try discriminate H; reflexivity.
Qed.

Lemma ws_strip_A (t : string) : ws_strip (String "A" t) = None.
Proof. destruct t as [|c1 [|c2 s3]]; reflexivity. Qed.

Lemma cons_nonempty (c : ascii) (s : string) : String c s <> ""%string.
Proof. discriminate. Qed.

Lemma no_digits_after_ws (r t : string) :
  fst (span_digits (skip_ws r)) = ""%string ->
  fst (span_digits (skip_ws (r +:+ String "A" t))) = ""%string.
Proof.
  remember (String.length r) as n eqn:Hn.
  revert r Hn. induction n as [n IH] using lt_wf_ind. intros r Hn H.
  destruct (ws_strip r) as [r'|] eqn:E.
  - rewrite (skip_ws_some _ _ (ws_strip_app_some _ _ (String "A" t) E)).
    rewrite (skip_ws_some _ _ E) in H.
    apply (IH (String.length r')); auto.
    subst n. now apply ws_strip_length.
  - destruct r as [|c r0].
    + rewrite append_nil_l, (skip_ws_none _ (ws_strip_A t)). reflexivity.
    + rewrite (skip_ws_none _ (ws_strip_app_none _ t (cons_nonempty c r0) E)).
      rewrite (skip_ws_none _ E) in H. rewrite append_cons.
      cbn [span_digits] in *. destruct (is_digit c); [|reflexivity].
      destruct (span_digits r0). discriminate H.
Qed.

Lemma span_digits_app (N post : string) :
  all_digits N = true -> no_digit_head post = true ->
  span_digits (N +:+ post) = (N, post).
Proof.
  intros HN Hpost. induction N as [|c N' IH].
  - rewrite append_nil_l. destruct post as [|c r]; [reflexivity|].
    simpl in *. apply negb_true_iff in Hpost. now rewrite Hpost.
  - cbn [all_digits] in HN. apply andb_prop in HN as [Hc HN'].
    rewrite append_cons. cbn [span_digits]. now rewrite Hc, (IH HN').
Qed.

Lemma strip_ci_app_some (pat p r t : string) :
  Regex.strip_ci pat p = Some r -> Regex.strip_ci pat (p +:+ t) = Some (r +:+ t).
Proof.
  revert p. induction pat as [|x pat IH]; intros p; cbn [Regex.strip_ci].
  - intros H. now injection H as <-.
  - destruct p as [|c p']; [discriminate|].
    rewrite append_cons. destruct (Regex.ci_eqb x c); [apply IH | discriminate].
Qed.

Lemma strip_ci_app_none (p x : string) :
  p <> ""%string -> Regex.strip_ci "Available:" p = None ->
  Regex.strip_ci "Available:" (p +:+ "Available:" +:+ x) = None.
Proof.
  intros Hne H.
  destruct p as [|c1 [|c2 [|c3 [|c4 [|c5 [|c6 [|c7 [|c8 [|c9 [|c10 rest]]]]]]]]]];
    [contradiction|..];
    rewrite ?append_cons, ?append_nil_l; cbn [Regex.strip_ci] in *;
    repeat match goal with
           | |- context [if Regex.ci_eqb ?a ?b then _ else _] =>
               destruct (Regex.ci_eqb a b) eqn:?
           end;
    try reflexivity; try discriminate H;
    exfalso;
    match goal with
    | E : Regex.ci_eqb _ _ = true |- _ => vm_compute in E; discriminate E
    end.
Qed.

Lemma match_here_app_none (p x : string) :
  p <> ""%string -> Regex.match_here p = None ->
  Regex.match_here (p +:+ "Available:" +:+ x) = None.
Proof.
  intros Hne. unfold Regex.match_here.
  destruct (Regex.strip_ci "Available:" p) as [r|] eqn:E.
  - rewrite (strip_ci_app_some _ _ _ ("Available:" +:+ x) E).
    intros H.
    assert (Hr : fst (span_digits (skip_ws r)) = ""%string).
    { destruct (span_digits (skip_ws r)) as [[|c d] rest]; [reflexivity | discriminate H]. }
    pose proof (no_digits_after_ws r ("vailable:" +:+ x) Hr) as Hgoal.
    change (String "A" ("vailable:" +:+ x)) with ("Available:" +:+ x) in Hgoal.
    destruct (span_digits (skip_ws (r +:+ "Available:" +:+ x))) as [d rest].
    simpl in Hgoal. now subst d.
  - intros _. now rewrite (strip_ci_app_none p x Hne E).
Qed.

Lemma match_here_occurrence (N post : string) :
  N <> ""%string -> all_digits N = true -> no_digit_head post = true ->
  Regex.match_here ("Available: " +:+ N +:+ post) = Some N.
Proof.
  intros Hne HN Hpost. unfold Regex.match_here.
  change ("Available: " +:+ N +:+ post) with ("Available:" +:+ " " +:+ N +:+ post).
  rewrite (strip_ci_app_some "Available:" "Available:" "" (" " +:+ N +:+ post) eq_refl).
  rewrite append_nil_l.
  assert (Hws : skip_ws (" " +:+ N +:+ post) = N +:+ post).
  { rewrite (skip_ws_some (" " +:+ N +:+ post) (N +:+ post) eq_refl).
    destruct N as [|c N']; [contradiction|].
    cbn [all_digits] in HN. apply andb_prop in HN as [Hc _].
    rewrite append_cons. now apply skip_ws_digit. }
  rewrite Hws, (span_digits_app N post HN Hpost).
  destruct N; [contradiction | reflexivity].
Qed.

Lemma match_available_occurrence (pre N post : string) :
  Regex.match_available pre = None ->
  N <> ""%string -> all_digits N = true -> no_digit_head post = true ->
  Regex.match_available (pre +:+ "Available: " +:+ N +:+ post) = Some N.
Proof.
  intros Hpre Hne HN Hpost. induction pre as [|c pre IH].
  - rewrite append_nil_l, match_available_unfold.
    now rewrite (match_here_occurrence N post Hne HN Hpost).
  - rewrite match_available_unfold in Hpre.
    destruct (Regex.match_here (String c pre)) eqn:E; [discriminate|].
    rewrite match_available_unfold.
    change ("Available: " +:+ N +:+ post) with ("Available:" +:+ " " +:+ N +:+ post).
    rewrite (match_here_app_none (String c pre) (" " +:+ N +:+ post) (cons_nonempty c pre) E).
    rewrite append_cons. apply IH. exact Hpre.
Qed.

Lemma status_409_not_429 (e : error) : status_is e 409 = true -> status_is e 429 = false.
Proof.
  unfold status_is. destruct (response e) as [r|]; [|discriminate].
  intros H. apply Z.eqb_eq in H. now rewrite H.
Qed.

(** C4, as the handler computes it.  On a 409 whose error text ([detail],
    or [message] when [detail] is falsy) is matched by the pattern, with
    captured digits [N] of a value the number type holds exactly, the message
    is "Stock changed — only V left." where [V] is [N] without leading
    zeros.  It contains "left" and [V], hence [N] itself when [N] is written
    without leading zeros.  The pattern captures [N] in particular when the
    text reads "Available: " then [N] then something other than a digit,
    after a part in which the pattern does not match
    ([match_available_occurrence]). *)
Theorem stock_conflict_message (e : error) (N : string) (z : Z) :
  status_is e 409 = true ->
  Regex.match_available (qty_error_text e) = Some N ->
  digits_value N = Some z ->
  (z <= 2 ^ 53)%Z ->
  Cart.prettifyQtyError e
  = VStr ("Stock changed — only " +:+ strip_zeros N +:+ " left.")
  /\ contains "left" (to_string (Cart.prettifyQtyError e)) = true
  /\ contains (strip_zeros N) (to_string (Cart.prettifyQtyError e)) = true
  /\ (strip_zeros N = N -> contains N (to_string (Cart.prettifyQtyError e)) = true).
Proof.
  intros H409 Hm Hz _.
  destruct (match_available_digits _ _ Hm) as [Hne Hd].
  destruct (number_of_digits N Hne Hd) as (z' & Hz' & Hnum).
  assert (z' = z) as -> by congruence.
  assert (Hmsg : Cart.prettifyQtyError e
                 = VStr ("Stock changed — only " +:+ strip_zeros N +:+ " left.")).
  { unfold Cart.prettifyQtyError. rewrite (status_409_not_429 e H409).
    fold (qty_error_text e). rewrite Hm, H409. cbv zeta. rewrite Hnum.
    cbn [num_to_string]. now rewrite (render_digits N z Hz). }
  rewrite Hmsg. cbn [to_string prim_to_string VStr].
  split; [reflexivity|]. split; [|split].
  - replace ("Stock changed — only " +:+ strip_zeros N +:+ " left.")
      with (("Stock changed — only " +:+ strip_zeros N +:+ " ") +:+ "left" +:+ ".")
      by (now rewrite !append_assoc).
    apply contains_app.
  - apply contains_app.
  - intros ->. apply contains_app.
Qed.

Lemma stock_conflict_message_witness :
  Cart.prettifyQtyError (stock_conflict "Insufficient stock. Available: 3")
  = VStr "Stock changed — only 3 left."
  /\ contains "left"
       (to_string (Cart.prettifyQtyError (stock_conflict "Insufficient stock. Available: 3")))
     = true
  /\ contains "3"
       (to_string (Cart.prettifyQtyError (stock_conflict "Insufficient stock. Available: 3")))
     = true.
Proof.
  assert (Hle : (3 <= 2 ^ 53)%Z) by (vm_compute; discriminate).
  destruct (stock_conflict_message (stock_conflict "Insufficient stock. Available: 3")
              "3" 3%Z eq_refl eq_refl eq_refl Hle) as (Hmsg & Hleft & _ & Hn).
  split; [exact Hmsg | split; [exact Hleft | exact (Hn eq_refl)]].
Defined.

(** C4 as stated fails when [N] is written with leading zeros: the handler
    converts the captured digits to a number before printing them.  The
    error text contains "Available: 03"; the message is "Stock changed — only
    3 left." and does not contain "03". *)
Lemma stock_conflict_leading_zero :
  let e := stock_conflict "Insufficient stock. Available: 03" in
  status_is e 409 = true
  /\ contains "Available: 03" (to_string (data_prop "detail" e)) = true
  /\ Cart.prettifyQtyError e = VStr "Stock changed — only 3 left."
  /\ contains "03" (to_string (Cart.prettifyQtyError e)) = false.
Proof. repeat split. Qed.


(** * Further properties of the modelled code *)

(** ** Token store and remembered email *)

Lemma lookup_token_email : Auth.TOKEN_KEY <> Auth.USER_EMAIL_KEY.
Proof. discriminate. Qed.

(** X1. A token written by [auth.set] is read back by [auth.access], and
    [auth.clear] removes it: after [clear], also right after a [set],
    [access] returns [null]. *)
Theorem token_round_trip (tokens : value) (ls : Auth.storage) (t : string) :
  prop "access" tokens = VStr t -> t <> ""%string ->
  Auth.access (Auth.set tokens ls) = VStr t
  /\ Auth.access (Auth.clear (Auth.set tokens ls)) = null
  /\ Auth.access (Auth.clear ls) = null.
Proof.
  intros Hacc Hne. split; [|split].
  - now apply set_with_access.
  - unfold Auth.access, Auth.clear, Auth.removeItem, Auth.getItem.
    now rewrite lookup_delete_eq.
  - unfold Auth.access, Auth.clear, Auth.removeItem, Auth.getItem.
    now rewrite lookup_delete_eq.
Qed.

Lemma token_round_trip_witness :
  Auth.access (Auth.set (VObj [("access", VStr "jwt.abc"); ("refresh", VStr "r")]) ∅)
  = VStr "jwt.abc".
Proof.
  refine (proj1 (token_round_trip (VObj [("access", VStr "jwt.abc"); ("refresh", VStr "r")])
                   ∅ "jwt.abc"%string eq_refl _)).
  discriminate.
Defined.

(** X2. The token and the remembered email do not interfere: [auth.set] and
    [auth.clear] leave [currentUser.email] as it was, and setting the email
    leaves [auth.access()] as it was. *)
Theorem token_and_email_independent (v : value) (ls : Auth.storage) :
  Auth.email (Auth.set v ls) = Auth.email ls
  /\ Auth.email (Auth.clear ls) = Auth.email ls
  /\ Auth.access (Auth.set_email v ls) = Auth.access ls.
Proof.
  pose proof lookup_token_email as Hne.
  unfold Auth.email, Auth.access, Auth.set, Auth.clear, Auth.set_email,
    Auth.setItem, Auth.removeItem, Auth.getItem.
  split; [|split].
  - destruct (truthy (prop "access" v)); [|reflexivity].
    now rewrite lookup_insert_ne.
  - now rewrite lookup_delete_ne.
  - destruct (truthy v); [|reflexivity].
    rewrite lookup_insert_ne; [reflexivity | congruence].
Qed.

(** X3. [auth.access()] never returns an empty string: it is [null] or a
    non-empty token.  So an [Authorization] header written by the
    interceptor is "Bearer " followed by a non-empty token. *)
Theorem access_null_or_nonempty (ls : Auth.storage) (cfg : Api.config) :
  (Auth.access ls = null \/ exists t, t <> ""%string /\ Auth.access ls = VStr t)
  /\ (Api.headers (Api.interceptor ls cfg) <> Api.headers cfg ->
      Api.isPublic cfg = false ->
      exists t, t <> ""%string
                /\ prop "Authorization" (VObj (Api.headers (Api.interceptor ls cfg)))
                   = VStr ("Bearer " +:+ t)).
Proof.
  assert (H : Auth.access ls = null
              \/ exists t, t <> ""%string /\ Auth.access ls = VStr t).
  { unfold Auth.access, Auth.getItem, or_else.
    destruct (ls !! Auth.TOKEN_KEY) as [t|]; [|now left].
    simpl. destruct (String.eqb_spec t ""); simpl; [now left|].
    right. exists t. auto. }
  split; [exact H|].
  intros Hchg Hpriv. unfold Api.interceptor in *. rewrite Hpriv in *. simpl negb in *.
  cbv iota in *.
  destruct H as [H|(t & Hne & H)]; rewrite H in *.
  - simpl in Hchg. contradiction.
  - exists t. split; [exact Hne|].
    assert (truthy (VStr t) = true) as T
      by (simpl; apply String.eqb_neq in Hne; now rewrite Hne).
    rewrite T. simpl Api.headers. now rewrite prop_set_same.
Qed.

(** ** Request interceptor *)

Lemma set_prop_idem (k : string) (v : value) (o : obj) :
  set_prop k v (set_prop k v o) = set_prop k v o.
Proof.
  induction o as [|[k' v'] rest IH]; simpl.
  - now rewrite String.eqb_refl.
  - destruct (String.eqb k k') eqn:E; simpl.
    + now rewrite String.eqb_refl.
    + now rewrite E, IH.
Qed.

Lemma isPublic_interceptor (ls : Auth.storage) (cfg : Api.config) :
  Api.params (Api.interceptor ls cfg) = Api.params cfg.
Proof.
  unfold Api.interceptor.
  destruct (negb (Api.isPublic cfg));
    [destruct (truthy (Auth.access ls))
    |destruct (truthy (prop "Authorization" (VObj (Api.headers cfg))))]; reflexivity.
Qed.

(** X4. The interceptor is idempotent: a configuration that has passed
    through it once (a retried request) comes out unchanged the second
    time. *)
Theorem interceptor_idempotent (ls : Auth.storage) (cfg : Api.config) :
  Api.interceptor ls (Api.interceptor ls cfg) = Api.interceptor ls cfg.
Proof.
  assert (Hpub : Api.isPublic (Api.interceptor ls cfg) = Api.isPublic cfg)
    by (unfold Api.isPublic; now rewrite isPublic_interceptor).
  unfold Api.interceptor at 1. rewrite Hpub.
  unfold Api.interceptor.
  destruct (Api.isPublic cfg); simpl negb; cbv iota.
  - destruct (truthy (prop "Authorization" (VObj (Api.headers cfg)))) eqn:T.
    + simpl Api.headers. unfold prop at 1. now rewrite lookup_delete_same.
    + now rewrite T.
  - destruct (truthy (Auth.access ls)); [|reflexivity].
    simpl. now rewrite set_prop_idem.
Qed.

(** X5. The interceptor touches nothing but [Authorization]: the [params]
    and every other header leave as they came, whether the request is public
    or not. *)
Theorem interceptor_frame (ls : Auth.storage) (cfg : Api.config) (k : string) :
  Api.params (Api.interceptor ls cfg) = Api.params cfg
  /\ (k <> "Authorization"%string ->
      lookup_prop k (Api.headers (Api.interceptor ls cfg))
      = lookup_prop k (Api.headers cfg)).
Proof.
  split; [apply isPublic_interceptor|].
  intros Hk. unfold Api.interceptor.
  destruct (negb (Api.isPublic cfg)).
  - destruct (truthy (Auth.access ls)); [|reflexivity].
    simpl. now apply lookup_set_other.
  - destruct (truthy (prop "Authorization" (VObj (Api.headers cfg)))); [|reflexivity].
    simpl. now apply lookup_delete_other.
Qed.

Lemma interceptor_frame_witness :
  let ls : Auth.storage := <[Auth.TOKEN_KEY := "tok"%string]> ∅ in
  let cfg := {| Api.params := VObj [("page", VInt 2)];
                Api.headers := [("Accept", VStr "application/json")] |} in
  lookup_prop "Accept" (Api.headers (Api.interceptor ls cfg))
  = Some (VStr "application/json").
Proof.
  intros ls cfg.
  rewrite (proj2 (interceptor_frame ls cfg "Accept") ltac:(discriminate)).
  reflexivity.
Defined.

(** X6. Without a stored token a request that is not public passes through
    unchanged: nothing is attached, and an [Authorization] header that was
    already there (a stale credential) is not removed. *)
Theorem interceptor_logged_out (ls : Auth.storage) (cfg : Api.config) :
  Auth.access ls = null ->
  Api.isPublic cfg = false ->
  Api.interceptor ls cfg = cfg.
Proof.
  intros Hnone Hpriv. unfold Api.interceptor. now rewrite Hpriv, Hnone.
Qed.

Lemma interceptor_logged_out_witness :
  let cfg := {| Api.params := undefined;
                Api.headers := [("Authorization", VStr "Bearer old")] |} in
  lookup_prop "Authorization" (Api.headers (Api.interceptor (Auth.clear ∅) cfg))
  = Some (VStr "Bearer old").
Proof.
  intros cfg.
  assert (Hnone : Auth.access (Auth.clear ∅) = null) by (vm_compute; reflexivity).
  rewrite (interceptor_logged_out (Auth.clear ∅) cfg Hnone eq_refl).
  reflexivity.
Defined.

Lemma access_null_or_nonempty_witness :
  let ls : Auth.storage := <[Auth.TOKEN_KEY := "tok"%string]> ∅ in
  let cfg := {| Api.params := undefined; Api.headers := [] |} in
  exists t, t <> ""%string
            /\ prop "Authorization" (VObj (Api.headers (Api.interceptor ls cfg)))
               = VStr ("Bearer " +:+ t).
Proof.
  intros ls cfg.
  refine (proj2 (access_null_or_nonempty ls cfg) _ eq_refl).
  vm_compute. discriminate.
Defined.

(** ** Cart page: busy flags *)

Lemma nodup_snoc (i : prim) (l : list prim) :
  List.NoDup l -> ~ In i l -> List.NoDup (l ++ [i]).
Proof.
  induction 1 as [|x l Hx Hl IH]; simpl; intros Hi.
  - constructor; [intros [] | constructor].
  - constructor.
    + intros Hin. apply in_app_or in Hin as [Hin|[<-|[]]]; [contradiction|].
      apply Hi. now left.
    + apply IH. intros Hin. apply Hi. now right.
Qed.

Lemma nodup_remove (i : prim) (l : list prim) :
  List.NoDup l -> List.NoDup (remove prim_eq_dec i l).
Proof.
  induction 1 as [|x l Hx Hl IH]; simpl; [constructor|].
  destruct (prim_eq_dec i x); [exact IH|].
  constructor; [|exact IH].
  intros Hin. apply in_remove in Hin as [Hin _]. contradiction.
Qed.

(** X7. [setItemBusy(id, on)] makes [id] busy or not busy and changes the
    busy state of no other line; the set of busy ids never holds an id
    twice. *)
Theorem setItemBusy_exact (i j : prim) (on : bool) (st : Cart.page) :
  Cart.isItemBusy j (Cart.setItemBusy i on st)
  = (if prim_eq_dec i j then on else Cart.isItemBusy j st)
  /\ (List.NoDup (Cart.busyIds st) -> List.NoDup (Cart.busyIds (Cart.setItemBusy i on st))).
Proof.
  split.
  - unfold Cart.isItemBusy, Cart.setItemBusy. cbn [Cart.busyIds Cart.with_busyIds].
    destruct on.
    + destruct (in_dec prim_eq_dec i (Cart.busyIds st)) as [Hi|Hi].
      * destruct (prim_eq_dec i j) as [<-|Hij]; [|reflexivity].
        destruct (in_dec prim_eq_dec i (Cart.busyIds st)); [reflexivity | contradiction].
      * destruct (in_dec prim_eq_dec j (Cart.busyIds st ++ [i])) as [Hj|Hj];
          destruct (prim_eq_dec i j) as [<-|Hij]; try reflexivity.
        -- apply in_app_or in Hj as [Hj|[Hj|[]]]; [|contradiction].
           destruct (in_dec prim_eq_dec j (Cart.busyIds st)); [reflexivity | contradiction].
        -- exfalso. apply Hj. apply in_or_app. right. now left.
        -- destruct (in_dec prim_eq_dec j (Cart.busyIds st)) as [Hj'|]; [|reflexivity].
           exfalso. apply Hj. apply in_or_app. now left.
    + destruct (in_dec prim_eq_dec j (remove prim_eq_dec i (Cart.busyIds st))) as [Hj|Hj].
      * apply in_remove in Hj as [Hj Hne].
        destruct (prim_eq_dec i j) as [<-|_]; [contradiction|].
        destruct (in_dec prim_eq_dec j (Cart.busyIds st)); [reflexivity | contradiction].
      * destruct (prim_eq_dec i j) as [<-|Hij]; [reflexivity|].
        destruct (in_dec prim_eq_dec j (Cart.busyIds st)) as [Hj'|]; [|reflexivity].
        exfalso. apply Hj. apply in_in_remove; [congruence | exact Hj'].
  - intros Hnd. unfold Cart.setItemBusy. cbn [Cart.busyIds Cart.with_busyIds].
    destruct on.
    + destruct (in_dec prim_eq_dec i (Cart.busyIds st)); [exact Hnd|].
      now apply nodup_snoc.
    + now apply nodup_remove.
Qed.

Lemma setItemBusy_exact_witness :
  List.NoDup (Cart.busyIds (Cart.setItemBusy (PNum (Int 7)) true
                         (Cart.setItemBusy (PNum (Int 7)) true Cart.initial))).
Proof.
  apply (proj2 (setItemBusy_exact (PNum (Int 7)) (PNum (Int 7)) true
                  (Cart.setItemBusy (PNum (Int 7)) true Cart.initial))).
  apply (proj2 (setItemBusy_exact (PNum (Int 7)) (PNum (Int 7)) true Cart.initial)).
  constructor.
Defined.

Lemma busy_other_line (i j : prim) (on : bool) (st : Cart.page) :
  i <> j -> Cart.isItemBusy j (Cart.setItemBusy i on st) = Cart.isItemBusy j st.
Proof.
  intros Hij. unfold Cart.isItemBusy, Cart.setItemBusy.
  cbn [Cart.busyIds Cart.with_busyIds]. destruct on.
  - destruct (in_dec prim_eq_dec i (Cart.busyIds st)); [reflexivity|].
    destruct (in_dec prim_eq_dec j (Cart.busyIds st ++ [i])) as [Hj|Hj];
      destruct (in_dec prim_eq_dec j (Cart.busyIds st)) as [Hj'|Hj']; try reflexivity.
    + apply in_app_or in Hj as [Hj|[Hj|[]]]; contradiction.
    + exfalso. apply Hj. apply in_or_app. now left.
  - destruct (in_dec prim_eq_dec j (remove prim_eq_dec i (Cart.busyIds st))) as [Hj|Hj];
      destruct (in_dec prim_eq_dec j (Cart.busyIds st)) as [Hj'|Hj']; try reflexivity.
    + apply in_remove in Hj as [Hj _]. contradiction.
    + exfalso. apply Hj. apply in_in_remove; [congruence | exact Hj'].
Qed.

Lemma busyIds_load_settle r st :
  Cart.busyIds (Cart.load_settle r st) = Cart.busyIds st.
Proof. destruct r; reflexivity. Qed.

Lemma busyIds_reload r st :
  Cart.busyIds (Cart.load_settle r (fst (Cart.load_begin st))) = Cart.busyIds st.
Proof. destruct r; reflexivity. Qed.

Lemma busy_load_settle r st : Cart.busy (Cart.load_settle r st) = Cart.busy st.
Proof. destruct r; reflexivity. Qed.

Lemma isItemBusy_same_ids j st st' :
  Cart.busyIds st = Cart.busyIds st' -> Cart.isItemBusy j st = Cart.isItemBusy j st'.
Proof. unfold Cart.isItemBusy. now intros ->. Qed.

(** X8. The busy flags are released on every outcome.  When a quantity
    change or a removal settles, with a success or with a failure, its line
    is no longer busy and the other lines are as busy as they were; when a
    coupon request settles, the page-wide flag is off.  While the request is
    in flight the line (or the page) is busy. *)
Theorem busy_flags_released
  (p : Cart.pending) (i : prim) (r reload : outcome value) (now : Cart.page) :
  (Cart.isItemBusy (Cart.item p) (Cart.changeQty_settle p r reload now) = false
   /\ forall j, j <> Cart.item p ->
        Cart.isItemBusy j (Cart.changeQty_settle p r reload now) = Cart.isItemBusy j now)
  /\ (Cart.isItemBusy i (Cart.removeItem_settle i r reload now) = false
      /\ forall j, j <> i ->
           Cart.isItemBusy j (Cart.removeItem_settle i r reload now)
           = Cart.isItemBusy j now)
  /\ Cart.busy (Cart.applyCoupon_settle r reload now) = false
  /\ Cart.busy (Cart.removeCoupon_settle r reload now) = false
  /\ Cart.isItemBusy i (fst (Cart.removeItem_begin i now)) = true
  /\ Cart.busy (fst (Cart.removeCoupon_begin now)) = true.
Proof.
  split; [|split; [|split; [|split; [|split]]]].
  - unfold Cart.changeQty_settle. split; [apply setItemBusy_off_not_busy|].
    intros j Hj. rewrite busy_other_line by congruence.
    apply isItemBusy_same_ids. destruct r; [apply busyIds_reload | reflexivity].
  - unfold Cart.removeItem_settle. split; [apply setItemBusy_off_not_busy|].
    intros j Hj. rewrite busy_other_line by congruence.
    apply isItemBusy_same_ids. destruct r; [apply busyIds_reload | reflexivity].
  - reflexivity.
  - reflexivity.
  - unfold Cart.removeItem_begin. cbn [fst].
    transitivity (Cart.isItemBusy i (Cart.setItemBusy i true now));
      [now apply isItemBusy_same_ids | apply setItemBusy_on_busy].
  - reflexivity.
Qed.

(** ** Cart page: what a quantity change leaves behind *)

(** X9. After a PATCH that succeeded the page shows what the reload
    returned, not the optimistic cart: the fetched cart when the reload
    succeeds, and the empty zeroed cart with an error message when the reload
    fails (neither the optimistic quantity nor the earlier snapshot is
    kept). *)
Theorem changeQty_success_reloads
  (server : Cart.request -> outcome value) (itemId : prim) (nextQty : num)
  (st st1 : Cart.page) (p : Cart.pending) (rq : Cart.request) (answer : value) :
  Cart.changeQty_begin itemId nextQty st = Some (st1, p, rq) ->
  server rq = Resolved answer ->
  exists fin,
    Cart.changeQty server itemId nextQty st = Some fin
    /\ (forall d, server Cart.GetCart = Resolved d ->
          Cart.cart fin = d /\ Cart.err fin = VStr "")
    /\ (forall e, server Cart.GetCart = Rejected e ->
          Cart.cart fin = Cart.emptyCart /\ truthy (Cart.err fin) = true)
    /\ Cart.isItemBusy itemId fin = false.
Proof.
  intros Hb Hrq. unfold Cart.changeQty. rewrite Hb, Hrq.
  eexists. split; [reflexivity|].
  pose proof (changeQty_begin_inv _ _ _ _ _ _ Hb) as (_ & _ & Hitem & _ & _).
  unfold Cart.changeQty_settle. rewrite cart_setItemBusy, err_setItemBusy.
  split; [|split].
  - intros d Hd. rewrite Hd. split; reflexivity.
  - intros e He. rewrite He. split; [reflexivity|]. simpl.
    unfold or_else. destruct (truthy (data_prop "detail" e)) eqn:T; [exact T | reflexivity].
  - rewrite Hitem. apply setItemBusy_off_not_busy.
Qed.

Lemma changeQty_success_reloads_witness :
  let fresh := VObj [("items", VArr []); ("grand_total", VInt 0)] in
  let server := fun rq => match rq with
                          | Cart.GetCart => Resolved fresh
                          | _ => Resolved null
                          end in
  exists fin, Cart.changeQty server (PNum (Int 7)) (Int 3) sample_page = Some fin
              /\ Cart.cart fin = fresh.
Proof.
  intros fresh server.
  destruct (changeQty_begin_total (PNum (Int 7)) (Int 3) sample_page eq_refl)
    as (st1 & p & Hb).
  destruct (changeQty_success_reloads server _ _ _ _ _ _ null Hb eq_refl)
    as (fin & Hfin & Hok & _).
  exists fin. split; [exact Hfin | exact (proj1 (Hok fresh eq_refl))].
Defined.

(** X10. [changeQty] is idempotent on the quantity and keeps a number in
    range: clamping a clamped quantity changes nothing; without a maximum an
    integer becomes at least 1; with a maximum of at least 1 it ends between
    1 and that maximum.  [NaN] is not a number below 1 or above the maximum,
    so it is sent as it is. *)
Theorem clampQty_range (mq : option Z) (nextQty : num) :
  Cart.clampQty mq (Cart.clampQty mq nextQty) = Cart.clampQty mq nextQty
  /\ (forall n, nextQty = Int n -> mq = None ->
        Cart.clampQty mq nextQty = Int (Z.max n 1))
  /\ (forall n m, nextQty = Int n -> mq = Some m -> (1 <= m)%Z ->
        exists q, Cart.clampQty mq nextQty = Int q /\ (1 <= q <= m)%Z
                  /\ q = Z.min (Z.max n 1) m)
  /\ Cart.clampQty mq NaN = NaN.
Proof.
  unfold Cart.clampQty, num_gt. split; [|split; [|split]].
  - destruct mq as [m|], nextQty as [|n]; simpl; try reflexivity;
      repeat match goal with
             | |- context [Z.ltb ?a ?b] => destruct (Z.ltb_spec a b); simpl
             end; try reflexivity; exfalso; lia.
  - intros n -> ->. simpl. destruct (Z.ltb_spec n 1); f_equal; lia.
  - intros n m -> -> Hm. simpl.
    destruct (Z.ltb_spec n 1); simpl.
    + destruct (Z.ltb_spec m 1); [lia|]. exists 1%Z. repeat split; lia.
    + destruct (Z.ltb_spec m n).
      * exists m. repeat split; lia.
      * exists n. repeat split; lia.
  - destruct mq; reflexivity.
Qed.

Lemma clampQty_range_witness :
  exists q, Cart.clampQty (Some 5%Z) (Int 9) = Int q /\ (1 <= q <= 5)%Z.
Proof.
  destruct (proj1 (proj2 (proj2 (clampQty_range (Some 5%Z) (Int 9))))
              9%Z 5%Z eq_refl eq_refl ltac:(lia)) as (q & Hq & Hr & _).
  exists q. split; [exact Hq | exact Hr].
Defined.

(** ** Cart page: the plus and minus buttons *)

(** X11. On a cart whose [max_qty], if any, is an integer, when the plus
    button of a line is enabled and the line's quantity is an integer [q]
    that is not negative, pressing it sends exactly [q + 1]: the condition
    that disables the button is the one under which the maximum clamp would
    bite.  The coercions of [max_qty] and of the line's [qty] are taken where
    the number model renders them exactly, and [q + 1] where it is computed
    without rounding. *)
Theorem plus_button_increments (i : prim) (it : value) (st : Cart.page) (q : Z) :
  num_exact (prop "max_qty" (Cart.cart st)) = true ->
  num_exact (prop "qty" it) = true ->
  lines_ok (Cart.cart st) = true ->
  CartControls.plus_disabled i it st = false ->
  to_number (or_else (prop "qty" it) (VInt 0)) = Int q ->
  (0 <= q < 2 ^ 53)%Z ->
  exists st1 p,
    Cart.changeQty_begin i (CartControls.increase_qty it) st
    = Some (st1, p, Cart.PatchItem i (Int (q + 1))).
Proof.
  intros _ _ Hok Hdis Hq [Hpos _].
  destruct (changeQty_begin_total i (CartControls.increase_qty it) st Hok)
    as (st1 & p & Hb).
  exists st1, p. rewrite Hb. do 3 f_equal.
  unfold CartControls.increase_qty. rewrite Hq. simpl.
  unfold CartControls.plus_disabled in Hdis. apply orb_false_elim in Hdis as [_ Hmax].
  unfold Cart.clampQty, num_gt. simpl.
  destruct (Z.ltb_spec (q + 1) 1); [lia|].
  destruct (Cart.maxQty st) as [m|]; [|reflexivity].
  rewrite Hq in Hmax. simpl in Hmax. apply Z.leb_gt in Hmax.
  destruct (Z.ltb_spec m (q + 1)); [lia | reflexivity].
Qed.

Lemma plus_button_increments_witness :
  exists st1 p,
    Cart.changeQty_begin (PNum (Int 7))
      (CartControls.increase_qty (VObj [("id", VInt 7); ("qty", VInt 2)])) sample_page
    = Some (st1, p, Cart.PatchItem (PNum (Int 7)) (Int 3)).
Proof.
  apply (plus_button_increments (PNum (Int 7))
           (VObj [("id", VInt 7); ("qty", VInt 2)]) sample_page 2%Z);
    [reflexivity | reflexivity | reflexivity | reflexivity | reflexivity | lia].
Defined.

Ltac floor_cases :=
  repeat split; intros;
  repeat match goal with
         | H : Some _ = Some _ |- _ => injection H as H; subst
         | H : None = Some _ |- _ => discriminate H
         | H : forall m, Some ?x = Some m -> _ |- _ => specialize (H x eq_refl)
         | H : forall m, None = Some m -> _ |- _ => clear H
         end;
  lia.

(** X12. What the minus button sends, on a cart whose [max_qty], if any, is
    an integer and for a line whose quantity is an integer [q].  When the
    cart has no maximum or a maximum of at least 1, it never asks for less
    than 1: on a quantity of 1 or less (or a missing quantity) it sends 1
    again; on a quantity of 2 or more it sends [q - 1] when that fits under
    the maximum, and the maximum otherwise.  When the cart has a maximum
    below 1, it sends that maximum, whatever the quantity.  The coercions of
    [max_qty] and of the line's [qty] are taken where the number model
    renders them exactly. *)
Theorem minus_button_floor (i : prim) (it : value) (st : Cart.page) (q : Z) :
  num_exact (prop "max_qty" (Cart.cart st)) = true ->
  num_exact (prop "qty" it) = true ->
  lines_ok (Cart.cart st) = true ->
  to_number (or_else (prop "qty" it) (VInt 1)) = Int q ->
  (q <= 2 ^ 53)%Z ->
  exists st1 p sent,
    Cart.changeQty_begin i (CartControls.decrease_qty it) st
    = Some (st1, p, Cart.PatchItem i (Int sent))
    /\ ((forall m, Cart.maxQty st = Some m -> (1 <= m)%Z) ->
        (1 <= sent)%Z
        /\ ((q <= 1)%Z -> sent = 1%Z)
        /\ ((2 <= q)%Z ->
            (forall m, Cart.maxQty st = Some m -> (q - 1 <= m)%Z) ->
            sent = (q - 1)%Z)
        /\ ((2 <= q)%Z ->
            forall m, Cart.maxQty st = Some m -> (m < q - 1)%Z -> sent = m))
    /\ (forall m, Cart.maxQty st = Some m -> (m < 1)%Z -> sent = m).
Proof.
  intros _ _ Hok Hq _.
  destruct (changeQty_begin_total i (CartControls.decrease_qty it) st Hok)
    as (st1 & p & Hb).
  unfold CartControls.decrease_qty in *. rewrite Hq in *. simpl JSNum.sub in *.
  unfold Cart.clampQty, num_gt in Hb. simpl in Hb.
  destruct (Cart.maxQty st) as [m|] eqn:E.
  - destruct (Z.ltb_spec (q - 1) 1); simpl in Hb.
    + destruct (Z.ltb_spec m 1); [exists st1, p, m | exists st1, p, 1%Z];
        (split; [exact Hb|]); floor_cases.
    + destruct (Z.ltb_spec m (q - 1)); [exists st1, p, m | exists st1, p, (q - 1)%Z];
        (split; [exact Hb|]); floor_cases.
  - destruct (Z.ltb_spec (q - 1) 1); simpl in Hb;
      [exists st1, p, 1%Z | exists st1, p, (q - 1)%Z];
      (split; [exact Hb|]); floor_cases.
Qed.

Lemma minus_button_floor_witness :
  exists st1 p sent,
    Cart.changeQty_begin (PNum (Int 8))
      (CartControls.decrease_qty (VObj [("id", VInt 8); ("qty", VInt 1)])) sample_page
    = Some (st1, p, Cart.PatchItem (PNum (Int 8)) (Int sent))
    /\ sent = 1%Z.
Proof.
  assert (Hmax : forall m, Cart.maxQty sample_page = Some m -> (1 <= m)%Z).
  { intros m H. vm_compute in H. injection H as <-. discriminate. }
  destruct (minus_button_floor (PNum (Int 8)) (VObj [("id", VInt 8); ("qty", VInt 1)])
              sample_page 1%Z eq_refl eq_refl eq_refl eq_refl ltac:(lia))
    as (st1 & p & sent & Hb & Hfloor & _).
  exists st1, p, sent. split; [exact Hb|].
  destruct (Hfloor Hmax) as (_ & Hone & _). apply Hone. lia.
Defined.

(** ** Every failure shows a message *)

Lemma truthy_or_else (a b : value) : truthy b = true -> truthy (or_else a b) = true.
Proof. intros H. unfold or_else. destruct (truthy a) eqn:T; auto. Qed.

(** X13. Each handler of the cart, checkout and login pages that reports
    a failure sets an error that is truthy, so the alert that is rendered
    under a truthy [err] always appears: this holds of the cart's [load],
    [changeQty], [applyCoupon], [removeCoupon] and [removeItem], of
    [placeOrder] and of the login's [submit].  Of these, [load],
    [removeCoupon] and [removeItem] read [detail] only: without a truthy
    [detail] they show their own text, whatever [message] holds.  The two
    background loads of the checkout page are the failure paths that report
    nothing: a failed quote refresh and a failed load of the cart totals
    leave [err] as it was. *)
Theorem failures_show_a_message (e : error) :
  truthy (Cart.prettifyQtyError e) = true
  /\ truthy (Cart.applyCoupon_msg e) = true
  /\ truthy (Checkout.prettifyError e) = true
  /\ truthy (Login.error_message e) = true
  /\ (forall p reload st,
        truthy (Cart.err (Cart.changeQty_settle p (Rejected e) reload st)) = true)
  /\ (forall reload st,
        truthy (Cart.err (Cart.applyCoupon_settle (Rejected e) reload st)) = true
        /\ truthy (Cart.err (Cart.removeCoupon_settle (Rejected e) reload st)) = true)
  /\ (forall i reload st,
        truthy (Cart.err (Cart.removeItem_settle i (Rejected e) reload st)) = true)
  /\ (forall st, truthy (Cart.err (Cart.load_settle (Rejected e) st)) = true)
  /\ (forall st, truthy (Checkout.err (Checkout.placeOrder_settle (Rejected e) st)) = true)
  /\ (forall from ls st,
        truthy (Login.err (fst (fst (Login.submit_settle (Rejected e) from ls st)))) = true)
  /\ (truthy (data_prop "detail" e) = false ->
      forall i reload st,
        Cart.err (Cart.load_settle (Rejected e) st)
        = VStr "Could not load cart. Please refresh the page."
        /\ Cart.err (Cart.removeCoupon_settle (Rejected e) reload st)
           = VStr "Could not remove coupon. Please retry."
        /\ Cart.err (Cart.removeItem_settle i (Rejected e) reload st)
           = VStr "Could not remove item. Please retry.")
  /\ (forall sid st,
        Checkout.err (Checkout.loadQuotes_settle sid (Rejected e) st) = Checkout.err st)
  /\ (forall st,
        Checkout.err (Checkout.loadTotals_settle (Rejected e) st) = Checkout.err st
        /\ Checkout.cartTotals (Checkout.loadTotals_settle (Rejected e) st) = null).
Proof.
  assert (Hq : truthy (Cart.prettifyQtyError e) = true).
  { unfold Cart.prettifyQtyError. destruct (status_is e 429); [reflexivity|].
    cbv zeta.
    destruct (status_is e 409);
      [destruct (Regex.match_available _); [reflexivity|]|];
      repeat apply truthy_or_else; reflexivity. }
  assert (Hc : truthy (Cart.applyCoupon_msg e) = true).
  { unfold Cart.applyCoupon_msg. repeat apply truthy_or_else.
    destruct (status_is e 429); reflexivity. }
  assert (Ho : truthy (Checkout.prettifyError e) = true).
  { unfold Checkout.prettifyError. destruct (status_is e 429); [reflexivity|].
    cbv zeta.
    destruct (status_is e 409);
      [destruct (Regex.match_available _); [reflexivity|]|];
      repeat apply truthy_or_else; reflexivity. }
  assert (Hl : truthy (Login.error_message e) = true).
  { unfold Login.error_message. repeat apply truthy_or_else. reflexivity. }
  do 9 (split; [solve [auto | intros; simpl; auto; try split; simpl; auto;
                       now apply truthy_or_else]|]).
  split; [intros; exact Hl|].
  split; [|split; [reflexivity | intros; split; reflexivity]].
  intros Hd i reload st. cbn. unfold or_else. rewrite Hd. repeat split.
Qed.

Lemma failures_show_a_message_witness :
  let e := {| response := Some {| status := 500;
                                  data := VObj [("message", VStr "try later")] |} |} in
  Cart.err (Cart.load_settle (Rejected e) sample_page)
  = VStr "Could not load cart. Please refresh the page.".
Proof.
  intros e.
  destruct (failures_show_a_message e) as (_ & _ & _ & _ & _ & _ & _ & _ & _ & _ & Hd & _).
  exact (proj1 (Hd eq_refl (PNum (Int 7)) (Resolved null) sample_page)).
Defined.

(** ** Cart page: the coupon code that is posted *)

Lemma ws_strip_skip_ws (s : string) : ws_strip (skip_ws s) = None.
Proof.
  remember (String.length s) as n eqn:Hn. revert s Hn.
  induction n as [n IH] using lt_wf_ind. intros s Hn.
  destruct (ws_strip s) as [r|] eqn:E.
  - rewrite (skip_ws_some _ _ E). apply (IH (String.length r)); [|reflexivity].
    subst n. now apply ws_strip_length.
  - now rewrite (skip_ws_none _ E).
Qed.

Lemma skip_ws_idem (s : string) : skip_ws (skip_ws s) = skip_ws s.
Proof. apply skip_ws_none, ws_strip_skip_ws. Qed.

(** What [trim_right] removes is white space only. *)
Lemma trim_right_split (s : string) :
  exists u, s = trim_right s +:+ u /\ skip_ws u = ""%string.
Proof.
  induction s as [|c r IH]; [now exists ""%string|].
  cbn [trim_right]. destruct (String.eqb_spec (skip_ws (String c r)) "") as [Hws|Hws].
  - exists (String c r). split; [reflexivity | exact Hws].
  - destruct IH as (u & Hr & Hu). exists u. split; [|exact Hu].
    rewrite append_cons. now rewrite <- Hr.
Qed.

Lemma skip_ws_all_app (w u : string) :
  skip_ws w = ""%string -> skip_ws (w +:+ u) = skip_ws u.
Proof.
  remember (String.length w) as n eqn:Hn. revert w Hn.
  induction n as [n IH] using lt_wf_ind. intros w Hn Hw.
  destruct w as [|c w']; [reflexivity|].
  destruct (ws_strip (String c w')) as [r|] eqn:E.
  - rewrite (skip_ws_some _ _ (ws_strip_app_some _ _ u E)).
    apply (IH (String.length r)); [| reflexivity |].
    + subst n. now apply ws_strip_length.
    + now rewrite <- (skip_ws_some _ _ E).
  - rewrite (skip_ws_none _ E) in Hw. discriminate.
Qed.

Lemma trim_right_idem (s : string) : trim_right (trim_right s) = trim_right s.
Proof.
  induction s as [|c r IH]; [reflexivity|].
  cbn [trim_right]. destruct (String.eqb_spec (skip_ws (String c r)) "") as [Hws|Hws];
    [reflexivity|].
  cbn [trim_right]. rewrite IH.
  destruct (String.eqb_spec (skip_ws (String c (trim_right r))) "") as [Hw|Hw];
    [|reflexivity].
  exfalso. apply Hws.
  destruct (trim_right_split r) as (u & Hr & Hu).
  rewrite Hr at 1. rewrite <- append_cons.
  now rewrite (skip_ws_all_app _ u Hw).
Qed.

Lemma ws_strip_trim_right (t : string) :
  ws_strip t = None -> ws_strip (trim_right t) = None.
Proof.
  intros Ht. destruct (ws_strip (trim_right t)) as [r|] eqn:E; [|reflexivity].
  destruct (trim_right_split t) as (u & Hsplit & _).
  pose proof (ws_strip_app_some _ _ u E) as H. rewrite <- Hsplit in H. congruence.
Qed.

Lemma trim_no_leading_ws (s : string) : ws_strip (trim s) = None.
Proof. apply ws_strip_trim_right, ws_strip_skip_ws. Qed.

Lemma trim_idem (s : string) : trim (trim s) = trim s.
Proof.
  unfold trim at 1. rewrite (skip_ws_none _ (trim_no_leading_ws s)).
  unfold trim. apply trim_right_idem.
Qed.

Lemma trim_empty_iff (s : string) : trim s = ""%string <-> skip_ws s = ""%string.
Proof.
  unfold trim. split.
  - intros H. destruct (skip_ws s) as [|c r] eqn:E; [reflexivity|].
    cbn [trim_right] in H.
    assert (Hfix : skip_ws (String c r) = String c r)
      by (rewrite <- E; apply skip_ws_idem).
    rewrite Hfix in H. simpl in H. discriminate.
  - intros ->. reflexivity.
Qed.

(** X14. [applyCoupon] posts nothing, and changes nothing, exactly when the
    code field holds white space only (or is empty).  Otherwise the code it
    posts is the field trimmed: not empty, with no white space in front, and
    unchanged by trimming it again. *)
Theorem applyCoupon_posts_trimmed_code
  (server : Cart.request -> outcome value) (st : Cart.page) :
  (Cart.applyCoupon_begin st = None <-> skip_ws (Cart.code st) = ""%string)
  /\ (Cart.applyCoupon_begin st = None -> Cart.applyCoupon server st = st)
  /\ (forall st1 rq, Cart.applyCoupon_begin st = Some (st1, rq) ->
        rq = Cart.PostCoupon (trim (Cart.code st))
        /\ trim (Cart.code st) <> ""%string
        /\ ws_strip (trim (Cart.code st)) = None
        /\ trim (trim (Cart.code st)) = trim (Cart.code st)
        /\ Cart.cart st1 = Cart.cart st
        /\ Cart.busy st1 = true).
Proof.
  unfold Cart.applyCoupon, Cart.applyCoupon_begin. cbv zeta.
  destruct (String.eqb_spec (trim (Cart.code st)) "") as [Hb|Hb].
  - split; [|split].
    + split; [intros _; now apply trim_empty_iff | reflexivity].
    + reflexivity.
    + discriminate.
  - split; [|split].
    + split; [discriminate|]. intros H. apply trim_empty_iff in H. contradiction.
    + discriminate.
    + intros st1 rq H. injection H as <- <-.
      repeat split; auto using trim_no_leading_ws, trim_idem.
Qed.

Lemma applyCoupon_posts_trimmed_code_witness :
  let st := Cart.with_code "  WELCOME10 " Cart.initial in
  exists st1, Cart.applyCoupon_begin st = Some (st1, Cart.PostCoupon "WELCOME10").
Proof.
  intros st.
  destruct (Cart.applyCoupon_begin st) as [[st1 rq]|] eqn:E; [|discriminate E].
  destruct (proj2 (proj2 (applyCoupon_posts_trimmed_code (fun _ => Resolved null) st))
              st1 rq E) as (Hrq & _).
  exists st1. rewrite Hrq. reflexivity.
Defined.

(** ** Checkout page: the selected quote *)

(** X15. [selectedQuote] is always one of the quotes on the page: none when
    there are no quotes, the first quote whose id is [shippingId] when there
    is one, and the first quote of the list otherwise (also when
    [shippingId] names a quote that is not there). *)
Theorem selectedQuote_is_listed (st : Checkout.page) :
  let present :=
    existsb (fun x => prim_seq (Checkout.id x) (Checkout.shippingId st))
      (Checkout.quotes st) in
  (Checkout.quotes st = [] -> Checkout.selectedQuote st = None)
  /\ (Checkout.quotes st <> [] ->
      exists q, Checkout.selectedQuote st = Some q
                /\ In q (Checkout.quotes st)
                /\ (present = true ->
                    prim_seq (Checkout.id q) (Checkout.shippingId st) = true)
                /\ (present = false -> Some q = List.head (Checkout.quotes st))).
Proof.
  cbv zeta. unfold Checkout.selectedQuote.
  destruct (Checkout.quotes st) as [|q0 rest] eqn:E.
  - split; [reflexivity | intros H; contradiction].
  - split; [discriminate|]. intros _.
    destruct (find (fun x => prim_seq (Checkout.id x) (Checkout.shippingId st))
                (q0 :: rest)) as [q|] eqn:F.
    + exists q. apply find_some in F as [Hin Hq].
      repeat split; auto.
      intros Hnone. exfalso.
      assert (Hex : existsb (fun x => prim_seq (Checkout.id x) (Checkout.shippingId st))
                      (q0 :: rest) = true)
        by (apply existsb_exists; eauto).
      congruence.
    + exists q0. repeat split; auto; [now left|].
      intros Hp. exfalso. apply existsb_exists in Hp as (x & Hx & Hseq).
      now rewrite (find_none _ _ F x Hx) in Hseq.
Qed.

Lemma selectedQuote_is_listed_witness :
  let economy := {| Checkout.id := PNum (Int 1); Checkout.fields := [] |} in
  let st :=
    {| Checkout.email := ""; Checkout.address := []; Checkout.cartTotals := null;
       Checkout.quotes := [economy]; Checkout.shippingId := PNum (Int 9);
       Checkout.loading := false; Checkout.order := null; Checkout.err := VStr "" |} in
  exists q, Checkout.selectedQuote st = Some q /\ In q (Checkout.quotes st).
Proof.
  intros economy st.
  destruct (proj2 (selectedQuote_is_listed st) ltac:(discriminate))
    as (q & Hq & Hin & _).
  exists q. split; [exact Hq | exact Hin].
Defined.

(** X16. A quote refresh that fails empties the list of quotes but keeps
    [shippingId]: the page then shows no selected quote, and an order placed
    from that state still carries the earlier shipping method. *)
Theorem failed_refresh_keeps_method (sid : prim) (e : error) (st : Checkout.page) :
  let after := Checkout.loadQuotes_settle sid (Rejected e) st in
  Checkout.quotes after = []
  /\ Checkout.selectedQuote after = None
  /\ Checkout.shippingId after = Checkout.shippingId st
  /\ (truthy_prim (Checkout.shippingId st) = true ->
      forall st1 rq, Checkout.placeOrder_begin after = Some (st1, rq) ->
        rq = Checkout.PostCheckout (Some (Checkout.shippingId st))).
Proof.
  cbv zeta. repeat split.
  intros Hsel st1 rq. unfold Checkout.placeOrder_begin.
  destruct (negb (Checkout.canSubmit _) || Checkout.loading _); [discriminate|].
  intros H. injection H as _ <-. cbn [Checkout.loadQuotes_settle Checkout.shippingId
    Checkout.with_quotes]. now rewrite Hsel.
Qed.

Lemma failed_refresh_keeps_method_witness :
  let down := {| response := None |} in
  let after := Checkout.loadQuotes_settle (PNum (Int 2)) (Rejected down)
                 (ready_page (PNum (Int 2))) in
  exists st1, Checkout.placeOrder_begin after
              = Some (st1, Checkout.PostCheckout (Some (PNum (Int 2)))).
Proof.
  intros down after.
  destruct (Checkout.placeOrder_begin after) as [[st1 rq]|] eqn:E; [|discriminate E].
  exists st1.
  destruct (failed_refresh_keeps_method (PNum (Int 2)) down (ready_page (PNum (Int 2))))
    as (_ & _ & _ & H).
  now rewrite (H eq_refl st1 rq E).
Defined.

(** ** Checkout page: submitting *)

(** X17. An order cannot be submitted twice at once, nor from an empty
    cart: while a submission is running a second [placeOrder] issues nothing;
    it issues nothing either when the cart has no lines or was not loaded;
    and whatever the outcome, the submission ends with [loading] off. *)
Theorem placeOrder_single_submission (st : Checkout.page) (r : outcome value) :
  (forall st1 rq, Checkout.placeOrder_begin st = Some (st1, rq) ->
     Checkout.loading st1 = true
     /\ Checkout.placeOrder_begin st1 = None
     /\ Checkout.loading (Checkout.placeOrder_settle r st1) = false)
  /\ (Checkout.loading st = true -> Checkout.placeOrder_begin st = None)
  /\ (prop "items" (Checkout.cartTotals st) = VArr [] ->
      Checkout.placeOrder_begin st = None)
  /\ (nullish (Checkout.cartTotals st) = true -> Checkout.placeOrder_begin st = None).
Proof.
  split; [|split; [|split]].
  - intros st1 rq. unfold Checkout.placeOrder_begin.
    destruct (negb (Checkout.canSubmit st) || Checkout.loading st); [discriminate|].
    intros H. injection H as <- _.
    repeat split. cbn [Checkout.loading Checkout.with_err Checkout.with_loading].
    now rewrite orb_true_r.
  - intros Hl. unfold Checkout.placeOrder_begin. now rewrite Hl, orb_true_r.
  - intros Hitems. unfold Checkout.placeOrder_begin, Checkout.canSubmit.
    rewrite Hitems. simpl. now rewrite !andb_false_r.
  - intros Hnull. unfold Checkout.placeOrder_begin, Checkout.canSubmit.
    destruct (Checkout.cartTotals st) as [[| | | |]| |]; try discriminate Hnull;
      simpl; now rewrite !andb_false_r.
Qed.

Lemma placeOrder_single_submission_witness :
  exists st1 rq, Checkout.placeOrder_begin (ready_page PNull) = Some (st1, rq)
                 /\ Checkout.placeOrder_begin st1 = None.
Proof.
  destruct (Checkout.placeOrder_begin (ready_page PNull)) as [[st1 rq]|] eqn:E;
    [|discriminate E].
  exists st1, rq. split; [reflexivity|].
  exact (proj1 (proj2 (proj1 (placeOrder_single_submission (ready_page PNull)
                                (Resolved null)) st1 rq E))).
Defined.

(** ** Which failures are rewritten *)

(** X18. The error text of the cart's quantity change and of the checkout
    is rewritten for a 429 and for a 409 whose text matches the pattern, and
    for nothing else.  A 429 gives the page's fixed text.  On a 409 whose
    text is matched the checkout page prints the captured digits as they
    stand (leading zeros included).  On a 409 whose text is not matched, and
    on every other status, both pages show the server's [detail], else its
    [message], else their own fallback, verbatim, even when the text holds an
    "Available:" count; a failure without a response shows the fallback.
    Conversely, a text that differs from that one comes from a 429 or from a
    matching 409. *)
Theorem only_conflicts_are_rewritten (e : error) :
  let raw_checkout :=
    or_else (data_prop "detail" e)
      (or_else (data_prop "message" e) (VStr "Could not place order.")) in
  let raw_cart :=
    or_else (data_prop "detail" e)
      (or_else (data_prop "message" e) (VStr "Could not update quantity.")) in
  (status_is e 429 = true ->
     Checkout.prettifyError e
     = VStr "Too many requests — please try again in a moment."
     /\ Cart.prettifyQtyError e
        = VStr "You're doing that too quickly. Please slow down and try again.")
  /\ (forall N, status_is e 409 = true ->
        Regex.match_available (to_string raw_checkout) = Some N ->
        Checkout.prettifyError e
        = VStr ("Stock changed — only " +:+ N +:+ " left on one or more items.")
        /\ contains N (to_string (Checkout.prettifyError e)) = true)
  /\ (status_is e 409 = true ->
      Regex.match_available (to_string raw_checkout) = None ->
      Checkout.prettifyError e = raw_checkout)
  /\ (status_is e 409 = true ->
      Regex.match_available (to_string raw_cart) = None ->
      Cart.prettifyQtyError e = raw_cart)
  /\ (status_is e 429 = false -> status_is e 409 = false ->
      Checkout.prettifyError e = raw_checkout
      /\ Cart.prettifyQtyError e = raw_cart)
  /\ (response e = None ->
      Checkout.prettifyError e = VStr "Could not place order."
      /\ Cart.prettifyQtyError e = VStr "Could not update quantity.")
  /\ (Checkout.prettifyError e <> raw_checkout ->
      status_is e 429 = true
      \/ (status_is e 409 = true
          /\ Regex.match_available (to_string raw_checkout) <> None))
  /\ (Cart.prettifyQtyError e <> raw_cart ->
      status_is e 429 = true
      \/ (status_is e 409 = true
          /\ Regex.match_available (to_string raw_cart) <> None)).
Proof.
  cbv zeta. unfold Checkout.prettifyError, Cart.prettifyQtyError.
  split; [|split; [|split; [|split; [|split; [|split; [|split]]]]]].
  - intros ->. split; reflexivity.
  - intros N H409 Hm.
    rewrite (status_409_not_429 e H409), H409. cbv zeta. rewrite Hm.
    split; [reflexivity|]. cbn [to_string prim_to_string VStr]. apply contains_app.
  - intros H409 Hm. rewrite (status_409_not_429 e H409), H409. cbv zeta.
    now rewrite Hm.
  - intros H409 Hm. rewrite (status_409_not_429 e H409), H409. cbv zeta.
    now rewrite Hm.
  - intros H429 H409. rewrite H429, H409. cbv zeta. split; reflexivity.
  - intros Hnone. unfold status_is, data_prop. rewrite Hnone. split; reflexivity.
  - destruct (status_is e 429); [now left|]. cbv zeta.
    destruct (status_is e 409); [|intros H; now contradiction H].
    destruct (Regex.match_available _); [|intros H; now contradiction H].
    intros _. right. split; [reflexivity | discriminate].
  - destruct (status_is e 429); [now left|]. cbv zeta.
    destruct (status_is e 409); [|intros H; now contradiction H].
    destruct (Regex.match_available _); [|intros H; now contradiction H].
    intros _. right. split; [reflexivity | discriminate].
Qed.

Lemma only_conflicts_are_rewritten_witness :
  Checkout.prettifyError (stock_conflict "Insufficient stock. Available: 03")
  = VStr "Stock changed — only 03 left on one or more items."
  /\ Cart.prettifyQtyError (stock_conflict "Insufficient stock for this item.")
     = VStr "Insufficient stock for this item.".
Proof.
  split.
  - exact (proj1 (proj1 (proj2 (only_conflicts_are_rewritten
                                  (stock_conflict "Insufficient stock. Available: 03")))
                    "03"%string eq_refl eq_refl)).
  - exact (proj1 (proj2 (proj2 (proj2 (only_conflicts_are_rewritten
                                         (stock_conflict "Insufficient stock for this item.")))))
             eq_refl eq_refl).
Defined.

(** ** Orders page: every load *)

Lemma demoEmail_nonempty (ls : Auth.storage) : Orders.demoEmail ls <> ""%string.
Proof.
  unfold Orders.demoEmail. cbv zeta.
  destruct (String.eqb_spec
              (trim (to_string (or_else (Auth.email ls) (VStr "")))) "");
    [discriminate | assumption].
Qed.

(** X19. Whatever the server answers, a load of the orders page ends with
    the skeleton gone ([orders] is never left [null]) and the page marked as
    loaded.  It issues one request, or two when it falls back; a page mounted
    without a token never requests the personal orders; and an email-keyed
    request never carries an empty email. *)
Theorem orders_load_always (server : Orders.request -> outcome value)
  (authed : bool) (ls : Auth.storage) (st : Orders.page) :
  let after := Orders.load server authed ls st in
  truthy (Orders.orders (fst after)) = true
  /\ Orders.loadedRef (fst after) = true
  /\ (List.length (snd after) = 1 \/ List.length (snd after) = 2)
  /\ (authed = false -> snd after = [Orders.GetOrdersByEmail (Orders.demoEmail ls)])
  /\ (List.length (snd after) = 2 -> authed = true /\ Orders.loadedRef st = false)
  /\ (forall m, In (Orders.GetOrdersByEmail m) (snd after) -> m <> ""%string).
Proof.
  cbv zeta. unfold Orders.load.
  set (first := if authed then Orders.GetMyOrders
                else Orders.GetOrdersByEmail (Orders.demoEmail ls)).
  assert (Hfirst : forall m, first = Orders.GetOrdersByEmail m -> m <> ""%string).
  { intros m. unfold first. destruct authed; [discriminate|].
    intros H. injection H as <-. apply demoEmail_nonempty. }
  assert (Htr : forall d, truthy (or_else d (VArr [])) = true)
    by (intros d; now apply truthy_or_else).
  destruct (server first) as [d|e] eqn:E1.
  - cbn [fst snd Orders.orders Orders.loadedRef]. repeat split; auto.
    + intros ->. reflexivity.
    + discriminate.
    + discriminate.
    + intros m [H|[]]. now apply Hfirst.
  - destruct (authed && status_is e 401 && negb (Orders.loadedRef st)) eqn:C.
    + apply andb_prop in C as [C Hl]. apply andb_prop in C as [Ha _].
      apply negb_true_iff in Hl.
      destruct (server (Orders.GetOrdersByEmail (Orders.demoEmail ls))) as [b|e2];
        cbn [fst snd Orders.orders Orders.loadedRef]; repeat split; auto;
        try (intros ->; discriminate);
        intros m [H|[H|[]]]; [now apply Hfirst | injection H as <-; apply demoEmail_nonempty
                             |now apply Hfirst | injection H as <-; apply demoEmail_nonempty].
    + cbn [fst snd Orders.orders Orders.loadedRef]. repeat split; auto.
      * intros ->. reflexivity.
      * discriminate.
      * discriminate.
      * intros m [H|[]]. now apply Hfirst.
Qed.

Lemma orders_load_always_witness :
  let server := fun _ : Orders.request => @Rejected value {| response := None |} in
  snd (Orders.load server false ∅ Orders.initial)
  = [Orders.GetOrdersByEmail "buyer@example.com"].
Proof.
  intros server.
  destruct (orders_load_always server false ∅ Orders.initial)
    as (_ & _ & _ & Hpub & _).
  rewrite (Hpub eq_refl). reflexivity.
Defined.

(** ** My-orders page: the redirect to the login *)

Lemma navigations_app (a b : list MyOrders.effect) :
  navigations (a ++ b) = (navigations a + navigations b)%nat.
Proof. unfold navigations. now rewrite List.filter_app, List.length_app. Qed.

Lemma fetches_app (a b : list MyOrders.effect) :
  fetches (a ++ b) = (fetches a + fetches b)%nat.
Proof. unfold fetches. now rewrite List.filter_app, List.length_app. Qed.

Lemma myorders_load_step (answer : outcome value) (ls : Auth.storage)
  (st : MyOrders.page) :
  let r := MyOrders.load answer ls st in
  fetches (snd r) = (if truthy (Auth.access ls) then 1 else 0)%nat
  /\ (MyOrders.redirectedRef st = true ->
      navigations (snd r) = 0%nat /\ MyOrders.redirectedRef (fst r) = true)
  /\ (MyOrders.redirectedRef st = false ->
      (navigations (snd r) = 0%nat /\ MyOrders.redirectedRef (fst r) = false)
      \/ (navigations (snd r) = 1%nat /\ MyOrders.redirectedRef (fst r) = true)).
Proof.
  cbv zeta. unfold MyOrders.load.
  destruct (truthy (Auth.access ls)); cbn [negb].
  - destruct answer as [d|e].
    + cbn. repeat split; auto.
    + destruct (status_is e 401); destruct (MyOrders.redirectedRef st) eqn:R;
        cbn; rewrite ?R; repeat split; auto; discriminate.
  - destruct (MyOrders.redirectedRef st) eqn:R; cbn; rewrite ?R;
      repeat split; auto; discriminate.
Qed.

Lemma myorders_loads_inv (runs : list (outcome value * Auth.storage)) :
  forall st : MyOrders.page,
  let r := MyOrders.loads runs st in
  fetches (snd r) = List.length (List.filter signed_in runs)
  /\ (MyOrders.redirectedRef st = true ->
      navigations (snd r) = 0%nat /\ MyOrders.redirectedRef (fst r) = true)
  /\ (MyOrders.redirectedRef st = false ->
      (navigations (snd r) = 0%nat /\ MyOrders.redirectedRef (fst r) = false)
      \/ (navigations (snd r) = 1%nat /\ MyOrders.redirectedRef (fst r) = true)).
Proof.
  induction runs as [|[answer ls] rest IH]; intros st; cbv zeta.
  - cbn. repeat split; auto.
  - cbn [MyOrders.loads].
    pose proof (myorders_load_step answer ls st) as Hstep. cbv zeta in Hstep.
    destruct (MyOrders.load answer ls st) as [st1 fx1].
    specialize (IH st1). cbv zeta in IH.
    destruct (MyOrders.loads rest st1) as [st2 fx2].
    cbn [fst snd] in *.
    destruct Hstep as (Hf1 & Ht1 & Hn1). destruct IH as (Hf2 & Ht2 & Hn2).
    rewrite fetches_app, navigations_app, Hf1, Hf2.
    split; [|split].
    + unfold signed_in at 2. cbn [List.filter snd].
      fold signed_in. destruct (truthy (Auth.access ls)); reflexivity.
    + intros R. destruct (Ht1 R) as [-> R1]. destruct (Ht2 R1) as [-> R2]. auto.
    + intros R. destruct (Hn1 R) as [[-> R1]|[-> R1]].
      * destruct (Hn2 R1) as [[-> R2]|[-> R2]]; auto.
      * destruct (Ht2 R1) as [-> R2]. auto.
Qed.

(** X20. However often the my-orders page loads (the mount, then every
    Retry), and whatever the server answers and the storage holds each time,
    it navigates to the login at most once, and not at all once the redirect
    flag is set; a redirect leaves the flag set.  It fetches the orders
    exactly in the loads that find a token. *)
Theorem myorders_redirects_once (runs : list (outcome value * Auth.storage))
  (st : MyOrders.page) :
  let after := MyOrders.loads runs st in
  (navigations (snd after) <= 1)%nat
  /\ (MyOrders.redirectedRef st = true -> navigations (snd after) = 0%nat)
  /\ (navigations (snd after) = 1%nat -> MyOrders.redirectedRef (fst after) = true)
  /\ fetches (snd after) = List.length (List.filter signed_in runs).
Proof.
  cbv zeta. destruct (myorders_loads_inv runs st) as (Hf & Ht & Hn).
  cbv zeta in *. repeat split; auto.
  - destruct (MyOrders.redirectedRef st) eqn:R.
    + destruct (Ht eq_refl) as [-> _]. lia.
    + destruct (Hn eq_refl) as [[-> _]|[-> _]]; lia.
  - intros R. now destruct (Ht R).
  - intros H1. destruct (MyOrders.redirectedRef st) eqn:R.
    + now destruct (Ht eq_refl).
    + destruct (Hn eq_refl) as [[H0 _]|[_ ?]]; [congruence | assumption].
Qed.

Lemma myorders_redirects_once_witness :
  let expired := @Rejected value {| response := Some {| status := 401; data := null |} |} in
  let ls : Auth.storage := <[Auth.TOKEN_KEY := "abc"%string]> ∅ in
  let after := MyOrders.loads [(expired, ls); (expired, ls); (expired, ∅)]
                 MyOrders.initial in
  navigations (snd after) = 1%nat
  /\ MyOrders.redirectedRef (fst after) = true
  /\ fetches (snd after) = 2%nat.
Proof.
  intros expired ls after.
  destruct (myorders_redirects_once [(expired, ls); (expired, ls); (expired, ∅)]
              MyOrders.initial) as (_ & _ & Hflag & Hfetch).
  assert (Hone : navigations (snd after) = 1%nat) by (vm_compute; reflexivity).
  split; [exact Hone|]. split; [exact (Hflag Hone)|].
  etransitivity; [exact Hfetch|]. vm_compute. reflexivity.
Defined.

(** ** Login page *)



(** X22. A login that the server answers successfully but without a truthy
    [access] field is treated as a success: no error is shown and the page
    navigates on, yet nothing is stored.  For a user who was signed out, the
    pages behind the login then send the user straight back to it, without a
    request. *)
Theorem login_without_token_bounces (d from : value) (ls : Auth.storage)
  (st : Login.page) :
  truthy (prop "access" d) = false -> truthy (Auth.access ls) = false ->
  let after := Login.submit_settle (Resolved d) from ls st in
  let stored := snd (fst after) in
  stored = ls
  /\ Login.err (fst (fst after)) = Login.err st
  /\ snd after = Some (Login.destination from)
  /\ (forall answer,
        snd (MyOrders.load answer stored MyOrders.initial) = [MyOrders.NavLogin])
  /\ (forall answer,
        AdminGuard.requested (AdminGuard.check answer stored) = false
        /\ AdminGuard.navigated (AdminGuard.check answer stored)
           = Some AdminGuard.ToLogin).
Proof.
  intros Hacc Hout. cbv zeta. cbn [Login.submit_settle fst snd].
  assert (Hset : Auth.set d ls = ls) by (unfold Auth.set; now rewrite Hacc).
  rewrite Hset. repeat split.
  - intros answer. unfold MyOrders.load. now rewrite Hout.
  - unfold AdminGuard.check. now rewrite Hout.
  - unfold AdminGuard.check. now rewrite Hout.
Qed.

Lemma login_without_token_bounces_witness :
  let after := Login.submit_settle (Resolved (VObj [("detail", VStr "ok")])) undefined ∅
                 {| Login.username := "ann"; Login.password := "pw";
                    Login.err := VStr ""; Login.busy := true |} in
  snd after = Some (VStr "/my-orders")
  /\ snd (MyOrders.load (Resolved (VArr [])) (snd (fst after)) MyOrders.initial)
     = [MyOrders.NavLogin].
Proof.
  intros after.
  assert (Hout : truthy (Auth.access (∅ : Auth.storage)) = false)
    by (vm_compute; reflexivity).
  destruct (login_without_token_bounces (VObj [("detail", VStr "ok")]) undefined ∅
              {| Login.username := "ann"; Login.password := "pw";
                 Login.err := VStr ""; Login.busy := true |} eq_refl Hout)
    as (_ & _ & Hnav & Hback & _).
  split; [exact Hnav | exact (Hback (Resolved (VArr [])))].
Defined.

(** X23. The login form posts only complete credentials, and only once at
    a time.  A username of white space only, or an empty password, is refused
    with a message and no request; what is posted is the trimmed, non-empty
    username and the password as typed; and while that request runs a second
    submit is ignored. *)
Theorem login_submit_guards (st : Login.page) :
  (Login.busy st = true -> Login.submit_begin st = Login.Ignored)
  /\ (Login.busy st = false ->
      skip_ws (Login.username st) = ""%string \/ Login.password st = ""%string ->
      Login.submit_begin st
      = Login.Refused (Login.with_err (VStr "Please enter username and password.") st))
  /\ (forall st1 u p, Login.submit_begin st = Login.Posted st1 u p ->
        u = trim (Login.username st) /\ u <> ""%string
        /\ p = Login.password st /\ p <> ""%string
        /\ Login.submit_begin st1 = Login.Ignored).
Proof.
  unfold Login.submit_begin. split; [|split].
  - now intros ->.
  - intros -> H. cbv zeta.
    destruct H as [H|H].
    + apply trim_empty_iff in H. now rewrite H.
    + rewrite H. now rewrite orb_true_r.
  - intros st1 u p. destruct (Login.busy st); [discriminate|]. cbv zeta.
    destruct (String.eqb_spec (trim (Login.username st)) ""); [discriminate|].
    destruct (String.eqb_spec (Login.password st) ""); [discriminate|].
    cbn [orb]. intros H. injection H as <- <- <-. repeat split; auto.
Qed.

Lemma login_submit_guards_witness :
  Login.submit_begin
    {| Login.username := "  "; Login.password := "secret";
       Login.err := VStr ""; Login.busy := false |}
  = Login.Refused
      {| Login.username := "  "; Login.password := "secret";
         Login.err := VStr "Please enter username and password.";
         Login.busy := false |}.
Proof.
  exact (proj1 (proj2 (login_submit_guards
                         {| Login.username := "  "; Login.password := "secret";
                            Login.err := VStr ""; Login.busy := false |}))
           eq_refl (or_introl eq_refl)).
Defined.

(** ** Admin guard *)

(** X24. The admin guard shows its children exactly when a token is stored
    and the server answers with a truthy [is_staff].  It asks the server only
    when a token is stored; every denial navigates away, to the login when
    there is no token and to the home page otherwise. *)
Theorem admin_guard_admits_staff_only (answer : outcome value) (ls : Auth.storage) :
  let r := AdminGuard.check answer ls in
  (AdminGuard.shows_children r = true <->
     truthy (Auth.access ls) = true
     /\ exists d, answer = Resolved d /\ truthy (prop "is_staff" d) = true)
  /\ AdminGuard.requested r = truthy (Auth.access ls)
  /\ (AdminGuard.shows_children r = false -> AdminGuard.navigated r <> None)
  /\ (AdminGuard.navigated r = Some AdminGuard.ToLogin <->
      truthy (Auth.access ls) = false)
  /\ (AdminGuard.navigated r = Some AdminGuard.ToHome ->
      AdminGuard.requested r = true /\ AdminGuard.shows_children r = false).
Proof.
  cbv zeta. unfold AdminGuard.check, AdminGuard.shows_children.
  destruct (truthy (Auth.access ls)); cbn [negb].
  - destruct answer as [d|e].
    + destruct (truthy (prop "is_staff" d)) eqn:S; cbn;
        (split; [split|]); try (repeat split; (discriminate || tauto)).
      * intros _. split; [reflexivity|]. now exists d.
      * intros [_ (d' & Hd & Ht)]. injection Hd as <-. congruence.
    + cbn. (split; [split|]); try (repeat split; (discriminate || tauto)).
      all: try (intros [_ (d' & Hd & _)]; discriminate).
  - cbn. (split; [split|]); try (repeat split; (discriminate || tauto)).
    all: try (intros [H _]; discriminate).
Qed.

Lemma admin_guard_admits_staff_only_witness :
  let ls : Auth.storage := <[Auth.TOKEN_KEY := "abc"%string]> ∅ in
  AdminGuard.shows_children
    (AdminGuard.check (Resolved (VObj [("is_staff", VBool true)])) ls) = true.
Proof.
  intros ls.
  apply (proj2 (proj1 (admin_guard_admits_staff_only
                         (Resolved (VObj [("is_staff", VBool true)])) ls))).
  split; [vm_compute; reflexivity|].
  exists (VObj [("is_staff", VBool true)]). split; reflexivity.
Defined.

(** ** Returns page: the attachment map *)

Lemma attachments_entries_listed (server : Returns.request -> outcome value)
  (oid : string) (l : list value) :
  Forall (fun rr => nullish rr = false) l ->
  Returns.attachments_entries server oid l
  = Some (map (fun rr => (to_string (prop "id" rr),
                          attachments_of server oid (to_string (prop "id" rr)))) l).
Proof.
  induction 1 as [|rr rest Hrr _ IH]; [reflexivity|].
  cbn [Returns.attachments_entries map]. rewrite IH.
  unfold Returns.attachments_entry, prop_strict, attachments_of. rewrite Hrr.
  cbv zeta. now destruct (server _).
Qed.

Lemma fold_set_prop_lookup (f : string -> value) (entries : list (string * value)) :
  (forall en, In en entries -> snd en = f (fst en)) ->
  forall (acc : obj) (k : string),
  lookup_prop k (fold_left (fun o en => set_prop (fst en) (snd en) o) entries acc)
  = if existsb (String.eqb k) (map fst entries) then Some (f k) else lookup_prop k acc.
Proof.
  induction entries as [|[k0 v0] rest IH]; intros Hf acc k; [reflexivity|].
  cbn [fold_left map existsb fst snd].
  rewrite IH by (intros en Hen; apply Hf; now right).
  destruct (existsb (String.eqb k) (map fst rest)); [now rewrite orb_true_r|].
  rewrite orb_false_r. destruct (String.eqb_spec k k0) as [->|Hne].
  - rewrite lookup_set_same. f_equal. exact (Hf (k0, v0) (or_introl eq_refl)).
  - now apply lookup_set_other.
Qed.

(** X25. [loadReturns] gives every return of the list its entry in the
    attachment map, and the map has no other key: the entry is the list the
    server returned for that return, and [[]] when that one fetch failed,
    which never fails the load.  When the list of returns itself cannot be
    fetched, the returns and the map are both emptied. *)
Theorem loadReturns_attachment_map (server : Returns.request -> outcome value)
  (oid : string) (st : Returns.page) :
  let after := Returns.loadReturns server oid st in
  (forall e, server (Returns.GetReturns oid) = Rejected e ->
     Returns.rmas after = VArr [] /\ Returns.attsByReturn after = [])
  /\ (forall d l,
        server (Returns.GetReturns oid) = Resolved d ->
        or_else d (VArr []) = VArr l ->
        Forall (fun rr => nullish rr = false) l ->
        Returns.rmas after = VArr l
        /\ (forall rr, In rr l ->
              let key := to_string (prop "id" rr) in
              lookup_prop key (Returns.attsByReturn after)
              = Some (attachments_of server oid key)
              /\ (forall e, server (Returns.GetAttachments oid key) = Rejected e ->
                    lookup_prop key (Returns.attsByReturn after) = Some (VArr [])))
        /\ (forall k v, lookup_prop k (Returns.attsByReturn after) = Some v ->
              exists rr, In rr l /\ k = to_string (prop "id" rr))).
Proof.
  cbv zeta. unfold Returns.loadReturns. split.
  - intros e ->. split; reflexivity.
  - intros d l -> -> Hl. rewrite (attachments_entries_listed server oid l Hl).
    cbn [Returns.with_returns Returns.rmas Returns.attsByReturn].
    unfold Returns.fromEntries.
    set (entries := map (fun rr => (to_string (prop "id" rr),
                          attachments_of server oid (to_string (prop "id" rr)))) l).
    assert (Hf : forall en, In en entries ->
                   snd en = attachments_of server oid (fst en)).
    { intros en Hen. apply in_map_iff in Hen as (rr & <- & _). reflexivity. }
    pose proof (fold_set_prop_lookup (attachments_of server oid) entries Hf []) as Hlk.
    assert (Hkeys : forall k, existsb (String.eqb k) (map fst entries) = true <->
                      exists rr, In rr l /\ k = to_string (prop "id" rr)).
    { intros k. rewrite existsb_exists. split.
      - intros (k' & Hin & Heq). apply String.eqb_eq in Heq. subst k'.
        apply in_map_iff in Hin as ([k1 v1] & Hk & Hin). cbn in Hk. subst k1.
        apply in_map_iff in Hin as (rr & Hrr & Hin). exists rr. split; [exact Hin|].
        now injection Hrr as <- _.
      - intros (rr & Hin & ->). exists (to_string (prop "id" rr)).
        split; [|apply String.eqb_refl].
        apply in_map_iff.
        exists (to_string (prop "id" rr),
                attachments_of server oid (to_string (prop "id" rr))).
        split; [reflexivity|]. apply in_map_iff. now exists rr. }
    split; [reflexivity|]. split.
    + intros rr Hin.
      assert (Hthere : lookup_prop (to_string (prop "id" rr))
                         (fold_left (fun o en => set_prop (fst en) (snd en) o) entries [])
                       = Some (attachments_of server oid (to_string (prop "id" rr)))).
      { rewrite Hlk. now rewrite (proj2 (Hkeys _) (ex_intro _ rr (conj Hin eq_refl))). }
      split; [exact Hthere|].
      intros e He. rewrite Hthere. unfold attachments_of. now rewrite He.
    + intros k v. rewrite Hlk.
      destruct (existsb (String.eqb k) (map fst entries)) eqn:E; [|discriminate].
      intros _. now apply Hkeys.
Qed.

Lemma loadReturns_attachment_map_witness :
  let server := fun rq : Returns.request =>
    match rq with
    | Returns.GetReturns _ => Resolved (VArr [VObj [("id", VInt 5)]])
    | _ => Rejected {| response := None |}
    end in
  lookup_prop "5" (Returns.attsByReturn
                     (Returns.loadReturns server "7" (sample_returns PNull (Int 1))))
  = Some (VArr []).
Proof.
  intros server.
  destruct (proj2 (loadReturns_attachment_map server "7" (sample_returns PNull (Int 1)))
              (VArr [VObj [("id", VInt 5)]]) [VObj [("id", VInt 5)]] eq_refl eq_refl
              ltac:(repeat constructor)) as (_ & Hentry & _).
  exact (proj2 (Hentry (VObj [("id", VInt 5)]) (or_introl eq_refl))
           {| response := None |} eq_refl).
Defined.

(** ** Returns page: the quantity of a return *)

Lemma createRma_begin_issued (st st1 : Returns.page) (rq : Returns.request) (k m : Z) :
  Returns.createRma_begin st = Returns.Issued (st1, rq) ->
  Returns.qty st = Int k ->
  Returns.maxQtyForSelected st = Some (Int m) ->
  rq = Returns.PostReturn (Returns.order_id st) (Returns.selectedItem st)
         (Int (Z.max 1 (Z.min k m))) (Returns.slice200 (Returns.reason st))
  /\ truthy_prim (Returns.selectedItem st) = true
  /\ Returns.busy st1 = true.
Proof.
  unfold Returns.createRma_begin. intros H Hk Hm.
  destruct (truthy_prim (Returns.selectedItem st)) eqn:Hsel; [|discriminate].
  destruct (truthy (Returns.order st)); [|discriminate].
  cbn [negb orb] in H. rewrite Hm, Hk in H. injection H as <- <-.
  repeat split.
Qed.

(** X26. [createRma] posts the selected line with a quantity clamped
    between 1 and the quantity of that line: the form's quantity when it lies
    in that range, 1 when it is below 1 or when the line's quantity is below
    1, and the line's quantity when it is above it.  It posts only for a
    selected item, and marks the page busy. *)
Theorem createRma_posted_quantity (st st1 : Returns.page) (rq : Returns.request)
  (k m : Z) :
  Returns.createRma_begin st = Returns.Issued (st1, rq) ->
  Returns.qty st = Int k ->
  Returns.maxQtyForSelected st = Some (Int m) ->
  exists q,
    rq = Returns.PostReturn (Returns.order_id st) (Returns.selectedItem st) (Int q)
           (Returns.slice200 (Returns.reason st))
    /\ (1 <= q)%Z
    /\ (1 <= m -> q <= m)%Z
    /\ (1 <= k <= m -> q = k)%Z
    /\ (k < 1 \/ m < 1 -> q = 1)%Z
    /\ (1 <= m < k -> q = m)%Z
    /\ truthy_prim (Returns.selectedItem st) = true
    /\ Returns.busy st1 = true.
Proof.
  intros H Hk Hm.
  destruct (createRma_begin_issued st st1 rq k m H Hk Hm) as (-> & Hsel & Hbusy).
  exists (Z.max 1 (Z.min k m)).
  repeat split; try assumption; lia.
Qed.

Lemma createRma_posted_quantity_witness :
  exists st1 q,
    Returns.createRma_begin (sample_returns (PNum (Int 11)) (Int 5))
    = Returns.Issued (st1, Returns.PostReturn "7" (PNum (Int 11)) (Int q) "Did not fit")
    /\ q = 3%Z.
Proof.
  pose (s := sample_returns (PNum (Int 11)) (Int 5)).
  pose (st1 := Returns.with_err (VStr "") (Returns.with_busy true s)).
  assert (E : Returns.createRma_begin s
              = Returns.Issued (st1, Returns.PostReturn "7" (PNum (Int 11)) (Int 3)
                                       "Did not fit"))
    by (vm_compute; reflexivity).
  destruct (createRma_posted_quantity s st1 _ 5 3 E eq_refl eq_refl)
    as (q & Hrq & _ & _ & _ & _ & Hq & _).
  assert (Hq3 : q = 3%Z) by (apply Hq; lia).
  exists st1, q. split; [rewrite Hq3; exact E | exact Hq3].
Defined.

Lemma maxQtyForSelected_with_qty (st : Returns.page) (q : num) :
  Returns.maxQtyForSelected
    (Returns.with_form (Returns.selectedItem st) q (Returns.reason st) st)
  = Returns.maxQtyForSelected st.
Proof. reflexivity. Qed.

(** X27. The quantity field keeps what createRma will post.  For a typed
    integer and a line of quantity [m >= 1], the field stores the typed
    number when it lies between 1 and [m], 1 for an empty field, a zero or a
    smaller number, and [m] for a larger one; and a return created from that
    state posts exactly the stored quantity. *)
Theorem quantity_field_is_posted (st : Returns.page) (text : string) (m : Z) :
  num_exact (VStr text) = true ->
  Returns.maxQtyForSelected st = Some (Int m) ->
  (1 <= m)%Z ->
  let st' := Returns.with_form (Returns.selectedItem st)
               (Returns.qty_input text (Int m)) (Returns.reason st) st in
  exists z k,
    to_number (VStr text) = Int z
    /\ Returns.qty st' = Int k
    /\ (1 <= k <= m)%Z
    /\ (1 <= z <= m -> k = z)%Z
    /\ (z < 1 -> k = 1)%Z
    /\ (m < z -> k = m)%Z
    /\ (forall st1 rq, Returns.createRma_begin st' = Returns.Issued (st1, rq) ->
          rq = Returns.PostReturn (Returns.order_id st) (Returns.selectedItem st)
                 (Int k) (Returns.slice200 (Returns.reason st))).
Proof.
  intros Hexact Hmax Hm. cbv zeta.
  change (VStr text) with (VPrim (PStr text)) in *.
  unfold num_exact in Hexact.
  destruct (to_number (VPrim (PStr text))) as [|z] eqn:Hz; [discriminate|].
  set (typed := if Z.eqb z 0 then 1%Z else z).
  assert (Hq : Returns.qty_input text (Int m) = Int (Z.max 1 (Z.min typed m))).
  { unfold Returns.qty_input. change (VStr text) with (VPrim (PStr text)).
    rewrite Hz. unfold typed. destruct (Z.eqb z 0); reflexivity. }
  exists z, (Z.max 1 (Z.min typed m)).
  assert (Htyped : ((z = 0 /\ typed = 1) \/ (z <> 0 /\ typed = z))%Z).
  { unfold typed. destruct (Z.eqb_spec z 0); [left | right]; auto. }
  split; [reflexivity|]. split; [exact Hq|].
  split; [lia|]. split; [lia|]. split; [lia|]. split; [lia|].
  intros st1 rq Hbegin.
  destruct (createRma_begin_issued _ st1 rq (Z.max 1 (Z.min typed m)) m Hbegin Hq
              (eq_trans (maxQtyForSelected_with_qty st _) Hmax))
    as (-> & _).
  cbn [Returns.with_form Returns.selectedItem Returns.reason].
  replace (Z.max 1 (Z.min (Z.max 1 (Z.min typed m)) m))
    with (Z.max 1 (Z.min typed m)) by lia.
  reflexivity.
Qed.

Lemma quantity_field_is_posted_witness :
  Returns.qty_input "9" (Int 3) = Int 3.
Proof.
  destruct (quantity_field_is_posted (sample_returns (PNum (Int 11)) (Int 1)) "9" 3
              eq_refl eq_refl ltac:(lia))
    as (z & k & Hz & Hk & _ & _ & _ & Habove & _).
  assert (Hnine : to_number (VStr "9") = Int 9) by (vm_compute; reflexivity).
  assert (z = 9%Z) as -> by congruence.
  rewrite (Habove ltac:(lia)) in Hk. exact Hk.
Defined.

(** X28. Once [createRma] has posted, a success resets the form (no item
    selected, quantity 1, the default reason), so a second click returns
    without a request; a failure shows a message and keeps the form, so a
    second click posts the same request again.  Either way the page is no
    longer busy. *)
Theorem createRma_reset_and_retry (server : Returns.request -> outcome value)
  (st st1 : Returns.page) (rq : Returns.request) (d : value) (e : error) :
  Returns.createRma_begin st = Returns.Issued (st1, rq) ->
  let done := Returns.createRma_settle server (Resolved d) st1 in
  let failed := Returns.createRma_settle server (Rejected e) st1 in
  Returns.createRma_begin done = Returns.Returned
  /\ Returns.selectedItem done = PNull
  /\ Returns.qty done = Int 1
  /\ Returns.reason done = "Did not fit"%string
  /\ Returns.busy done = false
  /\ Returns.rmas done
     = Returns.rmas (Returns.loadReturns server (Returns.order_id st) st)
  /\ (exists st2, Returns.createRma_begin failed = Returns.Issued (st2, rq))
  /\ truthy (Returns.err failed) = true
  /\ Returns.busy failed = false.
Proof.
  unfold Returns.createRma_begin at 1. intros H.
  destruct (negb (truthy_prim (Returns.selectedItem st))
            || negb (truthy (Returns.order st))) eqn:G; [discriminate|].
  destruct (Returns.maxQtyForSelected st) as [maxQ|] eqn:M; [|discriminate].
  injection H as <- <-. cbv zeta.
  split; [reflexivity|]. split; [reflexivity|]. split; [reflexivity|].
  split; [reflexivity|]. split; [reflexivity|]. split.
  { unfold Returns.createRma_settle, Returns.loadReturns, Returns.order_id.
    cbn [Returns.with_err Returns.with_busy Returns.order].
    destruct (server _) as [a|x]; [|reflexivity].
    destruct (or_else a (VArr [])) as [| l |]; try reflexivity.
    destruct (Returns.attachments_entries server _ l); reflexivity. }
  split; [|split; [|reflexivity]].
  - unfold Returns.createRma_begin, Returns.createRma_settle.
    cbn [Returns.with_err Returns.with_busy Returns.selectedItem Returns.order].
    rewrite G.
    change (Returns.maxQtyForSelected _) with (Returns.maxQtyForSelected st).
    rewrite M. eexists. reflexivity.
  - cbn. now apply truthy_or_else.
Qed.

Lemma createRma_reset_and_retry_witness :
  let server := fun _ : Returns.request => @Rejected value {| response := None |} in
  exists st1 rq,
    Returns.createRma_begin (sample_returns (PNum (Int 11)) (Int 2))
    = Returns.Issued (st1, rq)
    /\ Returns.createRma_begin
         (Returns.createRma_settle server (Resolved null) st1) = Returns.Returned.
Proof.
  intros server.
  pose (s := sample_returns (PNum (Int 11)) (Int 2)).
  pose (st1 := Returns.with_err (VStr "") (Returns.with_busy true s)).
  assert (E : Returns.createRma_begin s
              = Returns.Issued (st1, Returns.PostReturn "7" (PNum (Int 11)) (Int 2)
                                       "Did not fit"))
    by (vm_compute; reflexivity).
  exists st1, (Returns.PostReturn "7" (PNum (Int 11)) (Int 2) "Did not fit").
  split; [exact E|].
  exact (proj1 (createRma_reset_and_retry server s st1 _ null {| response := None |} E)).
Defined.

(** ** Returns page: uploads *)

(** X29. An upload whose file was stored but whose listing then failed is
    reported as failed: a message is shown, there is no alert, the attachment
    map is unchanged and the file stays chosen, so that a second click posts
    it again.  After a full success the file is cleared and a second click
    posts nothing; only the entry of that return changes in the map. *)
Theorem upload_outcomes (rid d0 : value) (e : error) (st : Returns.page) :
  Returns.file st = true -> truthy (Returns.order st) = true ->
  let lost := Returns.upload_settle rid (Resolved d0) (Rejected e) st in
  snd lost = false
  /\ truthy (Returns.err (fst lost)) = true
  /\ Returns.attsByReturn (fst lost) = Returns.attsByReturn st
  /\ Returns.uploading (fst lost) = false
  /\ (exists st1, Returns.upload_begin rid (fst lost)
                  = Some (st1, Returns.PostAttachment (Returns.order_id st)
                                 (to_string rid)))
  /\ (forall d,
        let done := Returns.upload_settle rid (Resolved d0) (Resolved d) st in
        snd done = true
        /\ Returns.upload_begin rid (fst done) = None
        /\ lookup_prop (to_string rid) (Returns.attsByReturn (fst done))
           = Some (or_else d (VArr []))
        /\ (forall k, k <> to_string rid ->
              lookup_prop k (Returns.attsByReturn (fst done))
              = lookup_prop k (Returns.attsByReturn st))).
Proof.
  intros Hfile Horder. cbv zeta.
  split; [reflexivity|]. split; [cbn; now apply truthy_or_else|].
  split; [reflexivity|]. split; [reflexivity|]. split.
  - unfold Returns.upload_begin, Returns.upload_settle.
    cbn [fst Returns.with_uploading Returns.with_err Returns.file Returns.order].
    rewrite Hfile, Horder. eexists. reflexivity.
  - intros d. split; [reflexivity|]. split; [reflexivity|].
    cbn [Returns.upload_settle fst Returns.with_uploading Returns.with_file
         Returns.with_returns Returns.attsByReturn].
    split; [apply lookup_set_same | intros k Hk; now apply lookup_set_other].
Qed.

Lemma upload_outcomes_witness :
  let s := sample_returns PNull (Int 1) in
  exists st1,
    Returns.upload_begin (VInt 5)
      (fst (Returns.upload_settle (VInt 5) (Resolved null)
              (Rejected {| response := None |}) s))
    = Some (st1, Returns.PostAttachment "7" "5").
Proof.
  intros s.
  destruct (upload_outcomes (VInt 5) null {| response := None |} s eq_refl eq_refl)
    as (_ & _ & _ & _ & (st1 & H) & _).
  exists st1. exact H.
Defined.

(** ** Cart page: after a coupon request *)

(** X30. An accepted coupon clears the code field, whatever the reload
    gives; a refused one keeps the code and the cart, and removing a coupon
    never touches the code field.  After an accepted coupon the cart is the
    one the reload returned; when that reload fails the page shows the empty
    cart with a message, and checkout is not offered. *)
Theorem coupon_settles (d : value) (e : error) (r reload : outcome value)
  (st : Cart.page) :
  Cart.code (Cart.applyCoupon_settle (Resolved d) reload st) = ""%string
  /\ Cart.code (Cart.applyCoupon_settle (Rejected e) reload st) = Cart.code st
  /\ Cart.cart (Cart.applyCoupon_settle (Rejected e) reload st) = Cart.cart st
  /\ Cart.code (Cart.removeCoupon_settle r reload st) = Cart.code st
  /\ (forall c,
        Cart.cart (Cart.applyCoupon_settle (Resolved d) (Resolved c) st) = c
        /\ Cart.err (Cart.applyCoupon_settle (Resolved d) (Resolved c) st) = VStr "")
  /\ (let lost := Cart.applyCoupon_settle (Resolved d) (Rejected e) st in
      Cart.cart lost = Cart.emptyCart
      /\ truthy (Cart.err lost) = true
      /\ CartControls.canCheckout lost = false).
Proof.
  split; [destruct reload; reflexivity|].
  split; [reflexivity|]. split; [reflexivity|].
  split; [destruct r; [destruct reload|]; reflexivity|].
  split; [intros c; split; reflexivity|].
  cbv zeta. split; [reflexivity|]. split; [|reflexivity].
  cbn. now apply truthy_or_else.
Qed.

Lemma busy_flags_released_witness :
  let p := {| Cart.prev := sample_cart; Cart.item := PNum (Int 11);
              Cart.qty := Int 2 |} in
  let now := Cart.setItemBusy (PNum (Int 12)) true
               (Cart.setItemBusy (PNum (Int 11)) true sample_page) in
  let after := Cart.changeQty_settle p (Rejected {| response := None |})
                 (Resolved sample_cart) now in
  Cart.isItemBusy (PNum (Int 11)) after = false
  /\ Cart.isItemBusy (PNum (Int 12)) after = true.
Proof.
  intros p now after.
  destruct (busy_flags_released p (PNum (Int 11)) (Rejected {| response := None |})
              (Resolved sample_cart) now) as ((Hown & Hother) & _).
  split; [exact Hown|].
  unfold after. rewrite (Hother (PNum (Int 12)) ltac:(discriminate)). reflexivity.
Defined.
